(** * NotebookLM2PPT: the layout reconstruction engine of [utils/ppt_creater.py]

    A shallow embedding of the geometric core of [ppt_creater.py] and the
    properties its specification states about it.

    Conventions of the embedding.
    - A Python number that may be an [int] or a [float] (a coordinate, a
      scale factor, a canvas size) is a rational [Q]; floating-point
      arithmetic is read as exact arithmetic, so the literals [0.6],
      [0.75] and [1e-2] are the rationals 3/5, 3/4 and 1/100.  Values
      that the code forces to [int] ([int(..)], [round(..)], [//]) are [Z].
    - A layout block's [block_bbox] is a four-number array and is unpacked
      four ways wherever it is used: it is the record [BBox].  An OCR
      [rec_boxes] entry is guarded by [len(bbox) >= 4] in the passes over
      the data and is kept as the list of numbers it is.
    - A Python exception is an explicit outcome ([None], or a constructor
      of [Outcome]). *)

From Stdlib Require Import ZArith QArith Qround Qabs Qminmax Lia Lqa Bool.
From Stdlib Require Import Ascii String Sorting.Sorted.
From stdpp Require Import base option list strings gmap.

Local Open Scope Z_scope.
Local Open Scope Q_scope.

(** ** Python numerics *)

Module Py.

(** [int(x)] on a number: truncation toward zero. *)
Definition int (x : Q) : Z := Z.quot (Qnum x) (Zpos (Qden x)).

(** [np.ceil(x)] followed by [int(..)]. *)
Definition ceil (x : Q) : Z := Qceiling x.

(** [round(x)] with one argument: nearest integer, ties to the even one. *)
Definition round (x : Q) : Z :=
  let f := Qfloor x in
  match Qcompare (x - inject_Z f) (1 # 2) with
  | Lt => f
  | Gt => (f + 1)%Z
  | Eq => if Z.even f then f else (f + 1)%Z
  end.

(** [a < b] and [a <= b] as the booleans Python computes. *)
Definition ltb (a b : Q) : bool := negb (Qle_bool b a).
Definition leb (a b : Q) : bool := Qle_bool a b.

(** [max(a, b)] and [min(a, b)] return their first argument unless the
    second is strictly better; [Qmax] and [Qmin] do the same. *)
Definition max (a b : Q) : Q := Qmax a b.
Definition min (a b : Q) : Q := Qmin a b.

End Py.

(** ** Data model *)

(** [block_bbox], [x1, y1, x2, y2]. *)
Record BBox : Type := mkBBox { bx1 : Q; by1 : Q; bx2 : Q; by2 : Q }.

(** An entry of [parsing_res_list].  A key that is absent is [None]. *)
Record Block : Type := mkBlock {
  block_label : option string;
  block_content : option string;
  block_bbox : option BBox
}.

(** ** Font size *)

Definition calculate_font_size (height : Q) (min_font_size : Z)
    (is_multiline : bool) (line_count : Z) : Z :=
  let font_size :=
    if is_multiline && (1 <? line_count)%Z then
      let line_height := height / inject_Z line_count in
      line_height * (3 # 4)
    else height * (3 # 4) in
  Z.max min_font_size (Py.int font_size).

(** The default of [min_font_size]. *)
Definition default_min_font_size : Z := 8.

(** ** Geometry utilities *)

Definition expand_bbox (bbox : BBox) (expand_px : Q) (size : Q * Q) : BBox :=
  let '(width, height) := size in
  let 'mkBBox x1 y1 x2 y2 := bbox in
  let x1 := Py.max 0 (x1 - expand_px) in
  let y1 := Py.max 0 (y1 - expand_px) in
  let x2 := Py.min width (x2 + expand_px) in
  let y2 := Py.min height (y2 + expand_px) in
  mkBBox x1 y1 x2 y2.

(** The four [int]s of [scale_bbox(bbox, s, make_int=True)]. *)
Definition scale_bbox_ints (bbox : BBox) (s : Q) : Z * Z * Z * Z :=
  let 'mkBBox l t r b := bbox in
  (Py.int (l * s), Py.int (t * s), Py.ceil (r * s), Py.ceil (b * s)).

(** [scale_bbox(bbox, s, make_int)].  With [make_int] the result holds the
    four [int]s, as integral rationals so that the box can be stored back
    as a [block_bbox]. *)
Definition scale_bbox (bbox : BBox) (s : Q) (make_int : bool) : BBox :=
  if make_int then
    let '(l, t, r, b) := scale_bbox_ints bbox s in
    mkBBox (inject_Z l) (inject_Z t) (inject_Z r) (inject_Z b)
  else
    let 'mkBBox l t r b := bbox in
    mkBBox (l * s) (t * s) (r * s) (b * s).

(** ** Exceptions *)

Inductive PyError : Type :=
| ZeroDivisionError
| AssertionError
| ValueError
| IndexError
| LibraryError.

Inductive Outcome (A : Type) : Type :=
| Ok (a : A)
| Raise (e : PyError).
Arguments Ok {A} a.
Arguments Raise {A} e.

#[global] Instance outcome_ret : MRet Outcome := fun A a => Ok a.
#[global] Instance outcome_bind : MBind Outcome := fun A B k m =>
  match m with
  | Ok a => k a
  | Raise e => Raise e
  end.

(** [l, t, r, b = box]: a box of any other length raises [ValueError]. *)
Definition unpack4 (box : list Q) : Outcome BBox :=
  match box with
  | [a; b; c; d] => Ok (mkBBox a b c d)
  | _ => Raise ValueError
  end.

Definition box_list (b : BBox) : list Q := [bx1 b; by1 b; bx2 b; by2 b].

(** ** Text of a block

    A character is a code point below 256; [str.lower] and the white space
    of [str.strip] are Python's on that range. *)

Definition is_space (c : ascii) : bool :=
  let n := nat_of_ascii c in
  ((9 <=? n) && (n <=? 13) || (28 <=? n) && (n <=? 32)
   || (n =? 133) || (n =? 160))%nat.

Definition lower_char (c : ascii) : ascii :=
  let n := nat_of_ascii c in
  if ((65 <=? n) && (n <=? 90)
      || (192 <=? n) && (n <=? 222) && negb (n =? 215))%nat
  then ascii_of_nat (n + 32) else c.

Fixpoint lower (s : string) : string :=
  match s with
  | EmptyString => EmptyString
  | String c s' => String (lower_char c) (lower s')
  end.

Fixpoint lstrip (s : string) : string :=
  match s with
  | EmptyString => EmptyString
  | String c s' => if is_space c then lstrip s' else s
  end.

(** [rstrip] keeps a character when it is not white space or when
    something is kept after it. *)
Fixpoint rstrip (s : string) : string :=
  match s with
  | EmptyString => EmptyString
  | String c s' =>
      match rstrip s' with
      | EmptyString => if is_space c then EmptyString else String c EmptyString
      | t => String c t
      end
  end.

Definition strip (s : string) : string := rstrip (lstrip s).

Definition is_empty (s : string) : bool :=
  match s with EmptyString => true | _ => false end.

(** [needle in hay]. *)
Fixpoint contains (needle hay : string) : bool :=
  String.prefix needle hay
  || match hay with
     | EmptyString => false
     | String _ hay' => contains needle hay'
     end.

(** ** Line count *)

Definition y_center (b : BBox) : Q := (by1 b + by2 b) / 2.
Definition box_height (b : BBox) : Q := by2 b - by1 b.

(** The first loop of [get_line_count]: unpack each OCR box and append it
    to [contained_boxes] when its centre lies in the block. *)
Fixpoint select_contained (block_bbox : BBox) (ocr_boxes : list (list Q))
    (contained_boxes : list BBox) : Outcome (list BBox) :=
  match ocr_boxes with
  | [] => Ok contained_boxes
  | obox :: rest =>
      o ← unpack4 obox;
      let cx := (bx1 o + bx2 o) / 2 in
      let cy := (by1 o + by2 o) / 2 in
      if Py.leb (bx1 block_bbox) cx && Py.leb cx (bx2 block_bbox)
         && Py.leb (by1 block_bbox) cy && Py.leb cy (by2 block_bbox)
      then select_contained block_bbox rest (contained_boxes ++ [o])
      else select_contained block_bbox rest contained_boxes
  end.

(** [list.sort(key=..)] is stable: an element goes in front of the first
    one whose key is not smaller. *)
Fixpoint insert_by_key (key : BBox -> Q) (x : BBox) (l : list BBox) : list BBox :=
  match l with
  | [] => [x]
  | y :: l' =>
      if Py.leb (key x) (key y) then x :: y :: l'
      else y :: insert_by_key key x l'
  end.

Fixpoint sort_by_key (key : BBox -> Q) (l : list BBox) : list BBox :=
  match l with
  | [] => []
  | x :: l' => insert_by_key key x (sort_by_key key l')
  end.

(** The loop variables of the clustering loop. *)
Record LineState : Type := mkLineState {
  line_count : Z;
  last_y_center : Q;
  last_h : Q
}.

(** The body of [for j in range(1, len(contained_boxes))]. *)
Definition line_step (st : LineState) (box : BBox) : LineState :=
  let curr_y_center := y_center box in
  let curr_h := box_height box in
  if Py.ltb (Py.max (last_h st) curr_h * (3 # 5))
            (Qabs (curr_y_center - last_y_center st))
  then mkLineState (line_count st + 1) curr_y_center curr_h
  else st.

Definition get_line_count (block_bbox : BBox) (ocr_boxes : list (list Q))
    : Outcome Z :=
  contained_boxes ← select_contained block_bbox ocr_boxes [];
  match contained_boxes with
  | [] => Ok 0%Z
  | _ =>
      match sort_by_key y_center contained_boxes with
      | [] => Raise IndexError
      | first :: others =>
          let st0 := mkLineState 1 (y_center first) (box_height first) in
          Ok (line_count (fold_left line_step others st0))
      end
  end.

(** ** Slides *)

Inductive TextAlignmentType : Type := AlignLeft | AlignCenter.

(** [RectangleF.FromLTRB]. *)
Record RectangleF : Type := FromLTRB {
  rect_left : Q; rect_top : Q; rect_right : Q; rect_bottom : Q
}.

(** The files written under [png_dir]: [page_{n}_{label}_{index}.png] and
    [page_{n}_paddle_processed.png], kept by their components. *)
Inductive FileName : Type :=
| CropPng (page_idx : nat) (label : string) (index : nat)
| ProcessedPng (page_idx : nat).

Inductive Shape : Type :=
| TextShape (name : string) (text : string) (rect : RectangleF)
    (alignment : TextAlignmentType) (font_name : string) (font_height : Z)
| ImageShape (path : FileName) (rect : RectangleF).

(** [shapes] is in stacking order, lowest first. *)
Record Slide : Type := mkSlide {
  shapes : list Shape;
  background : option FileName
}.

Definition empty_slide : Slide := mkSlide [] None.

(** ** Text blocks *)

Definition valid_labels : list string :=
  ["text"; "title"; "header"; "footer"; "reference"; "paragraph_title";
   "algorithm"]%string.

Definition label_in (label : string) (labels : list string) : bool :=
  existsb (String.eqb label) labels.

Definition should_skip_text_block (label content : string) : bool :=
  if negb (label_in label valid_labels) then true
  else if String.eqb label "footer" && contains "notebooklm" (lower content)
  then true
  else if is_empty (strip content) then true
  else false.

Definition create_text_shape (slide : Slide) (content label : string)
    (bbox : BBox) (scale ppt_width ppt_height : Q) (font_size : Z)
    (font_name : string) (delta_y : Q) : Slide :=
  let left := bx1 bbox * scale in
  let top := by1 bbox * scale + delta_y in
  let right := bx2 bbox * scale in
  let bottom := by2 bbox * scale + delta_y in
  let '(alignment, h_padding, v_padding) :=
    if String.eqb label "paragraph_title" then (AlignLeft, 5, 5)
    else (AlignCenter, 15, 5) in
  let rect := FromLTRB (Py.max 0 left)
                       (Py.max 0 (top - v_padding))
                       (Py.min ppt_width (right + h_padding + h_padding))
                       (Py.min ppt_height (bottom + v_padding)) in
  let text_shape :=
    TextShape ("Block_" ++ label) content rect alignment font_name font_size in
  mkSlide (shapes slide ++ [text_shape]) (background slide).

Fixpoint process_text_blocks (slide : Slide) (parsing_res_list : list Block)
    (ocr_boxes : list (list Q)) (scale ppt_width ppt_height : Q)
    (font_name : string) : Outcome Slide :=
  match parsing_res_list with
  | [] => Ok slide
  | item :: rest =>
      let label := default "unknown"%string (block_label item) in
      let content := default ""%string (block_content item) in
      match block_bbox item with
      | None =>
          process_text_blocks slide rest ocr_boxes scale ppt_width ppt_height
            font_name
      | Some bbox =>
          if should_skip_text_block label content then
            process_text_blocks slide rest ocr_boxes scale ppt_width
              ppt_height font_name
          else
            line_count ← get_line_count bbox ocr_boxes;
            let is_multiline := (1 <? line_count)%Z in
            let height := (by2 bbox - by1 bbox) * scale in
            let font_size :=
              calculate_font_size height default_min_font_size is_multiline
                line_count in
            let slide' :=
              create_text_shape slide content label bbox scale ppt_width
                ppt_height font_size font_name 2 in
            process_text_blocks slide' rest ocr_boxes scale ppt_width
              ppt_height font_name
      end
  end.

(** ** Layout data *)

(** [prunedResult] of a page of [layoutParsingResults]. *)
Record PageLayout : Type := mkPageLayout {
  width : Z;
  height : Z;
  parsing_res_list : list Block
}.

(** [prunedResult] of a page of [ocrResults]. *)
Record PageOcr : Type := mkPageOcr {
  rec_boxes : list (list Q)
}.

Record PageInfo : Type := mkPageInfo {
  page_width : option Z;
  page_height : option Z
}.

Record DataInfo : Type := mkDataInfo {
  info_width : option Z;
  info_height : option Z;
  pages : list PageInfo
}.

(** The JSON document.  [dataInfo] is [None] when the key is absent or
    holds an empty object. *)
Record Data : Type := mkData {
  layoutParsingResults : list PageLayout;
  ocrResults : list PageOcr;
  dataInfo : option DataInfo
}.

Definition set_if {A : Type} (new : option A) (old : A) : A :=
  match new with Some v => v | None => old end.

Definition set_if_opt {A : Type} (new : option A) (old : option A) : option A :=
  match new with Some v => Some v | None => old end.

Definition update_data_size (data : Data) (new_width : Q)
    (new_height : option Q) : Data :=
  let w := Py.int new_width in
  let h := Py.int <$> new_height in
  let update_page (page_layout : PageLayout) :=
    mkPageLayout w (set_if h (height page_layout))
      (parsing_res_list page_layout) in
  let update_info (data_info : DataInfo) :=
    mkDataInfo (Some w) (set_if_opt h (info_height data_info))
      (map (fun page => mkPageInfo (Some w) (set_if_opt h (page_height page)))
           (pages data_info)) in
  mkData (map update_page (layoutParsingResults data))
         (ocrResults data)
         (update_info <$> dataInfo data).

Definition get_pdf_size_from_data (data : Data) : Outcome (Z * Z) :=
  match layoutParsingResults data with
  | [] => Raise IndexError
  | first_page_layout :: _ =>
      Ok (width first_page_layout, height first_page_layout)
  end.

(** *** Aspect conformance *)

Definition set_bbox (item : Block) (bbox : BBox) : Block :=
  mkBlock (block_label item) (block_content item) (Some bbox).

(** [bbox and len(bbox) >= 4] on an OCR box. *)
Definition has_four (bbox : list Q) : bool := (4 <=? length bbox)%nat.

(** [bbox[i]] under the guard [has_four]. *)
Definition at_ (bbox : list Q) (i : nat) : Q := nth i bbox 0.

(** The widening branch, one block. *)
Definition pad_item (offset_x : Z) (item : Block) : Block :=
  match block_bbox item with
  | Some bbox =>
      set_bbox item (mkBBox (bx1 bbox + inject_Z offset_x) (by1 bbox)
                            (bx2 bbox + inject_Z offset_x) (by2 bbox))
  | None => item
  end.

(** The widening branch, one OCR box, shifted in place. *)
Definition pad_rec_box (offset_x : Z) (bbox : list Q) : list Q :=
  if has_four bbox then
    let bbox := <[0%nat := at_ bbox 0 + inject_Z offset_x]> bbox in
    <[2%nat := at_ bbox 2 + inject_Z offset_x]> bbox
  else bbox.

(** The cropping branch: the loop over [parsing_res_list] that fills
    [filtered_list]. *)
Fixpoint crop_items (left right target_width : Z) (items : list Block)
    (filtered_list : list Block) : list Block :=
  match items with
  | [] => filtered_list
  | item :: rest =>
      match block_bbox item with
      | Some (mkBBox x1 y1 x2 y2) =>
          if Py.ltb (inject_Z left) x2 && Py.ltb x1 (inject_Z right) then
            let new_x1 := Py.max 0 (x1 - inject_Z left) in
            let new_x2 := Py.min (inject_Z target_width) (x2 - inject_Z left) in
            let item := set_bbox item (mkBBox new_x1 y1 new_x2 y2) in
            crop_items left right target_width rest (filtered_list ++ [item])
          else crop_items left right target_width rest filtered_list
      | None => crop_items left right target_width rest filtered_list
      end
  end.

(** The cropping branch: the loop over [rec_boxes] that fills
    [filtered_boxes]. *)
Fixpoint crop_rec_boxes (left right target_width : Z) (boxes : list (list Q))
    (filtered_boxes : list (list Q)) : list (list Q) :=
  match boxes with
  | [] => filtered_boxes
  | bbox :: rest =>
      if has_four bbox then
        let x1 := at_ bbox 0 in
        let x2 := at_ bbox 2 in
        if Py.ltb (inject_Z left) x2 && Py.ltb x1 (inject_Z right) then
          let bbox := <[0%nat := Py.max 0 (x1 - inject_Z left)]> bbox in
          let bbox :=
            <[2%nat := Py.min (inject_Z target_width) (x2 - inject_Z left)]>
              bbox in
          crop_rec_boxes left right target_width rest (filtered_boxes ++ [bbox])
        else crop_rec_boxes left right target_width rest filtered_boxes
      else crop_rec_boxes left right target_width rest filtered_boxes
  end.

(** The 16:9 target width of a page of height [pdf_h]. *)
Definition wide_target_width (pdf_h : Z) : Z :=
  Py.round (inject_Z pdf_h * 16 / 9).

Definition make_data_wide_screen (data : Data) : Data :=
  match layoutParsingResults data with
  | [] => data
  | first_page_layout :: _ =>
      let pdf_w := width first_page_layout in
      let pdf_h := height first_page_layout in
      let target_width := wide_target_width pdf_h in
      if (target_width =? pdf_w)%Z then data
      else if (pdf_w <? target_width)%Z then
        let offset_x := ((target_width - pdf_w) / 2)%Z in
        let data := update_data_size data (inject_Z target_width) None in
        mkData
          (map (fun page_layout =>
                  mkPageLayout (width page_layout) (height page_layout)
                    (map (pad_item offset_x) (parsing_res_list page_layout)))
               (layoutParsingResults data))
          (map (fun page_ocr =>
                  mkPageOcr (map (pad_rec_box offset_x) (rec_boxes page_ocr)))
               (ocrResults data))
          (dataInfo data)
      else if (target_width <? pdf_w)%Z then
        let left := ((pdf_w - target_width) / 2)%Z in
        let right := (left + target_width)%Z in
        let data := update_data_size data (inject_Z target_width) None in
        mkData
          (map (fun page_layout =>
                  mkPageLayout target_width (height page_layout)
                    (crop_items left right target_width
                       (parsing_res_list page_layout) []))
               (layoutParsingResults data))
          (map (fun page_ocr =>
                  mkPageOcr (crop_rec_boxes left right target_width
                               (rec_boxes page_ocr) []))
               (ocrResults data))
          (dataInfo data)
      else data
  end.

(** *** Canvas scale *)

(** One OCR box of [resize_data]: [scale_bbox] unpacks the box four ways,
    then the first four entries are overwritten. *)
Definition resize_rec_box (scale : Q) (bbox : list Q) : Outcome (list Q) :=
  if has_four bbox then
    b ← unpack4 bbox;
    let new_bbox := scale_bbox b scale true in
    Ok (<[3%nat := by2 new_bbox]>
          (<[2%nat := bx2 new_bbox]>
             (<[1%nat := by1 new_bbox]> (<[0%nat := bx1 new_bbox]> bbox))))
  else Ok bbox.

Definition resize_item (scale : Q) (item : Block) : Block :=
  match block_bbox item with
  | Some bbox => set_bbox item (scale_bbox bbox scale true)
  | None => item
  end.

(** A loop whose body may raise. *)
Fixpoint for_each {A B : Type} (f : A -> Outcome B) (l : list A)
    : Outcome (list B) :=
  match l with
  | [] => Ok []
  | a :: l' => b ← f a; bs ← for_each f l'; Ok (b :: bs)
  end.

Definition is_zero (x : Q) : bool := Qeq_bool x 0.

Definition resize_data (data : Data) (pdf_size ppt_size : Q * Q)
    : Outcome Data :=
  let '(pdf_w, pdf_h) := pdf_size in
  let '(ppt_w, ppt_h) := ppt_size in
  if is_zero pdf_w then Raise ZeroDivisionError else
  let scale_x := ppt_w / pdf_w in
  if is_zero pdf_h then Raise ZeroDivisionError else
  let scale_y := ppt_h / pdf_h in
  if negb (Py.ltb (Qabs (scale_x - scale_y)) (1 # 100))
  then Raise AssertionError else
  let scale := scale_x in
  let data := update_data_size data ppt_w (Some ppt_h) in
  let layout_results :=
    map (fun page_layout =>
           mkPageLayout (width page_layout) (height page_layout)
             (map (resize_item scale) (parsing_res_list page_layout)))
        (layoutParsingResults data) in
  ocr_results ←
    for_each (fun page_ocr =>
                boxes ← for_each (resize_rec_box scale) (rec_boxes page_ocr);
                Ok (mkPageOcr boxes))
             (ocrResults data);
  Ok (mkData layout_results ocr_results (dataInfo data)).

(** ** Rasters, foreground crops and erasure *)

Definition foreground_labels : list string := ["image"; "table"; "chart"]%string.

Definition erasable_labels : list string :=
  ["text"; "title"; "header"; "footer"; "reference"; "paragraph_title";
   "image"; "table"; "algorithm"; "chart"]%string.

(** [a[start:stop]] on an axis of length [n]: a negative bound counts from
    the end, and every bound is clamped to the axis. *)
Definition slice_index (n i : Z) : Z :=
  (if i <? 0 then Z.max 0 (i + n) else Z.min i n)%Z.

Definition in_slice (n start stop i : Z) : bool :=
  ((slice_index n start <=? i) && (i <? slice_index n stop))%Z.

(** The raster accesses and file writes of a page, in program order. *)
Inductive Event : Type :=
| EvCrop (t b l r : Z)
| EvFill (t b l r : Z)
| EvSave (path : FileName).

Section Background.

Context {Pixel : Type}.

(** [image_cv]: [pixel y x] is [image_cv[y, x]] for [0 <= y < image_h] and
    [0 <= x < image_w]. *)
Record Raster : Type := mkRaster {
  image_h : Z;
  image_w : Z;
  pixel : Z -> Z -> Pixel
}.

(** [image_cv[t:b, l:r]]. *)
Definition crop_slice (image_cv : Raster) (t b l r : Z) : Raster :=
  let t' := slice_index (image_h image_cv) t in
  let b' := slice_index (image_h image_cv) b in
  let l' := slice_index (image_w image_cv) l in
  let r' := slice_index (image_w image_cv) r in
  mkRaster (Z.max 0 (b' - t')) (Z.max 0 (r' - l'))
           (fun y x => pixel image_cv (t' + y) (l' + x)).

(** [image_cv[t:b, l:r] = fill_color]. *)
Definition fill_slice (image_cv : Raster) (t b l r : Z) (fill_color : Pixel)
    : Raster :=
  mkRaster (image_h image_cv) (image_w image_cv)
    (fun y x =>
       if in_slice (image_h image_cv) t b y && in_slice (image_w image_cv) l r x
       then fill_color else pixel image_cv y x).

(** [compute_edge_diversity_numpy(image, l, t, r, b, tolerance)] of
    [utils/edge_diversity.py], which is not among the sources at hand: a
    parameter, taken as the pure function of the raster and the rectangle
    that returns the diversity score and the fill colour. *)
Variable compute_edge_diversity_numpy :
  Raster -> Z -> Z -> Z -> Z -> Z -> Q * Pixel.

(** [img.resize(size, Image.LANCZOS)] of PIL: a parameter. *)
Variable resize : Raster -> Z * Z -> Raster.

(** What a page's passes leave behind: the slide, the files saved under
    [png_dir], and the order of the raster accesses and file writes. *)
Record World : Type := mkWorld {
  slide : Slide;
  files : list (FileName * Raster);
  log : list Event
}.

Definition as_size (pdf_size : Z * Z) : Q * Q :=
  (inject_Z (fst pdf_size), inject_Z (snd pdf_size)).

(** The first lines of [extract_foreground_element] and of [erase_region]:
    expand by 2, scale to pixels with [make_int=True], and give up on an
    empty or inverted rectangle.  The result is [(t, b, l, r)]. *)
Definition pixel_rect (bbox : BBox) (img_scale : Q) (pdf_size : Z * Z)
    : option (Z * Z * Z * Z) :=
  let expanded_bbox := expand_bbox bbox 2 (as_size pdf_size) in
  let '(l, t, r, b) := scale_bbox_ints expanded_bbox img_scale in
  if ((r <=? l) || (b <=? t))%Z then None else Some (t, b, l, r).

Definition extract_foreground_element (w : World) (item : Block) (index : nat)
    (image_cv : Raster) (img_scale scale : Q) (pdf_size : Z * Z)
    (page_idx : nat) : World * bool :=
  let label := default "None"%string (block_label item) in
  match block_bbox item with
  | None => (w, false)
  | Some bbox =>
      let expanded_bbox := expand_bbox bbox 2 (as_size pdf_size) in
      match pixel_rect bbox img_scale pdf_size with
      | None => (w, false)
      | Some (t_img, b_img, l_img, r_img) =>
          let crop := crop_slice image_cv t_img b_img l_img r_img in
          let crop_path := CropPng (page_idx + 1) label index in
          let ppt := scale_bbox expanded_bbox scale false in
          let rect_item := FromLTRB (bx1 ppt) (by1 ppt) (bx2 ppt) (by2 ppt) in
          let img_shape := ImageShape crop_path rect_item in
          (mkWorld
             (mkSlide (img_shape :: shapes (slide w)) (background (slide w)))
             (files w ++ [(crop_path, crop)])
             (log w ++ [EvCrop t_img b_img l_img r_img; EvSave crop_path]),
           true)
      end
  end.

(** The raster is updated in place; the new raster is returned with the
    flag. *)
Definition erase_region (image_cv : Raster) (bbox : BBox) (img_scale : Q)
    (pdf_size : Z * Z) : Raster * bool :=
  match pixel_rect bbox img_scale pdf_size with
  | None => (image_cv, false)
  | Some (t, b, l, r) =>
      let fill_color := snd (compute_edge_diversity_numpy image_cv l t r b 20) in
      (fill_slice image_cv t b l r fill_color, true)
  end.

(** The first loop of [process_slide_background], [enumerate] included. *)
Fixpoint extract_loop (w : World) (i : nat) (items : list Block)
    (image_cv : Raster) (img_scale scale : Q) (pdf_size : Z * Z)
    (page_idx : nat) : World :=
  match items with
  | [] => w
  | item :: rest =>
      let w :=
        if label_in (default "None"%string (block_label item)) foreground_labels
        then fst (extract_foreground_element w item i image_cv img_scale scale
                    pdf_size page_idx)
        else w in
      extract_loop w (S i) rest image_cv img_scale scale pdf_size page_idx
  end.

(** The second loop of [process_slide_background]: the raster and the log
    are threaded through the calls of [erase_region]. *)
Fixpoint erase_loop (image_cv : Raster) (events : list Event)
    (items : list Block) (img_scale : Q) (pdf_size : Z * Z)
    : Raster * list Event :=
  match items with
  | [] => (image_cv, events)
  | item :: rest =>
      if label_in (default "None"%string (block_label item)) erasable_labels
      then
        match block_bbox item with
        | Some bbox =>
            let image_cv' := fst (erase_region image_cv bbox img_scale pdf_size) in
            let events' :=
              match pixel_rect bbox img_scale pdf_size with
              | Some (t, b, l, r) => events ++ [EvFill t b l r]
              | None => events
              end in
            erase_loop image_cv' events' rest img_scale pdf_size
        | None => erase_loop image_cv events rest img_scale pdf_size
        end
      else erase_loop image_cv events rest img_scale pdf_size
  end.

(** [png_file] is [None] when the file does not exist, and the image it
    holds otherwise. *)
Definition process_slide_background (w : World) (parsing_res_list : list Block)
    (png_file : option Raster) (pdf_size : Z * Z) (scale : Q) (page_idx : nat)
    : Outcome World :=
  match png_file with
  | None => Ok w
  | Some img =>
      let pdf_w := inject_Z (fst pdf_size) in
      let image_cv := resize img pdf_size in
      if is_zero pdf_w then Raise ZeroDivisionError else
      let img_scale := inject_Z (image_w image_cv) / pdf_w in
      if is_zero img_scale then Raise ZeroDivisionError else
      let w := extract_loop w 0 parsing_res_list image_cv img_scale scale
                 pdf_size page_idx in
      let '(image_cv, events) :=
        erase_loop image_cv (log w) parsing_res_list img_scale pdf_size in
      let processed_png := ProcessedPng (page_idx + 1) in
      Ok (mkWorld (mkSlide (shapes (slide w)) (Some processed_png))
                  (files w ++ [(processed_png, image_cv)])
                  (events ++ [EvSave processed_png]))
  end.

(** The body of the page loop of [create_ppt_from_paddle_json]; [scale] is
    [1.0] there.  [png_files] holds, per page, the image of the page when
    its file exists. *)
Definition process_page (files0 : list (FileName * Raster))
    (parsing_res_list : list Block) (ocr_boxes : list (list Q))
    (png_files : list (option Raster)) (pdf_size : Z * Z)
    (ppt_width ppt_height : Q) (page_idx : nat) : Outcome World :=
  let scale := 1 in
  slide1 ← process_text_blocks empty_slide parsing_res_list ocr_boxes scale
             ppt_width ppt_height "Calibri";
  let w := mkWorld slide1 files0 [] in
  match png_files !! page_idx with
  | Some png_file =>
      process_slide_background w parsing_res_list png_file pdf_size scale
        page_idx
  | None => Ok w
  end.

(** *** The two loops in closed form, for the statements below *)

(** The pixel rectangle of a block that [labels] selects. *)
Definition labelled_rect (labels : list string) (img_scale : Q)
    (pdf_size : Z * Z) (item : Block) : option (Z * Z * Z * Z) :=
  if label_in (default "None"%string (block_label item)) labels
  then match block_bbox item with
       | Some bbox => pixel_rect bbox img_scale pdf_size
       | None => None
       end
  else None.

(** The crops of the foreground blocks, as slices of one raster
    [image_cv], with the names they are saved under; [i] is the index of
    the first block of [items] in the layout list. *)
Fixpoint saved_crops (image_cv : Raster) (img_scale : Q) (pdf_size : Z * Z)
    (page_idx : nat) (i : nat) (items : list Block) : list (FileName * Raster) :=
  match items with
  | [] => []
  | item :: rest =>
      match labelled_rect foreground_labels img_scale pdf_size item with
      | Some (t, b, l, r) =>
          [(CropPng (page_idx + 1) (default "None"%string (block_label item)) i,
            crop_slice image_cv t b l r)]
      | None => []
      end ++ saved_crops image_cv img_scale pdf_size page_idx (S i) rest
  end.

Fixpoint crop_events (img_scale : Q) (pdf_size : Z * Z) (page_idx : nat)
    (i : nat) (items : list Block) : list Event :=
  match items with
  | [] => []
  | item :: rest =>
      match labelled_rect foreground_labels img_scale pdf_size item with
      | Some (t, b, l, r) =>
          [EvCrop t b l r;
           EvSave (CropPng (page_idx + 1)
                     (default "None"%string (block_label item)) i)]
      | None => []
      end ++ crop_events img_scale pdf_size page_idx (S i) rest
  end.

(** The image shapes of the foreground blocks: each one is put at the
    bottom of the stack, under [below]. *)
Fixpoint foreground_shapes (img_scale scale : Q) (pdf_size : Z * Z)
    (page_idx : nat) (i : nat) (items : list Block) (below : list Shape)
    : list Shape :=
  match items with
  | [] => below
  | item :: rest =>
      foreground_shapes img_scale scale pdf_size page_idx (S i) rest
        match labelled_rect foreground_labels img_scale pdf_size item,
              block_bbox item with
        | Some _, Some bbox =>
            let ppt :=
              scale_bbox (expand_bbox bbox 2 (as_size pdf_size)) scale false in
            ImageShape
              (CropPng (page_idx + 1)
                 (default "None"%string (block_label item)) i)
              (FromLTRB (bx1 ppt) (by1 ppt) (bx2 ppt) (by2 ppt))
            :: below
        | _, _ => below
        end
  end.

(** The erasable blocks erased one after the other, in the order of the
    layout list, each fill colour sampled on the raster as it then is. *)
Definition erase_one (img_scale : Q) (pdf_size : Z * Z) (image_cv : Raster)
    (item : Block) : Raster :=
  match labelled_rect erasable_labels img_scale pdf_size item with
  | Some (t, b, l, r) =>
      fill_slice image_cv t b l r
        (snd (compute_edge_diversity_numpy image_cv l t r b 20))
  | None => image_cv
  end.

Definition erase_all (img_scale : Q) (pdf_size : Z * Z) (image_cv : Raster)
    (items : list Block) : Raster :=
  fold_left (erase_one img_scale pdf_size) items image_cv.

Definition fill_events (img_scale : Q) (pdf_size : Z * Z) (items : list Block)
    : list Event :=
  flat_map (fun item =>
              match labelled_rect erasable_labels img_scale pdf_size item with
              | Some (t, b, l, r) => [EvFill t b l r]
              | None => []
              end) items.

End Background.

(** ** The document pipeline *)

(** [SlideSizeType] of the presentation library, as far as
    [setup_presentation] uses it. *)
Inductive SlideSizeType : Type :=
| Screen16x9
| Screen16x10
| Screen4x3
| Custom.

Section Pipeline.

Context {Pixel : Type}.
Variable compute_edge_diversity_numpy :
  @Raster Pixel -> Z -> Z -> Z -> Z -> Z -> Q * Pixel.
Variable resize : @Raster Pixel -> Z * Z -> @Raster Pixel.

(** [presentation.SlideSize.Size] once [SlideSize.Type] is one of the three
    presets: the library's own sizes, a parameter. *)
Variable preset_size : SlideSizeType -> Q * Q.

(** [presentation.SlideSize.Size = SizeF(ppt_width, ppt_height)] followed
    by reading [Size.Width] and [Size.Height] back, for the [Custom] type:
    the library stores the size in single precision and refuses some
    sizes, so that what is read back need not be what was set.  A
    parameter; a refusal is [Raise LibraryError]. *)
Variable custom_size : Q * Q -> Outcome (Q * Q).

(** The slide size type chosen and the [ppt_width], [ppt_height] returned. *)
Definition setup_presentation (pdf_size : Z * Z) : Outcome (SlideSizeType * Q * Q) :=
  let '(pdf_width, pdf_height) := pdf_size in
  if (pdf_height =? 0)%Z then Raise ZeroDivisionError else
  let pdf_ratio := inject_Z pdf_width / inject_Z pdf_height in
  if Py.ltb (33 # 20) pdf_ratio then
    Ok (Screen16x9, fst (preset_size Screen16x9), snd (preset_size Screen16x9))
  else if Py.ltb (29 # 20) pdf_ratio then
    Ok (Screen16x10, fst (preset_size Screen16x10), snd (preset_size Screen16x10))
  else if Py.ltb 1 pdf_ratio then
    Ok (Screen4x3, fst (preset_size Screen4x3), snd (preset_size Screen4x3))
  else
    let ppt_height := 720 in
    let ppt_width := ppt_height * pdf_ratio in
    '(ppt_width, ppt_height) ← custom_size (ppt_width, ppt_height);
    Ok (Custom, ppt_width, ppt_height).

(** The page loop of [create_ppt_from_paddle_json]: one slide is appended
    per layout page; [files] are the files of [png_dir] so far. *)
Fixpoint page_loop (page_idx : nat) (layout_results : list PageLayout)
    (ocr_results : list PageOcr) (png_files : list (option Raster))
    (pdf_size : Z * Z) (ppt_width ppt_height : Q) (slides : list Slide)
    (files0 : list (FileName * Raster))
    : Outcome (list Slide * list (FileName * Raster)) :=
  match layout_results with
  | [] => Ok (slides, files0)
  | page_layout :: rest =>
      match ocr_results !! page_idx with
      | None => Raise IndexError
      | Some page_ocr =>
          w ← process_page compute_edge_diversity_numpy resize files0
                (parsing_res_list page_layout) (rec_boxes page_ocr) png_files
                pdf_size ppt_width ppt_height page_idx;
          page_loop (S page_idx) rest ocr_results png_files pdf_size ppt_width
            ppt_height (slides ++ [slide w]) (files w)
      end
  end.

(** [create_ppt_from_paddle_json] from the JSON data on: [data] is the
    loaded JSON, [png_files] the page images that [pdf_to_png] left.  The
    result is the slide size type, the slides and the files written. *)
Definition create_ppt_from_paddle_json (data : Data)
    (png_files : list (option Raster))
    : Outcome (SlideSizeType * list Slide * list (FileName * Raster)) :=
  let data := make_data_wide_screen data in
  pdf_size ← get_pdf_size_from_data data;
  '(size_type, ppt_width, ppt_height) ← setup_presentation pdf_size;
  data ← resize_data data (as_size pdf_size) (ppt_width, ppt_height);
  pdf_size ← get_pdf_size_from_data data;
  if (fst pdf_size =? 0)%Z then Raise ZeroDivisionError else
  let scale := ppt_width / inject_Z (fst pdf_size) in
  if negb (Py.ltb (Qabs (scale - 1)) (1 # 100)) then Raise AssertionError else
  '(slides, files1) ←
    page_loop 0 (layoutParsingResults data) (ocrResults data) png_files
      pdf_size ppt_width ppt_height [] [];
  Ok (size_type, slides, files1).

(** The [make_wide_screen] step of [pdf_to_png] on one page image:
    [Image.new] with a white background and [paste] at the offset, or
    [crop] to the middle. *)
Definition make_wide_screen_image (white : Pixel) (img : Raster) : Raster :=
  let width := image_w img in
  let height := image_h img in
  let target_width := wide_target_width height in
  if (width <? target_width)%Z then
    let offset := ((target_width - width) / 2)%Z in
    mkRaster height target_width
      (fun y x =>
         if ((offset <=? x) && (x <? offset + width)
             && (0 <=? y) && (y <? height))%Z
         then pixel img y (x - offset) else white)
  else if (target_width <? width)%Z then
    let left := ((width - target_width) / 2)%Z in
    let right := (left + target_width)%Z in
    mkRaster height (right - left) (fun y x => pixel img y (x + left))
  else img.

End Pipeline.

(** ** Merging the two recognition results *)

(** The dictionary part of [PP_OCR.merge_results]: the top level of the
    two JSON documents, keyed by name. *)
Definition merge_results {V : Type} (vl_data v5_data : gmap string V)
    : gmap string V :=
  let merged_result := vl_data in
  let merged_result :=
    match v5_data !! "ocrResults"%string with
    | Some ocr => <["ocrResults"%string := ocr]> merged_result
    | None => merged_result
    end in
  match merged_result !! "dataInfo"%string, v5_data !! "dataInfo"%string with
  | None, Some info => <["dataInfo"%string := info]> merged_result
  | _, _ => merged_result
  end.

(** ** The specification's wording, for comparison with the code *)

(** The specification's [fontSize(height, lineCount)] with its minimum:
    no rounding is mentioned. *)
Definition spec_font_size (height : Q) (lineCount : Z) (minimum : Q) : Q :=
  Qmax minimum
    (if (1 <? lineCount)%Z then height / inject_Z lineCount * (3 # 4)
     else height * (3 # 4)).

(** The integer rectangle [(l, t, r, b)] contains the box [bbox] scaled by
    [s] exactly. *)
Definition contains_scaled (ints : Z * Z * Z * Z) (bbox : BBox) (s : Q) : Prop :=
  let '(l, t, r, b) := ints in
  inject_Z l <= bx1 bbox * s /\ inject_Z t <= by1 bbox * s /\
  bx2 bbox * s <= inject_Z r /\ by2 bbox * s <= inject_Z b.

(** The centroid of the OCR line [o] lies inside the block box. *)
Definition centroid_inside (block_bbox o : BBox) : Prop :=
  (bx1 block_bbox <= (bx1 o + bx2 o) / 2 /\ (bx1 o + bx2 o) / 2 <= bx2 block_bbox)
  /\ (by1 block_bbox <= y_center o /\ y_center o <= by2 block_bbox).

Definition centroid_inside_dec (block_bbox o : BBox) : bool :=
  Py.leb (bx1 block_bbox) ((bx1 o + bx2 o) / 2)
  && Py.leb ((bx1 o + bx2 o) / 2) (bx2 block_bbox)
  && Py.leb (by1 block_bbox) (y_center o)
  && Py.leb (y_center o) (by2 block_bbox).

(** The walk of the specification over the sorted lines: a line starts a
    new visual line when its centroid is further from the reference
    centroid than 0.6 times the larger of the two heights, and then becomes
    the reference. *)
Fixpoint spec_walk (ref_centroid ref_height : Q) (lines : list BBox) : Z :=
  match lines with
  | [] => 0
  | line :: rest =>
      if Qlt_le_dec ((3 # 5) * Qmax ref_height (box_height line))
                    (Qabs (y_center line - ref_centroid))
      then (1 + spec_walk (y_center line) (box_height line) rest)%Z
      else spec_walk ref_centroid ref_height rest
  end.

Definition spec_line_count (sorted : list BBox) : Z :=
  match sorted with
  | [] => 0
  | first :: rest => (1 + spec_walk (y_center first) (box_height first) rest)%Z
  end.

(** Every gap between the centroids of vertically consecutive lines
    satisfies [P]. *)
Fixpoint gaps_all (P : Q -> Prop) (lines : list BBox) : Prop :=
  match lines with
  | a :: (b :: _) as rest => P (y_center b - y_center a) /\ gaps_all P rest
  | _ => True
  end.

Definition equal_height (h : Q) (lines : list BBox) : Prop :=
  Forall (fun line => box_height line == h) lines.

Definition by_y_center (a b : BBox) : Prop := y_center a <= y_center b.

(** The configured watermark marker. *)
Definition watermark_marker : string := "notebooklm".

Definition is_substring (needle hay : string) : Prop :=
  exists pre post, hay = (pre ++ needle ++ post)%string.

(** The accepted set of the specification. *)
Definition accepted_label (label : string) : Prop :=
  label = "text"%string \/ label = "title"%string \/ label = "header"%string
  \/ label = "footer"%string \/ label = "reference"%string
  \/ label = "paragraph_title"%string \/ label = "algorithm"%string.

(** "A block is rendered as text iff": accepted label, content not empty
    once trimmed and, for a footer, no watermark marker in the content,
    compared without case. *)
Definition renders_as_text (label content : string) : Prop :=
  accepted_label label
  /\ strip content <> ""%string
  /\ (label = "footer"%string ->
      ~ is_substring (lower watermark_marker) (lower content)).

Definition item_label (item : Block) : string :=
  default "unknown"%string (block_label item).

Definition item_content (item : Block) : string :=
  default ""%string (block_content item).

(** The blocks for which [process_text_blocks] reaches
    [create_text_shape]. *)
Definition reaches_create_text_shape (item : Block) : bool :=
  match block_bbox item with
  | Some _ => negb (should_skip_text_block (item_label item) (item_content item))
  | None => false
  end.

(** The text shape of a block, whatever its geometry. *)
Definition is_text_shape_of (font_name : string) (item : Block) (shape : Shape)
    : Prop :=
  exists rect alignment font_size,
    shape = TextShape ("Block_" ++ item_label item) (item_content item) rect
              alignment font_name font_size.

(** The crop window [left, right] and a box with x-extent [x1, x2]:
    overlapping, entirely outside, entirely inside. *)
Definition overlaps_window (left right : Z) (x1 x2 : Q) : Prop :=
  ~ x2 <= inject_Z left /\ ~ inject_Z right <= x1.

Definition outside_window (left right : Z) (x1 x2 : Q) : Prop :=
  x2 <= inject_Z left \/ inject_Z right <= x1.

Definition inside_window (left right : Z) (x1 x2 : Q) : Prop :=
  inject_Z left <= x1 /\ x2 <= inject_Z right.

(** The x-coordinates of a kept box: relative to [left], clipped into
    [0, target]. *)
Definition clip_x1 (left : Z) (x1 : Q) : Q := Qmax 0 (x1 - inject_Z left).
Definition clip_x2 (left target : Z) (x2 : Q) : Q :=
  Qmin (inject_Z target) (x2 - inject_Z left).

Definition item_kept (left right : Z) (item : Block) : bool :=
  match block_bbox item with
  | Some b => Py.ltb (inject_Z left) (bx2 b) && Py.ltb (bx1 b) (inject_Z right)
  | None => false
  end.

Definition item_clipped (left target : Z) (item : Block) : Block :=
  match block_bbox item with
  | Some b =>
      set_bbox item (mkBBox (clip_x1 left (bx1 b)) (by1 b)
                            (clip_x2 left target (bx2 b)) (by2 b))
  | None => item
  end.

Definition rec_box_kept (left right : Z) (bbox : list Q) : bool :=
  has_four bbox
  && (Py.ltb (inject_Z left) (at_ bbox 2) && Py.ltb (at_ bbox 0) (inject_Z right)).

Definition rec_box_clipped (left target : Z) (bbox : list Q) : list Q :=
  <[2%nat := clip_x2 left target (at_ bbox 2)]>
    (<[0%nat := clip_x1 left (at_ bbox 0)]> bbox).

(** What [resize_data] leaves in an OCR box of at most four numbers: a
    four-number box is replaced by its scaling, a shorter one is skipped. *)
Definition resized_rec_box (scale : Q) (bbox : list Q) : list Q :=
  match bbox with
  | [a; b; c; d] => box_list (scale_bbox (mkBBox a b c d) scale true)
  | _ => bbox
  end.

(** The data [resize_data] returns when it returns. *)
Definition resized_data (data : Data) (scale ppt_w ppt_h : Q) : Data :=
  mkData
    (map (fun page =>
            mkPageLayout (Py.int ppt_w) (Py.int ppt_h)
              (map (resize_item scale) (parsing_res_list page)))
         (layoutParsingResults data))
    (map (fun page => mkPageOcr (map (resized_rec_box scale) (rec_boxes page)))
         (ocrResults data))
    (dataInfo (update_data_size data ppt_w (Some ppt_h))).

(** No OCR box of the data has more than four numbers. *)
Definition rec_boxes_at_most_four (data : Data) : Prop :=
  Forall (fun page => Forall (fun bbox => (length bbox <= 4)%nat) (rec_boxes page))
         (ocrResults data).

(** Every character of the string is white space. *)
Fixpoint all_space (s : string) : bool :=
  match s with
  | EmptyString => true
  | String c s' => is_space c && all_space s'
  end.

(** The blocks of the end-to-end scenario of the specification. *)
Definition title_block (content : string) : Block :=
  mkBlock (Some "title"%string) (Some content) (Some (mkBBox 100 50 900 150)).

Definition footer_block (content : string) (bbox : option BBox) : Block :=
  mkBlock (Some "footer"%string) (Some content) bbox.


(** Every OCR box of the data has exactly four numbers. *)
Definition ocr_boxes_well_formed (data : Data) : Prop :=
  Forall (fun page => Forall (fun bbox => length bbox = 4%nat) (rec_boxes page))
         (ocrResults data).

(** The background the page loop leaves on the slide of page [page_idx]:
    the processed page image when the page has one, none otherwise. *)
Definition page_background {Pixel : Type}
    (png_files : list (option (@Raster Pixel))) (page_idx : nat)
    : option FileName :=
  match png_files !! page_idx with
  | Some (Some _) => Some (ProcessedPng (page_idx + 1))
  | _ => None
  end.


(** * Properties *)

(** ** Python numerics *)

Lemma int_nonneg (x : Q) : 0 <= x -> Py.int x = Qfloor x.
Proof.
  destruct x as [n d]. unfold Qle, Py.int, Qfloor. simpl. intros H.
  apply Z.quot_div_nonneg; lia.
Qed.

Lemma int_nonpos (x : Q) : x <= 0 -> Py.int x = Qceiling x.
Proof.
  destruct x as [n d]. unfold Qle, Py.int, Qceiling, Qfloor. simpl. intros H.
  replace n with (- (- n))%Z at 1 by lia.
  rewrite Z.quot_opp_l by lia.
  f_equal. apply Z.quot_div_nonneg; lia.
Qed.

(** [int] truncates: it lies between zero and its argument, less than one
    away from the argument. *)
Lemma int_trunc_nonneg (x : Q) :
  0 <= x -> inject_Z (Py.int x) <= x /\ x < inject_Z (Py.int x) + 1.
Proof.
  intros H. rewrite int_nonneg by exact H. split.
  - apply Qfloor_le.
  - pose proof (Qlt_floor x) as L. rewrite inject_Z_plus in L. exact L.
Qed.

Lemma int_trunc_nonpos (x : Q) :
  x <= 0 -> x <= inject_Z (Py.int x) /\ inject_Z (Py.int x) < x + 1.
Proof.
  intros H. rewrite int_nonpos by exact H. split.
  - apply Qle_ceiling.
  - pose proof (Qceiling_lt x) as L.
    replace (Qceiling x - 1)%Z with (Qceiling x + -1)%Z in L by lia.
    rewrite inject_Z_plus in L. change (inject_Z (-1)) with (-1 # 1) in L. lra.
Qed.

Lemma ceil_above (x : Q) : x <= inject_Z (Py.ceil x).
Proof. apply Qle_ceiling. Qed.

Lemma ltb_lt (a b : Q) : Py.ltb a b = true <-> a < b.
Proof.
  unfold Py.ltb. rewrite negb_true_iff. split.
  - intros H. apply Qnot_le_lt. intros L. apply Qle_bool_iff in L. congruence.
  - intros H. destruct (Qle_bool b a) eqn:E; [|reflexivity].
    apply Qle_bool_iff in E. lra.
Qed.

Lemma leb_le (a b : Q) : Py.leb a b = true <-> a <= b.
Proof. apply Qle_bool_iff. Qed.

(** ** Font size *)

(** C3, as the specification words it, fails: a height of 41 on one line
    gives 30, not max(8, 30.75). *)
Lemma calculate_font_size_truncates :
  ~ inject_Z (calculate_font_size 41 default_min_font_size false 1)
    == spec_font_size 41 1 (inject_Z default_min_font_size).
Proof. vm_compute. intros H. discriminate H. Qed.

Lemma inject_Z_max (a b : Z) : inject_Z (Z.max a b) == Qmax (inject_Z a) (inject_Z b).
Proof.
  destruct (Z.max_spec a b) as [[L ->] | [L ->]].
  - rewrite Q.max_r; [reflexivity | rewrite <- Zle_Qle; lia].
  - rewrite Q.max_l; [reflexivity | rewrite <- Zle_Qle; lia].
Qed.

(** C3 (amended): called as [process_text_blocks] calls it, with
    [is_multiline = (line_count > 1)], [calculate_font_size] returns the
    size of the specification, [height / line_count * 0.75] for more than
    one line and [height * 0.75] otherwise, truncated to an integer and then
    clamped below by the minimum; for a non-negative size that is the
    specification's value rounded down.  [fontSize(40, 1) = 30] and
    [fontSize(40, 2) = 15]. *)
Theorem calculate_font_size_value (height : Q) (line_count min_font_size : Z) :
  let size :=
    if (1 <? line_count)%Z then height / inject_Z line_count * (3 # 4)
    else height * (3 # 4) in
  let result :=
    calculate_font_size height min_font_size (1 <? line_count)%Z line_count in
  result = Z.max min_font_size (Py.int size)
  /\ (0 <= size ->
      spec_font_size height line_count (inject_Z min_font_size) - 1
        < inject_Z result
      /\ inject_Z result
        <= spec_font_size height line_count (inject_Z min_font_size))
  /\ calculate_font_size 40 default_min_font_size (1 <? 1)%Z 1 = 30%Z
  /\ calculate_font_size 40 default_min_font_size (1 <? 2)%Z 2 = 15%Z.
Proof.
  intros size result.
  assert (E : result = Z.max min_font_size (Py.int size)).
  { unfold result, size, calculate_font_size.
    destruct (1 <? line_count)%Z; reflexivity. }
  split; [exact E|]. split; [|split; reflexivity].
  intros Hs. rewrite E, inject_Z_max. unfold spec_font_size. fold size.
  destruct (int_trunc_nonneg size Hs) as [L U].
  set (m := inject_Z min_font_size). set (i := inject_Z (Py.int size)) in *.
  destruct (Q.max_spec m i) as [[? ->] | [? ->]];
    destruct (Q.max_spec m size) as [[? ->] | [? ->]]; split; lra.
Qed.

Lemma calculate_font_size_value_witness :
  0 <= 41 * (3 # 4)
  /\ inject_Z (calculate_font_size 41 8 (1 <? 1)%Z 1) <= spec_font_size 41 1 8.
Proof.
  assert (H : 0 <= 41 * (3 # 4)) by (vm_compute; discriminate).
  split; [exact H|].
  exact (proj2 (proj1 (proj2 (calculate_font_size_value 41 1 8)) H)).
Defined.

(** Without [is_multiline] the line count is ignored. *)
Lemma calculate_font_size_single (height : Q) (line_count min_font_size : Z) :
  calculate_font_size height min_font_size false line_count
  = Z.max min_font_size (Py.int (height * (3 # 4))).
Proof. reflexivity. Qed.

(** ** Scaling with the containing policy *)

(** For a top-left corner that scales to non-negative coordinates the
    integer rectangle contains the exact scaling. *)
Lemma scale_bbox_ints_contains (bbox : BBox) (s : Q) :
  0 <= bx1 bbox * s -> 0 <= by1 bbox * s ->
  contains_scaled (scale_bbox_ints bbox s) bbox s.
Proof.
  destruct bbox as [l t r b]. simpl. intros Hl Ht.
  repeat split.
  - apply (int_trunc_nonneg _ Hl).
  - apply (int_trunc_nonneg _ Ht).
  - apply ceil_above.
  - apply ceil_above.
Qed.

(** On the other side of zero [int] rounds up, not down. *)
Lemma int_not_floor : Py.int (-3 * (1 # 2)) = (-1)%Z /\ Qfloor (-3 * (1 # 2)) = (-2)%Z.
Proof. split; reflexivity. Qed.

(** C6: [scale_bbox] with [make_int=True] on the box (-3, -3, 5, 5) and
    the factor 1/2 gives (-1, -1, 3, 3), which does not contain the top-left
    corner (-1.5, -1.5) of the exact scaling. *)
Theorem scale_bbox_negative_corner :
  scale_bbox (mkBBox (-3) (-3) 5 5) (1 # 2) true = mkBBox (-1) (-1) 3 3
  /\ ~ contains_scaled (scale_bbox_ints (mkBBox (-3) (-3) 5 5) (1 # 2))
         (mkBBox (-3) (-3) 5 5) (1 # 2).
Proof.
  split; [reflexivity|].
  intros (H & _). vm_compute in H. apply H. reflexivity.
Qed.

(** ** Line count *)

Lemma centroid_inside_dec_spec (blk o : BBox) :
  centroid_inside_dec blk o = true <-> centroid_inside blk o.
Proof.
  unfold centroid_inside_dec, centroid_inside.
  rewrite !andb_true_iff, !leb_le. tauto.
Qed.

Lemma unpack4_box_list (b : BBox) : unpack4 (box_list b) = Ok b.
Proof. destruct b; reflexivity. Qed.

(** The selection loop appends, in order, the boxes whose centroid is in
    the block. *)
Lemma select_contained_filter (blk : BBox) (boxes acc : list BBox) :
  select_contained blk (map box_list boxes) acc
  = Ok (acc ++ List.filter (centroid_inside_dec blk) boxes).
Proof.
  revert acc. induction boxes as [|o boxes IH]; intros acc; simpl.
  - by rewrite app_nil_r.
  - change (select_contained blk (box_list o :: map box_list boxes) acc
            = Ok (acc ++ List.filter (centroid_inside_dec blk) (o :: boxes))).
    cbn [select_contained]. rewrite unpack4_box_list. cbn [mbind outcome_bind].
    cbn [List.filter].
    change (Py.leb (bx1 blk) ((bx1 o + bx2 o) / 2)
            && Py.leb ((bx1 o + bx2 o) / 2) (bx2 blk)
            && Py.leb (by1 blk) ((by1 o + by2 o) / 2)
            && Py.leb ((by1 o + by2 o) / 2) (by2 blk))
      with (centroid_inside_dec blk o).
    destruct (centroid_inside_dec blk o).
    + rewrite IH. by rewrite <- app_assoc.
    + apply IH.
Qed.

(** A box that is not a four-number array makes the selection raise. *)
Lemma select_contained_malformed (blk : BBox) (boxes : list (list Q)) (acc : list BBox) :
  Exists (fun b => length b <> 4%nat) boxes ->
  select_contained blk boxes acc = Raise ValueError.
Proof.
  revert acc. induction boxes as [|o boxes IH]; intros acc H.
  - inversion H.
  - simpl. destruct (decide (length o = 4%nat)) as [E|E].
    + destruct o as [|a [|b [|c [|d [|? ?]]]]]; try discriminate E.
      simpl. inversion H; subst; [contradiction|].
      match goal with |- (if ?c then _ else _) = _ => destruct c end;
        by apply IH.
    + destruct o as [|a [|b [|c [|d [|? ?]]]]]; try reflexivity.
      contradiction.
Qed.

(** *** The sort *)

Lemma insert_by_key_perm (key : BBox -> Q) (x : BBox) (l : list BBox) :
  Permutation (x :: l) (insert_by_key key x l).
Proof.
  induction l as [|y l IH]; simpl; [done|].
  destruct (Py.leb (key x) (key y)); [done|].
  rewrite Permutation_swap. by constructor.
Qed.

Lemma sort_by_key_perm (key : BBox -> Q) (l : list BBox) :
  Permutation l (sort_by_key key l).
Proof.
  induction l as [|x l IH]; simpl; [done|].
  rewrite <- insert_by_key_perm. by constructor.
Qed.

Lemma insert_by_key_sorted (key : BBox -> Q) (x : BBox) (l : list BBox) :
  StronglySorted (fun a b => key a <= key b) l ->
  StronglySorted (fun a b => key a <= key b) (insert_by_key key x l).
Proof.
  induction 1 as [|y l Hs IH Hy]; simpl.
  - repeat constructor.
  - destruct (Py.leb (key x) (key y)) eqn:E.
    + apply leb_le in E. constructor; [by constructor|].
      constructor; [done|].
      eapply Forall_impl; [exact Hy|]. simpl. intros. lra.
    + assert (L : key y <= key x).
      { destruct (Qlt_le_dec (key y) (key x)) as [L|L]; [lra|].
        apply leb_le in L. congruence. }
      constructor; [done|].
      rewrite <- insert_by_key_perm. by constructor.
Qed.

Lemma sort_by_key_sorted (key : BBox -> Q) (l : list BBox) :
  StronglySorted (fun a b => key a <= key b) (sort_by_key key l).
Proof.
  induction l as [|x l IH]; simpl; [constructor|].
  by apply insert_by_key_sorted.
Qed.

(** The sort is stable: the boxes that share a key keep their order. *)
Lemma insert_by_key_stable (key : BBox -> Q) (k : Q) (x : BBox) (l : list BBox) :
  List.filter (fun b => Qeq_bool (key b) k) (insert_by_key key x l)
  = List.filter (fun b => Qeq_bool (key b) k) (x :: l).
Proof.
  induction l as [|y l IH]; [done|].
  cbn [insert_by_key]. destruct (Py.leb (key x) (key y)) eqn:E; [done|].
  cbn [List.filter] in *. rewrite IH.
  destruct (Qeq_bool (key x) k) eqn:Ex; [|done].
  destruct (Qeq_bool (key y) k) eqn:Ey; [|done].
  apply Qeq_bool_iff in Ex, Ey.
  assert (L : Py.leb (key x) (key y) = true) by (apply leb_le; lra).
  congruence.
Qed.

Lemma sort_by_key_stable (key : BBox -> Q) (k : Q) (l : list BBox) :
  List.filter (fun b => Qeq_bool (key b) k) (sort_by_key key l)
  = List.filter (fun b => Qeq_bool (key b) k) l.
Proof.
  induction l as [|x l IH]; [done|].
  cbn [sort_by_key]. rewrite insert_by_key_stable.
  cbn [List.filter]. by rewrite IH.
Qed.

(** Two arrangements of the same boxes, one strictly ascending and one
    ascending, are the same list. *)
Lemma sorted_perm_unique (key : BBox -> Q) (l l' : list BBox) :
  StronglySorted (fun a b => key a < key b) l ->
  StronglySorted (fun a b => key a <= key b) l' ->
  Permutation l l' -> l' = l.
Proof.
  intros Hl. revert l'. induction Hl as [|x l Hs IH Hx]; intros l' Hl' Hp.
  - by apply Permutation_nil_l in Hp.
  - destruct l' as [|x' l'].
    { by apply Permutation_nil_r in Hp. }
    apply StronglySorted_inv in Hl' as [Hs' Hx'].
    assert (E : x' = x).
    { assert (I : In x' (x :: l)).
      { eapply Permutation_in; [symmetry; exact Hp | by left]. }
      assert (I' : In x (x' :: l')).
      { eapply Permutation_in; [exact Hp | by left]. }
      destruct I as [->|I]; [done|].
      destruct I' as [->|I']; [done|].
      rewrite List.Forall_forall in Hx, Hx'.
      specialize (Hx _ I). specialize (Hx' _ I'). simpl in *. lra. }
    subst x'. f_equal. apply IH; [done|].
    by apply Permutation_cons_inv in Hp.
Qed.

Lemma gaps_strictly_sorted (lines : list BBox) :
  gaps_all (fun g => 0 < g) lines ->
  StronglySorted (fun a b => y_center a < y_center b) lines.
Proof.
  induction lines as [|a [|b rest] IH]; intros G.
  - constructor.
  - repeat constructor.
  - destruct G as [G1 G2]. specialize (IH G2).
    constructor; [done|].
    apply StronglySorted_inv in IH as [_ Hb].
    constructor; [lra|].
    eapply Forall_impl; [exact Hb|]. simpl. intros; lra.
Qed.

Lemma sorted_gaps_nonneg (lines : list BBox) :
  StronglySorted by_y_center lines -> gaps_all (fun g => 0 <= g) lines.
Proof.
  induction 1 as [|a l Hs IH Ha]; [done|].
  destruct l as [|b rest]; [done|]. split; [|done].
  apply Forall_inv in Ha. unfold by_y_center in Ha. lra.
Qed.

Lemma gaps_all_impl (P P' : Q -> Prop) (lines : list BBox) :
  (forall g, P g -> P' g) -> gaps_all P lines -> gaps_all P' lines.
Proof.
  intros HP. induction lines as [|a [|b rest] IH]; try done.
  intros [G1 G2]. split; [by apply HP | by apply IH].
Qed.

(** *** The clustering loop *)

Lemma line_step_spec (st : LineState) (box : BBox) :
  line_step st box
  = if Qlt_le_dec ((3 # 5) * Qmax (last_h st) (box_height box))
                  (Qabs (y_center box - last_y_center st))
    then mkLineState (line_count st + 1) (y_center box) (box_height box)
    else st.
Proof.
  unfold line_step, Py.max.
  destruct (Qlt_le_dec _ _) as [L|L].
  - rewrite (proj2 (ltb_lt _ _)); [done|]. lra.
  - destruct (Py.ltb _ _) eqn:E; [|done]. apply ltb_lt in E. lra.
Qed.

(** The loop with its three variables computes the walk of the
    specification. *)
Lemma fold_line_step_walk (lines : list BBox) (st : LineState) :
  line_count (fold_left line_step lines st)
  = (line_count st + spec_walk (last_y_center st) (last_h st) lines)%Z.
Proof.
  revert st. induction lines as [|b lines IH]; intros st; simpl.
  - lia.
  - rewrite IH, line_step_spec.
    destruct (Qlt_le_dec _ _); simpl; lia.
Qed.

Lemma get_line_count_refines (blk : BBox) (boxes : list BBox) :
  get_line_count blk (map box_list boxes)
  = Ok (spec_line_count
          (sort_by_key y_center (List.filter (centroid_inside_dec blk) boxes))).
Proof.
  unfold get_line_count. rewrite select_contained_filter. simpl.
  destruct (List.filter _ boxes) as [|o sel] eqn:E; [done|].
  pose proof (sort_by_key_perm y_center (o :: sel)) as P.
  destruct (sort_by_key y_center (o :: sel)) as [|first others] eqn:S.
  { by apply Permutation_nil_r in P. }
  simpl. by rewrite fold_line_step_walk.
Qed.

Lemma walk_all_new (h : Q) (lines : list BBox) (prev : BBox) :
  equal_height h (prev :: lines) ->
  gaps_all (fun g => (3 # 5) * h < Qabs g) (prev :: lines) ->
  spec_walk (y_center prev) (box_height prev) lines = Z.of_nat (length lines).
Proof.
  revert prev. induction lines as [|b lines IH]; intros prev He G; [done|].
  destruct G as [G1 G2].
  pose proof (Forall_inv He) as Hp.
  pose proof (Forall_inv_tail He) as Hb. pose proof (Forall_inv Hb) as Hb1.
  cbn [spec_walk]. cbv beta in Hp, Hb1.
  destruct (Qlt_le_dec _ _) as [L|L].
  - rewrite (IH b Hb G2). cbn [length]. lia.
  - exfalso.
    destruct (Q.max_spec (box_height prev) (box_height b)) as [[? M]|[? M]];
      rewrite M in L; lra.
Qed.

Lemma walk_none_new (h c h' : Q) (lines : list BBox) :
  h' == h -> equal_height h lines ->
  Forall (fun b => Qabs (y_center b - c) <= (3 # 5) * h) lines ->
  spec_walk c h' lines = 0%Z.
Proof.
  intros Hh He Hc. induction lines as [|b lines IH]; [done|].
  pose proof (Forall_inv He) as Hb. pose proof (Forall_inv Hc) as Hd.
  cbv beta in Hb, Hd. cbn [spec_walk].
  destruct (Qlt_le_dec _ _) as [L|L].
  - exfalso.
    destruct (Q.max_spec h' (box_height b)) as [[? M]|[? M]];
      rewrite M in L; lra.
  - apply IH; [by eapply Forall_inv_tail | by eapply Forall_inv_tail].
Qed.

Lemma filter_all (f : BBox -> bool) (l : list BBox) :
  Forall (fun b => f b = true) l -> List.filter f l = l.
Proof.
  induction 1 as [|b l Hb Hl IH]; simpl; [done|]. by rewrite Hb, IH.
Qed.

Lemma all_inside_selected (blk : BBox) (lines : list BBox) :
  Forall (centroid_inside blk) lines ->
  List.filter (centroid_inside_dec blk) lines = lines.
Proof.
  intros H. apply filter_all. eapply Forall_impl; [exact H|].
  intros b. apply centroid_inside_dec_spec.
Qed.

Lemma line_count_stacked (blk : BBox) (h : Q) (stack boxes : list BBox) :
  Permutation stack boxes ->
  Forall (centroid_inside blk) stack ->
  equal_height h stack ->
  gaps_all (fun g => (3 # 5) * h < g) stack ->
  get_line_count blk (map box_list boxes) = Ok (Z.of_nat (length boxes)).
Proof.
  intros Hp Hin He Hg.
  rewrite get_line_count_refines, all_inside_selected
    by (by rewrite <- Hp).
  f_equal.
  pose proof (sort_by_key_perm y_center boxes) as Ps.
  pose proof (sort_by_key_sorted y_center boxes) as Ss.
  set (sorted := sort_by_key y_center boxes) in *.
  assert (G : gaps_all (fun g => (3 # 5) * h < Qabs g) sorted).
  { destruct (Qlt_le_dec h 0) as [N|N].
    - eapply gaps_all_impl; [|apply sorted_gaps_nonneg, Ss].
      intros g Hg0. simpl in Hg0. pose proof (Qabs_nonneg g). lra.
    - assert (sorted = stack) as ->.
      { apply (sorted_perm_unique y_center); [|exact Ss|by rewrite Hp].
        apply gaps_strictly_sorted.
        eapply gaps_all_impl; [|exact Hg]. simpl. intros; lra. }
      eapply gaps_all_impl; [|exact Hg].
      intros g Hg0. simpl in Hg0. pose proof (Qle_Qabs g). lra. }
  assert (E : equal_height h sorted).
  { unfold equal_height. by rewrite <- Ps, <- Hp. }
  rewrite (Permutation_length Ps).
  destruct sorted as [|first rest]; [done|].
  cbn [spec_line_count length]. rewrite (walk_all_new h rest first E G). lia.
Qed.

Lemma line_count_close (blk : BBox) (h : Q) (boxes : list BBox) :
  boxes <> [] ->
  Forall (centroid_inside blk) boxes ->
  equal_height h boxes ->
  (forall a b, In a boxes -> In b boxes ->
               Qabs (y_center a - y_center b) <= (3 # 5) * h) ->
  get_line_count blk (map box_list boxes) = Ok 1%Z.
Proof.
  intros Hne Hin He Hc.
  rewrite get_line_count_refines, all_inside_selected by done.
  f_equal.
  pose proof (sort_by_key_perm y_center boxes) as Ps.
  set (sorted := sort_by_key y_center boxes) in *.
  assert (E : equal_height h sorted).
  { unfold equal_height. by rewrite <- Ps. }
  destruct sorted as [|first rest].
  { apply Permutation_nil_r in Ps. contradiction. }
  cbn [spec_line_count].
  rewrite (walk_none_new h (y_center first) (box_height first) rest).
  - done.
  - exact (Forall_inv E).
  - exact (Forall_inv_tail E).
  - apply List.Forall_forall. intros b Hb.
    apply Hc; eapply Permutation_in; try (symmetry; exact Ps).
    + by right.
    + by left.
Qed.

(** C2, as stated, fails in its last consequence: three lines of height 10
    whose centroids are 5 apart (less than 0.6 times the height) give two
    visual lines, since the third is 10 away from the reference, which is
    still the first line. *)
Lemma line_count_small_gaps_two :
  let blk := mkBBox 0 0 100 100 in
  let lines := [mkBBox 0 0 10 10; mkBBox 0 5 10 15; mkBBox 0 10 10 20] in
  ~ (equal_height 10 lines ->
     Forall (centroid_inside blk) lines ->
     gaps_all (fun g => 0 < g /\ g < (3 # 5) * 10) lines ->
     get_line_count blk (map box_list lines) = Ok 1%Z).
Proof.
  intros blk lines H.
  assert (R : get_line_count blk (map box_list lines) = Ok 2%Z) by reflexivity.
  rewrite H in R; [discriminate R| | |].
  - repeat constructor.
  - repeat constructor; vm_compute; discriminate.
  - repeat split.
Qed.

(** C2 (amended): [get_line_count] selects exactly the OCR boxes whose
    centroid lies inside the block box and returns 0 when none is selected;
    otherwise it sorts the selected boxes by vertical centroid ascending
    and returns the number of clusters of the specification's walk (a new
    cluster exactly when the centroid is further from the reference
    centroid than 0.6 times the larger height, the reference being reset
    at each new cluster).  Consequently N equal-height lines stacked with
    centroid gaps greater than 0.6 times the height give N, and
    equal-height lines whose centroids are all within 0.6 times the height
    of one another give 1. *)
Theorem get_line_count_clusters (blk : BBox) (boxes : list BBox) :
  let selected := List.filter (centroid_inside_dec blk) boxes in
  let sorted := sort_by_key y_center selected in
  (forall o, In o selected <-> In o boxes /\ centroid_inside blk o)
  /\ Permutation selected sorted
  /\ StronglySorted by_y_center sorted
  /\ get_line_count blk (map box_list boxes) = Ok (spec_line_count sorted)
  /\ (selected = [] -> get_line_count blk (map box_list boxes) = Ok 0%Z)
  /\ (forall h stack,
        Permutation stack boxes ->
        Forall (centroid_inside blk) stack ->
        equal_height h stack ->
        gaps_all (fun g => (3 # 5) * h < g) stack ->
        get_line_count blk (map box_list boxes) = Ok (Z.of_nat (length boxes)))
  /\ (forall h,
        boxes <> [] ->
        Forall (centroid_inside blk) boxes ->
        equal_height h boxes ->
        (forall a b, In a boxes -> In b boxes ->
                     Qabs (y_center a - y_center b) <= (3 # 5) * h) ->
        get_line_count blk (map box_list boxes) = Ok 1%Z).
Proof.
  intros selected sorted.
  split; [|split; [|split; [|split; [|split; [|split]]]]].
  - intros o. unfold selected. rewrite List.filter_In, centroid_inside_dec_spec.
    tauto.
  - apply sort_by_key_perm.
  - apply sort_by_key_sorted.
  - apply get_line_count_refines.
  - intros E. rewrite get_line_count_refines. fold selected. by rewrite E.
  - intros h stack. apply line_count_stacked.
  - intros h. apply line_count_close.
Qed.

Lemma get_line_count_clusters_witness :
  get_line_count (mkBBox 0 0 100 100)
    (map box_list [mkBBox 0 14 10 24; mkBBox 0 0 10 10; mkBBox 0 7 10 17])
  = Ok 3%Z
  /\ get_line_count (mkBBox 0 0 100 100)
       (map box_list [mkBBox 0 6 10 16; mkBBox 0 0 10 10; mkBBox 0 3 10 13])
     = Ok 1%Z.
Proof.
  split.
  - apply (proj1 (proj2 (proj2 (proj2 (proj2 (proj2
             (get_line_count_clusters (mkBBox 0 0 100 100)
                [mkBBox 0 14 10 24; mkBBox 0 0 10 10; mkBBox 0 7 10 17])))))))
      with (h := 10)
           (stack := [mkBBox 0 0 10 10; mkBBox 0 7 10 17; mkBBox 0 14 10 24]).
    + apply Permutation_sym, Permutation_cons_append.
    + repeat constructor; vm_compute; discriminate.
    + repeat constructor.
    + repeat split.
  - apply (proj2 (proj2 (proj2 (proj2 (proj2 (proj2
             (get_line_count_clusters (mkBBox 0 0 100 100)
                [mkBBox 0 6 10 16; mkBBox 0 0 10 10; mkBBox 0 3 10 13])))))))
      with (h := 10).
    + discriminate.
    + repeat constructor; vm_compute; discriminate.
    + repeat constructor.
    + intros a b Ha Hb. simpl in Ha, Hb.
      repeat (destruct Ha as [<-|Ha]; [|]);
        repeat (destruct Hb as [<-|Hb]; [|]);
        try contradiction; vm_compute; discriminate.
Defined.

(** ** Text blocks *)

Lemma prefix_app (needle hay : string) :
  String.prefix needle hay = true <-> exists post, hay = (needle ++ post)%string.
Proof.
  revert hay. induction needle as [|c needle IH]; intros hay.
  - split; [intros _; by exists hay | by destruct hay].
  - destruct hay as [|d hay]; simpl.
    + split; [done | intros [post H]; discriminate H].
    + destruct (Ascii.ascii_dec c d) as [->|N].
      * rewrite IH. split; intros [post H]; exists post.
        -- by rewrite H.
        -- by injection H.
      * split; [done | intros [post H]; injection H; congruence].
Qed.

Lemma contains_substring (needle hay : string) :
  contains needle hay = true <-> is_substring needle hay.
Proof.
  unfold is_substring. induction hay as [|d hay IH]; cbn [contains].
  - rewrite orb_false_r, prefix_app. split.
    + intros [post H]. by exists ""%string, post.
    + intros (pre & post & H). destruct pre; [by exists post|discriminate H].
  - rewrite orb_true_iff, IH, prefix_app. split.
    + intros [[post H] | (pre & post & H)].
      * by exists ""%string, post.
      * exists (String d pre), post. simpl. by rewrite H.
    + intros (pre & post & H). destruct pre as [|e pre].
      * left. by exists post.
      * right. exists pre, post. simpl in H. by injection H.
Qed.

Lemma label_in_valid (label : string) :
  label_in label valid_labels = true <-> accepted_label label.
Proof.
  unfold label_in, valid_labels, accepted_label. simpl.
  rewrite !orb_true_iff, !String.eqb_eq. intuition discriminate.
Qed.

Lemma is_empty_true (s : string) : is_empty s = true <-> s = ""%string.
Proof. destruct s; simpl; split; congruence. Qed.

(** [should_skip_text_block] refuses exactly the blocks the specification
    does not render. *)
Lemma should_skip_text_block_spec (label content : string) :
  should_skip_text_block label content = false <-> renders_as_text label content.
Proof.
  unfold should_skip_text_block, renders_as_text.
  change (lower watermark_marker) with "notebooklm"%string.
  destruct (label_in label valid_labels) eqn:L; simpl.
  - apply label_in_valid in L.
    destruct (String.eqb label "footer") eqn:F; simpl.
    + apply String.eqb_eq in F.
      destruct (contains "notebooklm" (lower content)) eqn:C.
      * apply contains_substring in C. split; [done|]. intros (_ & _ & H).
        by destruct (H F).
      * destruct (is_empty (strip content)) eqn:E.
        -- apply is_empty_true in E. split; [done|]. by intros (_ & H & _).
        -- split; [|done]. intros _. split; [done|]. split.
           ++ intros H. apply is_empty_true in H. congruence.
           ++ intros _ H. apply contains_substring in H. congruence.
    + apply String.eqb_neq in F.
      destruct (is_empty (strip content)) eqn:E.
      * apply is_empty_true in E. split; [done|]. by intros (_ & H & _).
      * split; [|done]. intros _. split; [done|]. split; [|done].
        intros H. apply is_empty_true in H. congruence.
  - split; [done|]. intros (H & _). apply label_in_valid in H. congruence.
Qed.

Lemma reaches_create_text_shape_spec (item : Block) :
  reaches_create_text_shape item = true
  <-> is_Some (block_bbox item)
      /\ renders_as_text (item_label item) (item_content item).
Proof.
  unfold reaches_create_text_shape.
  destruct (block_bbox item) as [bbox|].
  - rewrite negb_true_iff, should_skip_text_block_spec. split.
    + intros H. split; [by exists bbox | done].
    + by intros [_ H].
  - split; [done|]. intros [[? H] _]. discriminate H.
Qed.

(** Trimming leaves nothing exactly when there is nothing but white
    space. *)
Lemma strip_empty (s : string) : strip s = ""%string <-> all_space s = true.
Proof.
  unfold strip. induction s as [|c s IH]; [done|].
  cbn [lstrip all_space]. destruct (is_space c) eqn:E; [exact IH|].
  cbn [rstrip andb]. rewrite E. split; [|done].
  by destruct (rstrip s).
Qed.

(** One block through the body of the loop. *)
Lemma process_text_blocks_cons (slide : Slide) (item : Block) (rest : list Block)
    (ocr_boxes : list BBox) (scale ppt_width ppt_height : Q) (font_name : string) :
  exists created,
    (if reaches_create_text_shape item
     then exists shape, created = [shape] /\ is_text_shape_of font_name item shape
     else created = [])
    /\ process_text_blocks slide (item :: rest) (map box_list ocr_boxes) scale
         ppt_width ppt_height font_name
       = process_text_blocks
           (mkSlide (shapes slide ++ created) (background slide)) rest
           (map box_list ocr_boxes) scale ppt_width ppt_height font_name.
Proof.
  unfold reaches_create_text_shape, item_label, item_content.
  cbn [process_text_blocks].
  destruct (block_bbox item) as [bbox|].
  - destruct (should_skip_text_block _ _) eqn:Sk; cbn [negb].
    + exists []. split; [done|]. rewrite app_nil_r. by destruct slide.
    + rewrite get_line_count_refines. cbn [mbind outcome_bind].
      unfold create_text_shape.
      destruct (String.eqb _ "paragraph_title");
        (eexists; split; [eexists; split; [reflexivity|]|reflexivity]);
        unfold is_text_shape_of, item_label, item_content; eauto.
  - exists []. split; [done|]. rewrite app_nil_r. by destruct slide.
Qed.

(** Over OCR boxes of four numbers [process_text_blocks] returns, and the
    shapes it appends to the slide are, in order, one text shape for each
    block of the list that has a bbox and that the specification renders
    as text: label in the accepted set, content not empty after trimming
    white space and, for a footer, no watermark marker in the content
    compared without case. *)
Lemma process_text_blocks_renders (slide : Slide) (items : list Block)
    (ocr_boxes : list BBox) (scale ppt_width ppt_height : Q) (font_name : string) :
  (forall item,
      reaches_create_text_shape item = true
      <-> is_Some (block_bbox item)
          /\ renders_as_text (item_label item) (item_content item))
  /\ exists created,
      process_text_blocks slide items (map box_list ocr_boxes) scale ppt_width
        ppt_height font_name
      = Ok (mkSlide (shapes slide ++ created) (background slide))
      /\ Forall2 (is_text_shape_of font_name)
           (List.filter reaches_create_text_shape items) created.
Proof.
  split; [apply reaches_create_text_shape_spec|].
  revert slide. induction items as [|item rest IH]; intros slide.
  - exists []. split; [|constructor]. simpl. rewrite app_nil_r. by destruct slide.
  - destruct (process_text_blocks_cons slide item rest ocr_boxes scale ppt_width
                ppt_height font_name) as (c1 & Hc1 & ->).
    destruct (IH (mkSlide (shapes slide ++ c1) (background slide)))
      as (c2 & -> & F).
    exists (c1 ++ c2). cbn [shapes background]. rewrite app_assoc.
    split; [done|]. cbn [List.filter].
    destruct (reaches_create_text_shape item).
    + destruct Hc1 as (shape & -> & Hs). by constructor.
    + by subst c1.
Qed.

(** C1: a block that meets the three conditions gets no text shape when an
    OCR box of the page carries a trailing field.  The title block with
    content "Plan" has a bbox, an accepted label that is not [footer] and
    a content that is not white space only; with the OCR box
    [[120, 60, 400, 90, 0.99]] the four-way unpacking of [get_line_count]
    raises [ValueError] and [process_text_blocks] ends without a slide.
    With the trailing field removed the same call gives the block its
    text shape. *)
Theorem process_text_blocks_trailing_field :
  let item := title_block "Plan" in
  let ocr_box := [120; 60; 400; 90; 99 # 100] in
  (is_Some (block_bbox item)
   /\ accepted_label (item_label item)
   /\ all_space (item_content item) = false
   /\ item_label item <> "footer"%string)
  /\ process_text_blocks empty_slide [item] [ocr_box] 1 1000 1000 "Calibri"
     = Raise ValueError
  /\ process_text_blocks empty_slide [item] [take 4 ocr_box] 1 1000 1000
       "Calibri"
     = Ok (mkSlide [TextShape "Block_title" "Plan" (FromLTRB 100 47 930 157)
                      AlignCenter "Calibri" 75] None).
Proof.
  intros item ocr_box. split; [|split].
  - split; [by eexists|]. split; [right; by left|]. split; [reflexivity|].
    discriminate.
  - reflexivity.
  - reflexivity.
Qed.

(** ** Aspect conformance *)

Lemma crop_items_filter (left right target : Z) (items acc : list Block) :
  crop_items left right target items acc
  = acc ++ map (item_clipped left target) (List.filter (item_kept left right) items).
Proof.
  revert acc. induction items as [|item items IH]; intros acc.
  - simpl. by rewrite app_nil_r.
  - cbn [crop_items List.filter].
    assert (K : item_kept left right item
                = match block_bbox item with
                  | Some b => Py.ltb (inject_Z left) (bx2 b)
                              && Py.ltb (bx1 b) (inject_Z right)
                  | None => false
                  end) by reflexivity.
    assert (C : item_clipped left target item
                = match block_bbox item with
                  | Some b =>
                      set_bbox item (mkBBox (clip_x1 left (bx1 b)) (by1 b)
                                       (clip_x2 left target (bx2 b)) (by2 b))
                  | None => item
                  end) by reflexivity.
    destruct (block_bbox item) as [[x1 y1 x2 y2]|]; rewrite K; [|apply IH].
    cbn [bx1 bx2] in *.
    destruct (Py.ltb (inject_Z left) x2 && Py.ltb x1 (inject_Z right)).
    + rewrite IH, <- app_assoc. cbn [map app]. by rewrite C.
    + apply IH.
Qed.

Lemma crop_rec_boxes_filter (left right target : Z) (boxes acc : list (list Q)) :
  crop_rec_boxes left right target boxes acc
  = acc ++ map (rec_box_clipped left target)
             (List.filter (rec_box_kept left right) boxes).
Proof.
  revert acc. induction boxes as [|bbox boxes IH]; intros acc.
  - simpl. by rewrite app_nil_r.
  - cbn [crop_rec_boxes List.filter]. unfold rec_box_kept at 1.
    destruct (has_four bbox); cbn [andb]; [|apply IH].
    destruct (Py.ltb (inject_Z left) (at_ bbox 2)
              && Py.ltb (at_ bbox 0) (inject_Z right)).
    + rewrite IH, <- app_assoc. cbn [map app]. do 3 f_equal.
    + apply IH.
Qed.

Lemma overlaps_window_ltb (left right : Z) (x1 x2 : Q) :
  Py.ltb (inject_Z left) x2 && Py.ltb x1 (inject_Z right) = true
  <-> overlaps_window left right x1 x2.
Proof.
  unfold overlaps_window. rewrite andb_true_iff, !ltb_lt. split.
  - intros [A B]. split; apply Qlt_not_le; assumption.
  - intros [A B]. split; apply Qnot_le_lt; assumption.
Qed.

Lemma outside_not_overlaps (left right : Z) (x1 x2 : Q) :
  outside_window left right x1 x2 -> ~ overlaps_window left right x1 x2.
Proof. unfold outside_window, overlaps_window. tauto. Qed.

(** Inside the window clipping is a translation: the width is kept. *)
Lemma inside_width_kept (left target : Z) (x1 x2 : Q) :
  inside_window left (left + target) x1 x2 ->
  clip_x1 left x1 == x1 - inject_Z left
  /\ clip_x2 left target x2 == x2 - inject_Z left
  /\ clip_x2 left target x2 - clip_x1 left x1 == x2 - x1.
Proof.
  unfold inside_window, clip_x1, clip_x2. rewrite inject_Z_plus.
  intros [A B].
  assert (E1 : Qmax 0 (x1 - inject_Z left) == x1 - inject_Z left).
  { apply Q.max_r. lra. }
  assert (E2 : Qmin (inject_Z target) (x2 - inject_Z left) == x2 - inject_Z left).
  { apply Q.min_r. lra. }
  rewrite E1, E2. repeat split; try reflexivity. lra.
Qed.

Lemma int_inject_Z (z : Z) : Py.int (inject_Z z) = z.
Proof. unfold Py.int. simpl. apply Z.quot_1_r. Qed.

Lemma wide_screen_noop (data : Data) (first : PageLayout) (rest : list PageLayout) :
  layoutParsingResults data = first :: rest ->
  width first = wide_target_width (height first) ->
  make_data_wide_screen data = data.
Proof.
  intros E W. unfold make_data_wide_screen. rewrite E, W.
  by rewrite Z.eqb_refl.
Qed.

(** After the pass the first page has the target width of its height. *)
Lemma wide_screen_first_page (data : Data) (first : PageLayout) (rest : list PageLayout) :
  layoutParsingResults data = first :: rest ->
  exists first' rest',
    layoutParsingResults (make_data_wide_screen data) = first' :: rest'
    /\ width first' = wide_target_width (height first')
    /\ height first' = height first.
Proof.
  intros E. unfold make_data_wide_screen. rewrite E.
  destruct (Z.eqb_spec (wide_target_width (height first)) (width first)) as [W|W].
  { exists first, rest. by rewrite E. }
  destruct (Z.ltb_spec (width first) (wide_target_width (height first))) as [L|L].
  { cbn [layoutParsingResults update_data_size]. rewrite E. cbn [map].
    eexists _, _. split; [reflexivity|]. cbn [width height set_if fmap option_fmap option_map].
    by rewrite int_inject_Z. }
  destruct (Z.ltb_spec (wide_target_width (height first)) (width first)) as [L'|L'].
  { cbn [layoutParsingResults update_data_size]. rewrite E. cbn [map].
    eexists _, _. split; [reflexivity|]. by cbn [width height set_if]. }
  lia.
Qed.

(** C5: when the first page already has the 16:9 width of its height the
    pass returns its input unchanged, and on any input a second pass
    returns what the first returned. *)
Theorem make_data_wide_screen_idempotent (data : Data) :
  (forall first rest,
      layoutParsingResults data = first :: rest ->
      width first = wide_target_width (height first) ->
      make_data_wide_screen data = data)
  /\ make_data_wide_screen (make_data_wide_screen data)
     = make_data_wide_screen data.
Proof.
  split.
  - intros first rest. apply wide_screen_noop.
  - destruct (layoutParsingResults data) as [|first rest] eqn:E.
    + unfold make_data_wide_screen at 2. rewrite E.
      unfold make_data_wide_screen. by rewrite E.
    + destruct (wide_screen_first_page data first rest E) as (f' & r' & E' & W & _).
      by apply (wide_screen_noop _ f' r').
Qed.

Lemma wide_target_width_examples :
  wide_target_width 1080 = 1920%Z /\ wide_target_width 1000 = 1778%Z
  /\ wide_target_width 900 = 1600%Z.
Proof. repeat split. Qed.

Lemma make_data_wide_screen_idempotent_witness :
  let page :=
    mkPageLayout 1920 1080
      [mkBlock (Some "title"%string) (Some "Plan"%string)
         (Some (mkBBox 100 50 900 150))] in
  let data := mkData [page] [mkPageOcr [[100; 60; 400; 90]]] None in
  make_data_wide_screen data = data.
Proof.
  intros page data.
  apply (proj1 (make_data_wide_screen_idempotent data) page []); reflexivity.
Defined.

(** The cropping branch, page by page, in the form of a filter followed by
    a map. *)
Lemma wide_screen_crop_pages (data : Data) (first : PageLayout) (rest : list PageLayout) :
  layoutParsingResults data = first :: rest ->
  (wide_target_width (height first) < width first)%Z ->
  let target := wide_target_width (height first) in
  let left := ((width first - target) / 2)%Z in
  let right := (left + target)%Z in
  make_data_wide_screen data
  = mkData
      (map (fun page =>
              mkPageLayout target (height page)
                (map (item_clipped left target)
                   (List.filter (item_kept left right) (parsing_res_list page))))
           (layoutParsingResults data))
      (map (fun page =>
              mkPageOcr
                (map (rec_box_clipped left target)
                   (List.filter (rec_box_kept left right) (rec_boxes page))))
           (ocrResults data))
      (dataInfo (update_data_size data (inject_Z target) None)).
Proof.
  intros E L target left right. unfold make_data_wide_screen. rewrite E.
  fold target.
  destruct (Z.eqb_spec target (width first)) as [W|W]; [lia|].
  destruct (Z.ltb_spec (width first) target) as [L1|L1]; [lia|].
  destruct (Z.ltb_spec target (width first)) as [L2|L2]; [|lia].
  fold left. fold right. rewrite <- E. f_equal.
  - cbn [layoutParsingResults update_data_size]. rewrite map_map.
    apply map_ext. intros page. cbn [height parsing_res_list set_if].
    by rewrite crop_items_filter.
  - cbn [ocrResults update_data_size].
    apply map_ext. intros page. by rewrite crop_rec_boxes_filter.
Qed.

(** C4: in the crop branch the output block list of every page holds, in
    order, the clipped blocks that have a bbox overlapping [left, right];
    a kept block's x-coordinates are [max(0, x1 - left)] and
    [min(target, x2 - left)]; a block entirely outside is not kept; a block
    entirely inside is translated, so that its width is unchanged.  The
    OCR boxes of every page are filtered and clipped by the same rule, from
    their own list only. *)
Theorem make_data_wide_screen_crop (data : Data) (first : PageLayout)
    (rest : list PageLayout) :
  layoutParsingResults data = first :: rest ->
  (wide_target_width (height first) < width first)%Z ->
  let target := wide_target_width (height first) in
  let left := ((width first - target) / 2)%Z in
  let right := (left + target)%Z in
  let out := make_data_wide_screen data in
  map parsing_res_list (layoutParsingResults out)
  = map (fun page =>
           map (item_clipped left target)
             (List.filter (item_kept left right) (parsing_res_list page)))
        (layoutParsingResults data)
  /\ map rec_boxes (ocrResults out)
     = map (fun page =>
              map (rec_box_clipped left target)
                (List.filter (rec_box_kept left right) (rec_boxes page)))
           (ocrResults data)
  /\ (forall item b,
        block_bbox item = Some b ->
        (item_kept left right item = true
         <-> overlaps_window left right (bx1 b) (bx2 b))
        /\ block_bbox (item_clipped left target item)
           = Some (mkBBox (Qmax 0 (bx1 b - inject_Z left)) (by1 b)
                          (Qmin (inject_Z target) (bx2 b - inject_Z left))
                          (by2 b))
        /\ (outside_window left right (bx1 b) (bx2 b) ->
            item_kept left right item = false)
        /\ (inside_window left right (bx1 b) (bx2 b) ->
            Qmin (inject_Z target) (bx2 b - inject_Z left)
            - Qmax 0 (bx1 b - inject_Z left) == bx2 b - bx1 b)
        /\ (inside_window left right (bx1 b) (bx2 b) -> bx1 b < bx2 b ->
            item_kept left right item = true))
  /\ (forall bbox,
        (rec_box_kept left right bbox = true
         <-> (4 <= length bbox)%nat
             /\ overlaps_window left right (at_ bbox 0) (at_ bbox 2))
        /\ rec_box_clipped left target bbox
           = <[2%nat := Qmin (inject_Z target) (at_ bbox 2 - inject_Z left)]>
               (<[0%nat := Qmax 0 (at_ bbox 0 - inject_Z left)]> bbox)
        /\ (inside_window left right (at_ bbox 0) (at_ bbox 2) ->
            Qmin (inject_Z target) (at_ bbox 2 - inject_Z left)
            - Qmax 0 (at_ bbox 0 - inject_Z left) == at_ bbox 2 - at_ bbox 0)).
Proof.
  intros E L target left right out.
  unfold out. rewrite (wide_screen_crop_pages data first rest E L).
  fold target. fold left. fold right. cbn [layoutParsingResults ocrResults].
  rewrite !map_map. cbn [parsing_res_list rec_boxes].
  split; [done|]. split; [done|]. split.
  - intros item b Hb. unfold item_kept, item_clipped. rewrite Hb.
    split; [apply overlaps_window_ltb|]. split; [done|]. split.
    + intros Ho. apply outside_not_overlaps in Ho.
      destruct (Py.ltb _ _ && Py.ltb _ _) eqn:K; [|done].
      apply overlaps_window_ltb in K. contradiction.
    + split.
      * intros Hi. apply (inside_width_kept left target). exact Hi.
      * intros [A B] Hlt. apply overlaps_window_ltb. unfold overlaps_window.
        split; intros C; lra.
  - intros bbox. split; [|split].
    + unfold rec_box_kept, has_four.
      rewrite andb_true_iff, overlaps_window_ltb, Nat.leb_le. tauto.
    + reflexivity.
    + intros Hi. apply (inside_width_kept left target). exact Hi.
Qed.

Lemma make_data_wide_screen_crop_witness :
  let page :=
    mkPageLayout 2000 900
      [mkBlock (Some "text"%string) (Some "a"%string) (Some (mkBBox 100 0 150 10));
       mkBlock (Some "text"%string) (Some "b"%string) (Some (mkBBox 300 0 500 10));
       mkBlock (Some "text"%string) (Some "c"%string) (Some (mkBBox 150 0 400 10));
       mkBlock (Some "text"%string) (Some "d"%string) None] in
  let data := mkData [page] [mkPageOcr [[100; 0; 150; 10]; [1700; 0; 1900; 10; 1]]] None in
  (wide_target_width 900 < 2000)%Z
  /\ map parsing_res_list (layoutParsingResults (make_data_wide_screen data))
     = [[mkBlock (Some "text"%string) (Some "b"%string) (Some (mkBBox 100 0 300 10));
         mkBlock (Some "text"%string) (Some "c"%string) (Some (mkBBox 0 0 200 10))]]
  /\ map rec_boxes (ocrResults (make_data_wide_screen data))
     = [[[1500; 0; 1600; 10; 1]]].
Proof.
  intros page data.
  assert (L : (wide_target_width (height page) < width page)%Z) by reflexivity.
  split; [exact L|].
  pose proof (make_data_wide_screen_crop data page [] eq_refl L) as (H1 & H2 & _).
  split; [exact H1 | exact H2].
Defined.

(** ** Canvas scale *)

Lemma for_each_map {A B : Type} (f : A -> Outcome B) (g : A -> B) (l : list A) :
  Forall (fun a => f a = Ok (g a)) l -> for_each f l = Ok (map g l).
Proof.
  induction 1 as [|a l Ha Hl IH]; [done|].
  cbn [for_each map]. rewrite Ha. cbn [mbind outcome_bind].
  by rewrite IH.
Qed.

Lemma resize_rec_box_ok (scale : Q) (bbox : list Q) :
  (length bbox <= 4)%nat ->
  resize_rec_box scale bbox = Ok (resized_rec_box scale bbox).
Proof.
  intros H. destruct bbox as [|a [|b [|c [|d [|e bbox]]]]]; try reflexivity.
  simpl in H. lia.
Qed.

(** An OCR box with a fifth number passes the guard and then fails in the
    four-way unpacking of [scale_bbox]. *)
Lemma resize_rec_box_long (scale : Q) (a b c d e : Q) (bbox : list Q) :
  resize_rec_box scale (a :: b :: c :: d :: e :: bbox) = Raise ValueError.
Proof. reflexivity. Qed.

Lemma is_zero_false (x : Q) : ~ x == 0 -> is_zero x = false.
Proof.
  intros H. unfold is_zero. destruct (Qeq_bool x 0) eqn:E; [|done].
  apply Qeq_bool_iff in E. contradiction.
Qed.

Lemma for_each_raise {A B : Type} (f : A -> Outcome B) (l : list A) (e : PyError) :
  for_each f l = Raise e -> exists a, In a l /\ f a = Raise e.
Proof.
  induction l as [|a l IH]; [discriminate|].
  cbn [for_each]. destruct (f a) as [b|e'] eqn:Fa; cbn [mbind outcome_bind].
  - destruct (for_each f l) as [bs|e'] eqn:Fl; cbn [mbind outcome_bind];
      [discriminate|].
    intros [= ->]. destruct (IH eq_refl) as (a' & I & R).
    exists a'. split; [by right | done].
  - intros [= ->]. exists a. split; [by left | done].
Qed.

Lemma resize_rec_box_raise (scale : Q) (bbox : list Q) (e : PyError) :
  resize_rec_box scale bbox = Raise e -> e = ValueError.
Proof.
  unfold resize_rec_box. destruct (has_four bbox); [|discriminate].
  destruct (unpack4 bbox) as [b|e'] eqn:U; cbn [mbind outcome_bind];
    [discriminate|].
  intros [= <-]. unfold unpack4 in U.
  destruct bbox as [|a [|b [|c [|d [|? ?]]]]]; congruence.
Qed.

(** The loop over the OCR pages raises nothing but [ValueError]. *)
Lemma resize_ocr_raise (scale : Q) (pages : list PageOcr) (e : PyError) :
  for_each (fun page_ocr =>
              boxes ← for_each (resize_rec_box scale) (rec_boxes page_ocr);
              Ok (mkPageOcr boxes)) pages = Raise e ->
  e = ValueError.
Proof.
  intros H. apply for_each_raise in H as (page & _ & H).
  destruct (for_each (resize_rec_box scale) (rec_boxes page)) as [bs|e'] eqn:B;
    cbn [mbind outcome_bind] in H; [discriminate H|].
  injection H as ->.
  apply for_each_raise in B as (bbox & _ & B).
  by apply resize_rec_box_raise in B.
Qed.

Lemma resize_data_assertion (data : Data) (pdf_w pdf_h ppt_w ppt_h : Q) :
  ~ pdf_w == 0 -> ~ pdf_h == 0 ->
  (resize_data data (pdf_w, pdf_h) (ppt_w, ppt_h) = Raise AssertionError
   <-> 1 # 100 <= Qabs (ppt_w / pdf_w - ppt_h / pdf_h)).
Proof.
  intros Hw Hh. unfold resize_data.
  rewrite (is_zero_false _ Hw), (is_zero_false _ Hh).
  destruct (Py.ltb (Qabs (ppt_w / pdf_w - ppt_h / pdf_h)) (1 # 100)) eqn:A;
    cbn [negb].
  - apply ltb_lt in A. split; [|intros; lra].
    intros H. exfalso.
    destruct (for_each _ (ocrResults _)) as [?|e] eqn:F;
      cbn [mbind outcome_bind] in H; [discriminate H|].
    injection H as ->. apply resize_ocr_raise in F. discriminate F.
  - split; [intros _|done].
    destruct (Qlt_le_dec (Qabs (ppt_w / pdf_w - ppt_h / pdf_h)) (1 # 100)) as [L|L];
      [|done].
    apply ltb_lt in L. congruence.
Qed.

Lemma resize_data_ok (data : Data) (pdf_w pdf_h ppt_w ppt_h : Q) :
  ~ pdf_w == 0 -> ~ pdf_h == 0 ->
  Qabs (ppt_w / pdf_w - ppt_h / pdf_h) < 1 # 100 ->
  rec_boxes_at_most_four data ->
  resize_data data (pdf_w, pdf_h) (ppt_w, ppt_h)
  = Ok (resized_data data (ppt_w / pdf_w) ppt_w ppt_h).
Proof.
  intros Hw Hh A B. unfold resize_data.
  rewrite (is_zero_false _ Hw), (is_zero_false _ Hh).
  rewrite (proj2 (ltb_lt _ _) A). cbn [negb].
  cbn [ocrResults update_data_size].
  rewrite (for_each_map _
             (fun page => mkPageOcr (map (resized_rec_box (ppt_w / pdf_w))
                                       (rec_boxes page)))).
  - cbn [mbind outcome_bind]. unfold resized_data. f_equal. f_equal.
    cbn [layoutParsingResults update_data_size]. rewrite map_map.
    apply map_ext. intros page. by cbn [parsing_res_list width height set_if fmap option_fmap option_map].
  - eapply Forall_impl; [exact B|]. intros page Hp. cbv beta in Hp.
    rewrite (for_each_map _ (resized_rec_box (ppt_w / pdf_w))); [done|].
    eapply Forall_impl; [exact Hp|]. intros bbox. apply resize_rec_box_ok.
Qed.

(** C7, as stated, fails where the canvas size is not integral: for a
    1000 x 1300 document on the 7200/13 x 720 canvas that
    [setup_presentation] gives it, the scales agree and the page width
    written is 553. *)
Lemma resize_data_truncates_canvas :
  let data := mkData [mkPageLayout 1000 1300 []] [mkPageOcr []] None in
  exists out,
    resize_data data (1000, 1300) (7200 # 13, 720) = Ok out
    /\ ~ Forall (fun page => inject_Z (width page) == 7200 # 13
                           /\ inject_Z (height page) == 720)
          (layoutParsingResults out).
Proof.
  intros data. eexists. split; [reflexivity|].
  intros H. apply Forall_inv in H as [H _]. vm_compute in H. discriminate H.
Qed.

(** C7 (amended): for a document of non-zero width and height
    [resize_data] fails its assertion exactly when the horizontal and
    vertical scales differ by 1/100 or more; when they agree, and no OCR
    box has more than four numbers, it returns the data in which every
    block bbox and every four-number OCR box is replaced by its
    [scale_bbox] with the horizontal scale and [make_int=True], and every
    page's width and height are the canvas width and height truncated to
    integers. *)
Theorem resize_data_outcome (data : Data) (pdf_w pdf_h ppt_w ppt_h : Q) :
  ~ pdf_w == 0 -> ~ pdf_h == 0 ->
  let scale_x := ppt_w / pdf_w in
  let scale_y := ppt_h / pdf_h in
  (resize_data data (pdf_w, pdf_h) (ppt_w, ppt_h) = Raise AssertionError
   <-> 1 # 100 <= Qabs (scale_x - scale_y))
  /\ (Qabs (scale_x - scale_y) < 1 # 100 ->
      rec_boxes_at_most_four data ->
      exists out,
        resize_data data (pdf_w, pdf_h) (ppt_w, ppt_h) = Ok out
        /\ Forall2 (fun page page' =>
                      width page' = Py.int ppt_w
                      /\ height page' = Py.int ppt_h
                      /\ Forall2 (fun item item' =>
                                    block_label item' = block_label item
                                    /\ block_content item' = block_content item
                                    /\ block_bbox item'
                                       = (fun bbox => scale_bbox bbox scale_x true)
                                           <$> block_bbox item)
                           (parsing_res_list page) (parsing_res_list page'))
             (layoutParsingResults data) (layoutParsingResults out)
        /\ Forall2 (fun page page' =>
                      Forall2 (fun bbox bbox' =>
                                 match bbox with
                                 | [a; b; c; d] =>
                                     bbox' = box_list (scale_bbox (mkBBox a b c d)
                                                         scale_x true)
                                 | _ => bbox' = bbox
                                 end)
                        (rec_boxes page) (rec_boxes page'))
             (ocrResults data) (ocrResults out)).
Proof.
  intros Hw Hh scale_x scale_y. split; [by apply resize_data_assertion|].
  intros A B. exists (resized_data data scale_x ppt_w ppt_h).
  split; [by apply resize_data_ok|]. unfold resized_data.
  cbn [layoutParsingResults ocrResults]. split.
  - apply Forall2_fmap_r, Forall_Forall2_diag, List.Forall_forall.
    intros page _. cbn [width height parsing_res_list].
    split; [done|]. split; [done|].
    apply Forall2_fmap_r, Forall_Forall2_diag, List.Forall_forall.
    intros item _. unfold compose, resize_item. cbv beta.
    destruct (block_bbox item) eqn:E; repeat split; try reflexivity.
    exact E.
  - apply Forall2_fmap_r, Forall_Forall2_diag, List.Forall_forall.
    intros page _. cbn [rec_boxes].
    apply Forall2_fmap_r, Forall_Forall2_diag, List.Forall_forall.
    intros bbox _. unfold compose. cbv beta.
    destruct bbox as [|a [|b [|c [|d [|e bbox]]]]]; reflexivity.
Qed.

Lemma resize_data_outcome_witness :
  let data :=
    mkData [mkPageLayout 1778 1000
              [mkBlock (Some "title"%string) (Some "Plan"%string)
                 (Some (mkBBox 489 50 1289 150))]]
           [mkPageOcr [[500; 60; 700; 90]]] None in
  ~ 1778 == 0 /\ ~ 1000 == 0
  /\ exists out, resize_data data (1778, 1000) (720, 405) = Ok out.
Proof.
  intros data.
  assert (Hw : ~ 1778 == 0) by (intros H; discriminate H).
  assert (Hh : ~ 1000 == 0) by (intros H; discriminate H).
  split; [exact Hw|]. split; [exact Hh|].
  destruct (proj2 (resize_data_outcome data 1778 1000 720 405 Hw Hh))
    as (out & E & _).
  - reflexivity.
  - repeat constructor.
  - exists out. exact E.
Defined.

(** ** Erasure *)

Lemma int_ge_0 (x : Q) : 0 <= x -> (0 <= Py.int x)%Z.
Proof.
  intros H. rewrite int_nonneg by exact H.
  change 0%Z with (Qfloor 0). by apply Qfloor_resp_le.
Qed.

Lemma expand_bbox_corner_nonneg (bbox : BBox) (expand_px : Q) (size : Q * Q) :
  0 <= bx1 (expand_bbox bbox expand_px size)
  /\ 0 <= by1 (expand_bbox bbox expand_px size).
Proof.
  destruct bbox, size. simpl. unfold Py.max. split; apply Q.le_max_l.
Qed.

(** A rectangle that is filled starts at non-negative pixel coordinates
    when the scale is not negative. *)
Lemma pixel_rect_bounds (bbox : BBox) (img_scale : Q) (pdf_size : Z * Z)
    (t b l r : Z) :
  0 <= img_scale ->
  pixel_rect bbox img_scale pdf_size = Some (t, b, l, r) ->
  (0 <= l < r)%Z /\ (0 <= t < b)%Z.
Proof.
  intros Hs. unfold pixel_rect.
  pose proof (expand_bbox_corner_nonneg bbox 2 (as_size pdf_size)) as [Hx Hy].
  destruct (expand_bbox bbox 2 (as_size pdf_size)) as [x1 y1 x2 y2].
  cbn [bx1 by1] in Hx, Hy. cbn [scale_bbox_ints].
  destruct (Z.leb_spec (Py.ceil (x2 * img_scale)) (Py.int (x1 * img_scale)));
    cbn [orb]; [discriminate|].
  destruct (Z.leb_spec (Py.ceil (y2 * img_scale)) (Py.int (y1 * img_scale)));
    [discriminate|].
  intros [= <- <- <- <-].
  assert (0 <= Py.int (x1 * img_scale))%Z by (apply int_ge_0; nra).
  assert (0 <= Py.int (y1 * img_scale))%Z by (apply int_ge_0; nra).
  lia.
Qed.

Lemma in_slice_valid (n start stop i : Z) :
  (0 <= start < stop)%Z ->
  in_slice n start stop i = true
  <-> (0 <= i < n)%Z /\ (start <= i < stop)%Z.
Proof.
  intros H. unfold in_slice, slice_index.
  destruct (Z.ltb_spec start 0); [lia|].
  destruct (Z.ltb_spec stop 0); [lia|].
  rewrite andb_true_iff, Z.leb_le, Z.ltb_lt. lia.
Qed.

Section Erasure.

Context {Pixel : Type}.
Variable sampler : @Raster Pixel -> Z -> Z -> Z -> Z -> Z -> Q * Pixel.

(** C10: for a scale that is not negative, [erase_region] with an empty
    or inverted pixel rectangle returns [False] and the raster as it was;
    otherwise it returns [True] and a raster of the same shape in which
    every pixel of the rectangle [l, r) x [t, b) has the one sampled fill
    colour and every other pixel its previous value. *)
Theorem erase_region_frame (image_cv : Raster) (bbox : BBox) (img_scale : Q)
    (pdf_size : Z * Z) (l t r b : Z) :
  0 <= img_scale ->
  scale_bbox_ints (expand_bbox bbox 2 (as_size pdf_size)) img_scale = (l, t, r, b) ->
  ((r <= l \/ b <= t)%Z ->
   erase_region sampler image_cv bbox img_scale pdf_size = (image_cv, false))
  /\ ((l < r /\ t < b)%Z ->
      let fill_color := snd (sampler image_cv l t r b 20) in
      exists image',
        erase_region sampler image_cv bbox img_scale pdf_size = (image', true)
        /\ image_h image' = image_h image_cv
        /\ image_w image' = image_w image_cv
        /\ (forall y x,
              (0 <= y < image_h image_cv)%Z -> (0 <= x < image_w image_cv)%Z ->
              (t <= y < b)%Z -> (l <= x < r)%Z ->
              pixel image' y x = fill_color)
        /\ (forall y x,
              ~ ((t <= y < b)%Z /\ (l <= x < r)%Z) ->
              pixel image' y x = pixel image_cv y x)).
Proof.
  intros Hs E.
  assert (R : pixel_rect bbox img_scale pdf_size
              = if ((r <=? l) || (b <=? t))%Z then None else Some (t, b, l, r)).
  { unfold pixel_rect. by rewrite E. }
  split.
  - intros H. unfold erase_region. rewrite R.
    destruct (Z.leb_spec r l); [done|]. destruct (Z.leb_spec b t); [done|]. lia.
  - intros [Hl Ht] fill_color.
    assert (R' : pixel_rect bbox img_scale pdf_size = Some (t, b, l, r)).
    { rewrite R. destruct (Z.leb_spec r l); [lia|].
      destruct (Z.leb_spec b t); [lia|]. done. }
    destruct (pixel_rect_bounds bbox img_scale pdf_size t b l r Hs R') as [Bl Bt].
    eexists. split; [unfold erase_region; rewrite R'; reflexivity|].
    split; [done|]. split; [done|]. fold fill_color. cbn [pixel fill_slice].
    split.
    + intros y x Hy Hx Hty Hlx.
      rewrite (proj2 (in_slice_valid (image_h image_cv) t b y Bt)) by done.
      by rewrite (proj2 (in_slice_valid (image_w image_cv) l r x Bl)).
    + intros y x N.
      destruct (in_slice (image_h image_cv) t b y) eqn:Sy; [|done].
      destruct (in_slice (image_w image_cv) l r x) eqn:Sx; [|done].
      apply in_slice_valid in Sy; [|done]. apply in_slice_valid in Sx; [|done].
      tauto.
Qed.

End Erasure.

Lemma erase_region_frame_witness :
  let image_cv := mkRaster 100 100 (fun _ _ => 255%Z) in
  let sampler := fun (_ : @Raster Z) (_ _ _ _ _ : Z) => (0, 7%Z) in
  0 <= 1
  /\ exists image',
      erase_region sampler image_cv (mkBBox 10 10 20 20) 1 (100, 100)%Z
      = (image', true)
      /\ pixel image' 10 10 = 7%Z /\ pixel image' 30 10 = 255%Z.
Proof.
  intros image_cv sampler.
  assert (Hs : 0 <= 1) by discriminate.
  split; [exact Hs|].
  destruct (proj2 (erase_region_frame sampler image_cv (mkBBox 10 10 20 20) 1
                     (100, 100)%Z 8 8 22 22 Hs eq_refl))
    as (image' & E & _ & _ & In_ & Out); [lia|].
  exists image'. split; [exact E|]. split.
  - apply In_; simpl; lia.
  - rewrite Out; [reflexivity | lia].
Defined.

(** ** The background pass *)

Section BackgroundPass.

Context {Pixel : Type}.
Variable sampler : @Raster Pixel -> Z -> Z -> Z -> Z -> Z -> Q * Pixel.
Variable resize : @Raster Pixel -> Z * Z -> @Raster Pixel.

(** The extraction loop reads the one raster it is given; it only adds
    shapes, files and log entries. *)
Lemma extract_loop_crops (w : @World Pixel) (i : nat) (items : list Block)
    (image_cv : @Raster Pixel) (img_scale scale : Q) (pdf_size : Z * Z) (page_idx : nat) :
  extract_loop w i items image_cv img_scale scale pdf_size page_idx
  = mkWorld
      (mkSlide (foreground_shapes img_scale scale pdf_size page_idx i items
                  (shapes (slide w)))
               (background (slide w)))
      (files w ++ saved_crops image_cv img_scale pdf_size page_idx i items)
      (log w ++ crop_events img_scale pdf_size page_idx i items).
Proof.
  revert w i. induction items as [|item rest IH]; intros w i.
  - simpl. rewrite !app_nil_r. by destruct w as [[? ?] ? ?].
  - cbn [extract_loop saved_crops crop_events foreground_shapes].
    unfold labelled_rect.
    destruct (label_in _ foreground_labels).
    + unfold extract_foreground_element.
      destruct (block_bbox item) as [bbox|].
      * destruct (pixel_rect bbox img_scale pdf_size) as [[[[t b] l] r]|].
        -- cbn [fst]. rewrite IH. cbn [slide files log background shapes].
           by rewrite <- !app_assoc.
        -- cbn [fst]. by rewrite IH.
      * cbn [fst]. by rewrite IH.
    + by rewrite IH.
Qed.

(** The erasure loop threads one raster through the blocks in list
    order. *)
Lemma erase_loop_all (image_cv : @Raster Pixel) (events : list Event)
    (items : list Block) (img_scale : Q) (pdf_size : Z * Z) :
  erase_loop sampler image_cv events items img_scale pdf_size
  = (erase_all sampler img_scale pdf_size image_cv items,
     events ++ fill_events img_scale pdf_size items).
Proof.
  revert image_cv events. induction items as [|item rest IH]; intros image_cv events.
  - simpl. by rewrite app_nil_r.
  - cbn [erase_loop]. unfold erase_all, fill_events.
    cbn [fold_left flat_map]. unfold erase_one at 2, labelled_rect.
    destruct (label_in _ erasable_labels).
    + destruct (block_bbox item) as [bbox|].
      * rewrite IH. unfold erase_region.
        destruct (pixel_rect bbox img_scale pdf_size) as [[[[t b] l] r]|];
          cbn [fst]; unfold erase_all, fill_events; by rewrite <- ?app_assoc.
      * rewrite IH. by unfold erase_all, fill_events.
    + rewrite IH. by unfold erase_all, fill_events.
Qed.

Lemma saved_crops_lookup (image_cv : @Raster Pixel) (img_scale : Q)
    (pdf_size : Z * Z) (page_idx i k : nat) (items : list Block) (item : Block)
    (t b l r : Z) :
  items !! k = Some item ->
  labelled_rect foreground_labels img_scale pdf_size item = Some (t, b, l, r) ->
  In (CropPng (page_idx + 1) (default "None"%string (block_label item)) (i + k),
      crop_slice image_cv t b l r)
     (saved_crops image_cv img_scale pdf_size page_idx i items).
Proof.
  revert i k. induction items as [|item' rest IH]; intros i k Hk Hr; [done|].
  cbn [saved_crops]. apply in_or_app. destruct k as [|k].
  - injection Hk as ->. rewrite Hr, Nat.add_0_r. left. by left.
  - right. replace (i + S k)%nat with (S i + k)%nat by lia. by apply IH.
Qed.

(** A crop holds the pixels of its rectangle of the raster it was cut
    from. *)
Lemma crop_slice_pixels (image_cv : @Raster Pixel) (t b l r y x : Z) :
  (0 <= t < b)%Z -> (0 <= l < r)%Z ->
  (0 <= y < image_h (crop_slice image_cv t b l r))%Z ->
  (0 <= x < image_w (crop_slice image_cv t b l r))%Z ->
  pixel (crop_slice image_cv t b l r) y x = pixel image_cv (t + y) (l + x)
  /\ (t + y < b)%Z /\ (t + y < image_h image_cv)%Z
  /\ (l + x < r)%Z /\ (l + x < image_w image_cv)%Z.
Proof.
  unfold crop_slice, slice_index. cbn [image_h image_w pixel].
  intros Ht Hl.
  destruct (Z.ltb_spec t 0); [lia|]. destruct (Z.ltb_spec b 0); [lia|].
  destruct (Z.ltb_spec l 0); [lia|]. destruct (Z.ltb_spec r 0); [lia|].
  intros Hy Hx.
  assert (Z.min t (image_h image_cv) = t) as -> by lia.
  assert (Z.min l (image_w image_cv) = l) as -> by lia.
  split; [done|]. lia.
Qed.

Lemma scale_positive (image_w pdf_w : Z) :
  (0 < pdf_w)%Z -> (0 < image_w)%Z -> 0 < inject_Z image_w / inject_Z pdf_w.
Proof.
  intros Hw Hi. apply Qlt_shift_div_l.
  - change 0 with (inject_Z 0). by rewrite <- Zlt_Qlt.
  - rewrite Qmult_0_l. change 0 with (inject_Z 0). by rewrite <- Zlt_Qlt.
Qed.

(** The whole pass in closed form. *)
Lemma process_slide_background_closed (w : @World Pixel) (items : list Block)
    (img : @Raster Pixel) (pdf_size : Z * Z) (scale : Q) (page_idx : nat) :
  (0 < fst pdf_size)%Z ->
  (0 < image_w (resize img pdf_size))%Z ->
  let image_cv := resize img pdf_size in
  let img_scale := inject_Z (image_w image_cv) / inject_Z (fst pdf_size) in
  let processed_png := ProcessedPng (page_idx + 1) in
  process_slide_background sampler resize w items (Some img) pdf_size scale
    page_idx
  = Ok (mkWorld (mkSlide (foreground_shapes img_scale scale pdf_size page_idx
                            0 items (shapes (slide w)))
                         (Some processed_png))
            (files w
             ++ saved_crops image_cv img_scale pdf_size page_idx 0 items
             ++ [(processed_png,
                  erase_all sampler img_scale pdf_size image_cv items)])
            (log w
             ++ crop_events img_scale pdf_size page_idx 0 items
             ++ fill_events img_scale pdf_size items
             ++ [EvSave processed_png])).
Proof.
  intros Hw Hi image_cv img_scale processed_png.
  pose proof (scale_positive _ _ Hw Hi) as Hs. fold image_cv img_scale in Hs.
  unfold process_slide_background. fold image_cv.
  rewrite is_zero_false.
  2:{ intros E. unfold Qeq in E. simpl in E. lia. }
  fold img_scale. rewrite is_zero_false by (intros E; rewrite E in Hs; lra).
  rewrite extract_loop_crops, erase_loop_all. cbn [log files slide shapes].
  by rewrite <- !app_assoc.
Qed.

Lemma crop_slice_shape (image_cv : @Raster Pixel) (t b l r : Z) :
  (0 <= t < b)%Z -> (0 <= l < r)%Z ->
  image_h (crop_slice image_cv t b l r)
  = (Z.min b (image_h image_cv) - Z.min t (image_h image_cv))%Z
  /\ image_w (crop_slice image_cv t b l r)
     = (Z.min r (image_w image_cv) - Z.min l (image_w image_cv))%Z.
Proof.
  unfold crop_slice, slice_index. cbn [image_h image_w]. intros Ht Hl.
  destruct (Z.ltb_spec t 0); [lia|]. destruct (Z.ltb_spec b 0); [lia|].
  destruct (Z.ltb_spec l 0); [lia|]. destruct (Z.ltb_spec r 0); [lia|].
  lia.
Qed.

Lemma labelled_rect_some (labels : list string) (img_scale : Q)
    (pdf_size : Z * Z) (item : Block) (rect : Z * Z * Z * Z) :
  labelled_rect labels img_scale pdf_size item = Some rect
  <-> label_in (default "None"%string (block_label item)) labels = true
      /\ exists bbox,
          block_bbox item = Some bbox
          /\ pixel_rect bbox img_scale pdf_size = Some rect.
Proof.
  unfold labelled_rect. destruct (label_in _ labels).
  - destruct (block_bbox item) as [bbox|].
    + split; [by eauto|]. by intros (_ & bbox' & [= <-] & R).
    + split; [discriminate|]. by intros (_ & bbox' & E & _).
  - split; [discriminate|]. by intros [E _].
Qed.

Lemma erase_one_shape (img_scale : Q) (pdf_size : Z * Z)
    (image_cv : @Raster Pixel) (item : Block) :
  image_h (erase_one sampler img_scale pdf_size image_cv item) = image_h image_cv
  /\ image_w (erase_one sampler img_scale pdf_size image_cv item)
     = image_w image_cv.
Proof.
  unfold erase_one.
  by destruct (labelled_rect erasable_labels img_scale pdf_size item)
    as [[[[t b] l] r]|].
Qed.

(** One erasure leaves every pixel outside its rectangle as it was. *)
Lemma erase_one_outside (img_scale : Q) (pdf_size : Z * Z)
    (image_cv : @Raster Pixel) (item : Block) (y x : Z) :
  0 <= img_scale ->
  (forall t b l r,
     labelled_rect erasable_labels img_scale pdf_size item = Some (t, b, l, r) ->
     ~ ((t <= y < b)%Z /\ (l <= x < r)%Z)) ->
  pixel (erase_one sampler img_scale pdf_size image_cv item) y x
  = pixel image_cv y x.
Proof.
  intros Hs Out. unfold erase_one.
  destruct (labelled_rect erasable_labels img_scale pdf_size item)
    as [[[[t b] l] r]|] eqn:R; [|done].
  apply labelled_rect_some in R as R'. destruct R' as (_ & bbox & _ & R').
  destruct (pixel_rect_bounds _ _ _ _ _ _ _ Hs R') as [Bl Bt].
  cbn [pixel fill_slice].
  destruct (in_slice (image_h image_cv) t b y) eqn:Sy; [|done].
  destruct (in_slice (image_w image_cv) l r x) eqn:Sx; [|done].
  apply in_slice_valid in Sy; [|done]. apply in_slice_valid in Sx; [|done].
  exfalso. apply (Out t b l r eq_refl). lia.
Qed.

(** One erasure gives every pixel of its rectangle the colour sampled on
    the raster it is given. *)
Lemma erase_one_inside (img_scale : Q) (pdf_size : Z * Z)
    (image_cv : @Raster Pixel) (item : Block) (t b l r y x : Z) :
  0 <= img_scale ->
  labelled_rect erasable_labels img_scale pdf_size item = Some (t, b, l, r) ->
  (0 <= y < image_h image_cv)%Z -> (0 <= x < image_w image_cv)%Z ->
  (t <= y < b)%Z -> (l <= x < r)%Z ->
  pixel (erase_one sampler img_scale pdf_size image_cv item) y x
  = snd (sampler image_cv l t r b 20).
Proof.
  intros Hs R Hy Hx Iy Ix. unfold erase_one. rewrite R.
  apply labelled_rect_some in R as (_ & bbox & _ & R).
  destruct (pixel_rect_bounds _ _ _ _ _ _ _ Hs R) as [Bl Bt].
  cbn [pixel fill_slice].
  rewrite (proj2 (in_slice_valid _ _ _ _ Bt)) by done.
  by rewrite (proj2 (in_slice_valid _ _ _ _ Bl)).
Qed.

Lemma erase_all_frame (img_scale : Q) (pdf_size : Z * Z) (items : list Block)
    (image_cv : @Raster Pixel) :
  0 <= img_scale ->
  image_h (erase_all sampler img_scale pdf_size image_cv items) = image_h image_cv
  /\ image_w (erase_all sampler img_scale pdf_size image_cv items)
     = image_w image_cv
  /\ forall y x,
      (forall item t b l r,
         In item items ->
         labelled_rect erasable_labels img_scale pdf_size item
         = Some (t, b, l, r) ->
         ~ ((t <= y < b)%Z /\ (l <= x < r)%Z)) ->
      pixel (erase_all sampler img_scale pdf_size image_cv items) y x
      = pixel image_cv y x.
Proof.
  intros Hs. revert image_cv.
  induction items as [|item rest IH]; intros image_cv; [done|].
  unfold erase_all. cbn [fold_left].
  fold (erase_all sampler img_scale pdf_size
          (erase_one sampler img_scale pdf_size image_cv item) rest).
  destruct (IH (erase_one sampler img_scale pdf_size image_cv item))
    as (Ih & Iw & Ip).
  destruct (erase_one_shape img_scale pdf_size image_cv item) as [Eh Ew].
  split; [congruence|]. split; [congruence|].
  intros y x Out. rewrite Ip.
  - apply erase_one_outside; [done|]. intros t b l r. apply Out. by left.
  - intros item' t b l r Hin. apply Out. by right.
Qed.

(** A pixel of the rectangle of block [k] that no later erasure covers
    keeps the colour that block's erasure gave it: the colour sampled on
    the raster as the erasures before [k] left it. *)
Lemma erase_all_last (img_scale : Q) (pdf_size : Z * Z) (items : list Block)
    (image_cv : @Raster Pixel) (k : nat) (item : Block) (t b l r y x : Z) :
  0 <= img_scale ->
  items !! k = Some item ->
  labelled_rect erasable_labels img_scale pdf_size item = Some (t, b, l, r) ->
  (0 <= y < image_h image_cv)%Z -> (0 <= x < image_w image_cv)%Z ->
  (t <= y < b)%Z -> (l <= x < r)%Z ->
  (forall j item' t' b' l' r',
     (k < j)%nat -> items !! j = Some item' ->
     labelled_rect erasable_labels img_scale pdf_size item'
     = Some (t', b', l', r') ->
     ~ ((t' <= y < b')%Z /\ (l' <= x < r')%Z)) ->
  pixel (erase_all sampler img_scale pdf_size image_cv items) y x
  = snd (sampler (erase_all sampler img_scale pdf_size image_cv (take k items))
           l t r b 20).
Proof.
  intros Hs Hk R Hy Hx Iy Ix Later.
  rewrite <- (take_drop_middle items k item Hk) at 1.
  unfold erase_all at 1. rewrite fold_left_app. cbn [fold_left].
  fold (erase_all sampler img_scale pdf_size image_cv (take k items)).
  set (before := erase_all sampler img_scale pdf_size image_cv (take k items)).
  fold (erase_all sampler img_scale pdf_size
          (erase_one sampler img_scale pdf_size before item)
          (drop (S k) items)).
  destruct (erase_all_frame img_scale pdf_size (take k items) image_cv Hs)
    as (Bh & Bw & _). fold before in Bh, Bw.
  destruct (erase_all_frame img_scale pdf_size (drop (S k) items)
              (erase_one sampler img_scale pdf_size before item) Hs)
    as (_ & _ & Fp).
  rewrite Fp.
  - apply erase_one_inside; try done; lia.
  - intros item' t' b' l' r' Hin R'.
    apply list_elem_of_In, list_elem_of_lookup_1 in Hin as [i Hi].
    rewrite lookup_drop in Hi.
    apply (Later (S k + i)%nat item' t' b' l' r'); [lia|done|done].
Qed.

(** C8: the background pass of a page whose image exists saves the crop
    of every image, table and chart block first, each crop being the
    rectangle of the resized input raster, cut to the raster, with the
    pixels of that raster; it then erases the rectangles of the erasable
    blocks from that raster in the order of the layout list, each
    rectangle filled with the colour sampled on the raster as the earlier
    erasures left it, a later erasure overwriting an earlier one and every
    pixel outside the rectangles kept; and only then saves the erased
    raster as the page background.  The image shapes go under the shapes
    already on the slide. *)
Theorem process_slide_background_order (w : @World Pixel) (items : list Block)
    (img : @Raster Pixel) (pdf_size : Z * Z) (scale : Q) (page_idx : nat) :
  (0 < fst pdf_size)%Z ->
  (0 < image_w (resize img pdf_size))%Z ->
  let image_cv := resize img pdf_size in
  let img_scale := inject_Z (image_w image_cv) / inject_Z (fst pdf_size) in
  let processed_png := ProcessedPng (page_idx + 1) in
  let processed := erase_all sampler img_scale pdf_size image_cv items in
  exists w',
    process_slide_background sampler resize w items (Some img) pdf_size scale
      page_idx = Ok w'
    /\ files w'
       = files w
         ++ saved_crops image_cv img_scale pdf_size page_idx 0 items
         ++ [(processed_png, processed)]
    /\ log w'
       = log w
         ++ crop_events img_scale pdf_size page_idx 0 items
         ++ fill_events img_scale pdf_size items
         ++ [EvSave processed_png]
    /\ background (slide w') = Some processed_png
    /\ shapes (slide w')
       = foreground_shapes img_scale scale pdf_size page_idx 0 items
           (shapes (slide w))
    /\ (forall i item bbox t b l r,
          items !! i = Some item ->
          label_in (default "None"%string (block_label item)) foreground_labels
          = true ->
          block_bbox item = Some bbox ->
          pixel_rect bbox img_scale pdf_size = Some (t, b, l, r) ->
          exists crop,
            In (CropPng (page_idx + 1)
                  (default "None"%string (block_label item)) i, crop)
               (files w')
            /\ image_h crop
               = (Z.min b (image_h image_cv) - Z.min t (image_h image_cv))%Z
            /\ image_w crop
               = (Z.min r (image_w image_cv) - Z.min l (image_w image_cv))%Z
            /\ forall y x,
                (0 <= y < image_h crop)%Z -> (0 <= x < image_w crop)%Z ->
                pixel crop y x = pixel image_cv (t + y) (l + x))
    /\ image_h processed = image_h image_cv
    /\ image_w processed = image_w image_cv
    /\ (forall y x,
          (forall item bbox t b l r,
             In item items ->
             label_in (default "None"%string (block_label item)) erasable_labels
             = true ->
             block_bbox item = Some bbox ->
             pixel_rect bbox img_scale pdf_size = Some (t, b, l, r) ->
             ~ ((t <= y < b)%Z /\ (l <= x < r)%Z)) ->
          pixel processed y x = pixel image_cv y x)
    /\ (forall k item bbox t b l r y x,
          items !! k = Some item ->
          label_in (default "None"%string (block_label item)) erasable_labels
          = true ->
          block_bbox item = Some bbox ->
          pixel_rect bbox img_scale pdf_size = Some (t, b, l, r) ->
          (0 <= y < image_h image_cv)%Z -> (0 <= x < image_w image_cv)%Z ->
          (t <= y < b)%Z -> (l <= x < r)%Z ->
          (forall j item' bbox' t' b' l' r',
             (k < j)%nat -> items !! j = Some item' ->
             label_in (default "None"%string (block_label item'))
               erasable_labels = true ->
             block_bbox item' = Some bbox' ->
             pixel_rect bbox' img_scale pdf_size = Some (t', b', l', r') ->
             ~ ((t' <= y < b')%Z /\ (l' <= x < r')%Z)) ->
          pixel processed y x
          = snd (sampler
                   (erase_all sampler img_scale pdf_size image_cv
                      (take k items))
                   l t r b 20)).
Proof.
  intros Hw Hi image_cv img_scale processed_png processed.
  pose proof (scale_positive _ _ Hw Hi) as Hs. fold image_cv img_scale in Hs.
  assert (Hs' : 0 <= img_scale) by lra.
  pose proof (process_slide_background_closed w items img pdf_size scale
                page_idx Hw Hi) as E.
  destruct (erase_all_frame img_scale pdf_size items image_cv Hs')
    as (Fh & Fw & Fp).
  eexists. split; [exact E|]. cbn [files log slide background shapes].
  split; [done|]. split; [done|]. split; [done|]. split; [done|].
  split; [|split; [exact Fh|split; [exact Fw|split]]].
  - intros i item bbox t b l r Hit Hlab Hbb Hrect.
    destruct (pixel_rect_bounds bbox img_scale pdf_size t b l r) as [Bl Bt];
      [lra | done |].
    destruct (crop_slice_shape image_cv t b l r Bt Bl) as [Ch Cw].
    exists (crop_slice image_cv t b l r). split; [|split; [done|split; [done|]]].
    + apply in_or_app. right. apply in_or_app. left.
      apply (saved_crops_lookup image_cv img_scale pdf_size page_idx 0 i items item);
        [done|].
      unfold labelled_rect. by rewrite Hlab, Hbb.
    + intros y x Hy Hx. by apply crop_slice_pixels.
  - intros y x Out. apply Fp. intros item t b l r Hin R.
    apply labelled_rect_some in R as (Hlab & bbox & Hbb & R).
    by apply (Out item bbox t b l r).
  - intros k item bbox t b l r y x Hk Hlab Hbb R Hy Hx Iy Ix Later.
    apply (erase_all_last img_scale pdf_size items image_cv k item);
      try done.
    + apply labelled_rect_some. eauto.
    + intros j item' t' b' l' r' Hj Hj' R'.
      apply labelled_rect_some in R' as (Hlab' & bbox' & Hbb' & R').
      by apply (Later j item' bbox' t' b' l' r').
Qed.

End BackgroundPass.

Lemma process_slide_background_order_witness :
  let sampler := fun (_ : @Raster Z) (_ _ _ _ _ : Z) => (0, 7%Z) in
  let resize := fun (img : @Raster Z) (size : Z * Z) =>
                  mkRaster (snd size) (fst size) (pixel img) in
  let img := mkRaster 200 200 (fun y x => (y + x)%Z) in
  let items :=
    [mkBlock (Some "image"%string) None (Some (mkBBox 10 10 50 50));
     mkBlock (Some "text"%string) (Some "a"%string) (Some (mkBBox 20 20 80 30))] in
  (0 < 100)%Z
  /\ exists w',
      process_slide_background sampler resize (mkWorld empty_slide [] []) items
        (Some img) (100, 100)%Z 1 0 = Ok w'
      /\ log w' = [EvCrop 8 52 8 52; EvSave (CropPng 1 "image" 0);
                   EvFill 8 52 8 52; EvFill 18 32 18 82;
                   EvSave (ProcessedPng 1)]
      /\ (exists crop,
            In (CropPng 1 "image" 0, crop) (files w')
            /\ image_h crop = 44%Z /\ image_w crop = 44%Z
            /\ pixel crop 0 0 = 16%Z)
      /\ (exists processed,
            In (ProcessedPng 1, processed) (files w')
            /\ pixel processed 60 60 = 120%Z
            /\ pixel processed 20 60 = 7%Z).
Proof.
  intros sampler resize img items.
  assert (H : (0 < 100)%Z) by lia.
  split; [exact H|].
  destruct (process_slide_background_order sampler resize
              (mkWorld empty_slide [] []) items img (100, 100)%Z 1 0 H H)
    as (w' & E & F & L & _ & _ & C & _ & _ & Out & Last).
  exists w'. split; [exact E|]. split; [exact L|]. split.
  - destruct (C 0%nat (mkBlock (Some "image"%string) None
                         (Some (mkBBox 10 10 50 50)))
                (mkBBox 10 10 50 50) 8%Z 52%Z 8%Z 52%Z
                eq_refl eq_refl eq_refl eq_refl)
      as (crop & Hin & Ch & Cw & Cp).
    exists crop. split; [exact Hin|]. split; [exact Ch|]. split; [exact Cw|].
    apply (Cp 0%Z 0%Z); [rewrite Ch|rewrite Cw]; vm_compute; split; congruence.
  - eexists. split; [rewrite F; apply in_or_app; right; apply in_or_app; right;
                     left; reflexivity|].
    split.
    + reflexivity.
    + reflexivity.
Defined.

(** ** The end-to-end scenario *)

Lemma title_not_skipped (content : string) :
  strip content <> ""%string -> should_skip_text_block "title" content = false.
Proof.
  intros H. apply should_skip_text_block_spec. split; [|split].
  - right. by left.
  - exact H.
  - discriminate.
Qed.

Lemma watermark_footer_skipped (content : string) :
  is_substring (lower watermark_marker) (lower content) ->
  should_skip_text_block "footer" content = true.
Proof.
  intros H. destruct (should_skip_text_block "footer" content) eqn:E; [done|].
  apply should_skip_text_block_spec in E as (_ & _ & N). by destruct N.
Qed.

Lemma no_line_inside (blk : BBox) (ocr_boxes : list BBox) :
  Forall (fun o => ~ centroid_inside blk o) ocr_boxes ->
  get_line_count blk (map box_list ocr_boxes) = Ok 0%Z.
Proof.
  intros H. rewrite get_line_count_refines.
  replace (List.filter (centroid_inside_dec blk) ocr_boxes) with (@nil BBox);
    [done|].
  induction H as [|o l Ho Hl IH]; [done|]. simpl.
  destruct (centroid_inside_dec blk o) eqn:E; [|exact IH].
  apply centroid_inside_dec_spec in E. contradiction.
Qed.

(** C9, as stated, fails on the alignment: only a [paragraph_title] is
    left-aligned, a [title] is centred. *)
Lemma title_shape_is_centred :
  let items :=
    [title_block "Quarterly plan";
     footer_block "Made with NotebookLM" (Some (mkBBox 100 950 900 990))] in
  process_text_blocks empty_slide items [] 1 1000 1000 "Calibri"
  = Ok (mkSlide [TextShape "Block_title" "Quarterly plan"
                   (FromLTRB 100 47 930 157) AlignCenter "Calibri" 75] None)
  /\ ~ exists slide' name text rect font,
        process_text_blocks empty_slide items [] 1 1000 1000 "Calibri"
        = Ok slide'
        /\ In (TextShape name text rect AlignLeft font 75) (shapes slide').
Proof.
  intros items.
  assert (E : process_text_blocks empty_slide items [] 1 1000 1000 "Calibri"
              = Ok (mkSlide [TextShape "Block_title" "Quarterly plan"
                               (FromLTRB 100 47 930 157) AlignCenter "Calibri" 75]
                            None)) by reflexivity.
  split; [exact E|].
  intros (slide' & name & text & rect & font & H & I).
  rewrite E in H. injection H as <-. simpl in I.
  destruct I as [I|[]]. discriminate I.
Qed.

Section Scenario.

Context {Pixel : Type}.
Variable sampler : @Raster Pixel -> Z -> Z -> Z -> Z -> Z -> Q * Pixel.
Variable resize : @Raster Pixel -> Z * Z -> @Raster Pixel.

Lemma labelled_rect_bounds (labels : list string) (img_scale : Q)
    (pdf_size : Z * Z) (item : Block) (t b l r : Z) :
  0 <= img_scale ->
  labelled_rect labels img_scale pdf_size item = Some (t, b, l, r) ->
  (0 <= l < r)%Z /\ (0 <= t < b)%Z.
Proof.
  intros Hs. unfold labelled_rect.
  destruct (label_in _ labels); [|discriminate].
  destruct (block_bbox item) as [bbox|]; [|discriminate].
  by apply pixel_rect_bounds.
Qed.

(** One erasure changes a pixel only inside its rectangle, and then to
    its fill colour. *)
Lemma erase_one_pixel (img_scale : Q) (pdf_size : Z * Z)
    (image_cv : @Raster Pixel) (item : Block) (y x : Z) :
  0 <= img_scale ->
  pixel (erase_one sampler img_scale pdf_size image_cv item) y x
  = pixel image_cv y x
  \/ exists t b l r,
      labelled_rect erasable_labels img_scale pdf_size item = Some (t, b, l, r)
      /\ (t <= y < b)%Z /\ (l <= x < r)%Z
      /\ pixel (erase_one sampler img_scale pdf_size image_cv item) y x
         = snd (sampler image_cv l t r b 20).
Proof.
  intros Hs. unfold erase_one.
  destruct (labelled_rect erasable_labels img_scale pdf_size item)
    as [[[[t b] l] r]|] eqn:R; [|by left].
  destruct (labelled_rect_bounds _ _ _ _ _ _ _ _ Hs R) as [Bl Bt].
  cbn [pixel fill_slice].
  destruct (in_slice (image_h image_cv) t b y) eqn:Sy; [|by left].
  destruct (in_slice (image_w image_cv) l r x) eqn:Sx; [|by left].
  apply in_slice_valid in Sy; [|done]. apply in_slice_valid in Sx; [|done].
  right. exists t, b, l, r. cbn [andb]. intuition.
Qed.

(** C9 (amended): the page pass ([process_text_blocks] and then
    [process_slide_background], at scale 1) on a 1000 x 1000 page that holds
    a title block with bbox (100, 50, 900, 150), no OCR line inside it, and
    a footer block whose content contains the watermark marker: the slide
    gets exactly one shape, the title's text shape, centred, with font size
    75; the footer gets none; the background saved is the raster in which
    the title's box grown by the margin of 2, columns 98 to 901 and rows 48
    to 151, has been filled with one sampled colour, after which only the
    erasure of the footer's own box may have changed it. *)
Theorem page_scenario (files0 : list (FileName * @Raster Pixel))
    (title_text footer_text : string) (footer_bbox : option BBox)
    (ocr_boxes : list BBox) (img : @Raster Pixel) :
  strip title_text <> ""%string ->
  is_substring (lower watermark_marker) (lower footer_text) ->
  Forall (fun o => ~ centroid_inside (mkBBox 100 50 900 150) o) ocr_boxes ->
  image_w (resize img (1000, 1000)%Z) = 1000%Z ->
  let footer := footer_block footer_text footer_bbox in
  let image_cv := resize img (1000, 1000)%Z in
  let img_scale := inject_Z 1000 / inject_Z 1000 in
  let fill_color := snd (sampler image_cv 98 48 902 152 20) in
  let erased_title := fill_slice image_cv 48 152 98 902 fill_color in
  let final := erase_one sampler img_scale (1000, 1000)%Z erased_title footer in
  exists w',
    process_page sampler resize files0 [title_block title_text; footer]
      (map box_list ocr_boxes) [Some img] (1000, 1000)%Z 1000 1000 0 = Ok w'
    /\ shapes (slide w')
       = [TextShape "Block_title" title_text (FromLTRB 100 47 930 157)
            AlignCenter "Calibri" 75]
    /\ background (slide w') = Some (ProcessedPng 1)
    /\ files w' = files0 ++ [(ProcessedPng 1, final)]
    /\ (forall y x,
          (0 <= y < image_h image_cv)%Z -> (0 <= x < image_w image_cv)%Z ->
          (48 <= y < 152)%Z -> (98 <= x < 902)%Z ->
          pixel erased_title y x = fill_color
          /\ (pixel final y x = fill_color
              \/ exists t b l r,
                  labelled_rect erasable_labels img_scale (1000, 1000)%Z footer
                  = Some (t, b, l, r)
                  /\ (t <= y < b)%Z /\ (l <= x < r)%Z
                  /\ pixel final y x = snd (sampler erased_title l t r b 20))).
Proof.
  intros Ht Hf Ho Hw footer image_cv img_scale fill_color erased_title final.
  unfold process_page, title_block, footer, footer_block.
  cbn [process_text_blocks block_bbox block_label block_content default
         from_option id].
  rewrite (title_not_skipped _ Ht), (no_line_inside _ _ Ho).
  cbn [mbind outcome_bind].
  rewrite (watermark_footer_skipped _ Hf).
  assert (Hpos : (0 < fst (1000, 1000)%Z)%Z) by (simpl; lia).
  assert (Hiw : (0 < image_w (resize img (1000, 1000)%Z))%Z) by (rewrite Hw; lia).
  destruct footer_bbox as [fb|];
    cbn [lookup list_lookup mbind outcome_bind];
    rewrite (process_slide_background_closed sampler resize _ _ img
               (1000, 1000)%Z 1 0 Hpos Hiw);
    rewrite Hw; fold image_cv; cbn [fst]; fold img_scale;
    (eexists; split; [reflexivity|]);
    cbn [slide shapes background files];
    (split; [reflexivity|]); (split; [reflexivity|]); (split; [reflexivity|]).
  all: intros y x Hy Hx Hty Hlx.
  all: assert (P : pixel erased_title y x = fill_color)
    by (unfold erased_title; cbn [pixel fill_slice];
        rewrite (proj2 (in_slice_valid (image_h image_cv) 48 152 y ltac:(lia)))
          by lia;
        by rewrite (proj2 (in_slice_valid (image_w image_cv) 98 902 x ltac:(lia)))
          by lia).
  all: split; [exact P|].
  all: assert (Hs : 0 <= img_scale) by (vm_compute; discriminate).
  all: destruct (erase_one_pixel img_scale (1000, 1000)%Z erased_title footer
                   y x Hs) as [U|U];
    [left; unfold final; by rewrite U | right; exact U].
Qed.

End Scenario.

Lemma page_scenario_witness :
  let sampler := fun (_ : @Raster Z) (_ _ _ _ _ : Z) => (0, 7%Z) in
  let resize := fun (img : @Raster Z) (size : Z * Z) =>
                  mkRaster (snd size) (fst size) (pixel img) in
  let img := mkRaster 2000 2000 (fun y x => (y + x)%Z) in
  strip "Quarterly plan" <> ""%string
  /\ exists w',
      process_page sampler resize []
        [title_block "Quarterly plan";
         footer_block "Made with NotebookLM" (Some (mkBBox 100 950 900 990))]
        (map box_list [mkBBox 100 955 400 985]) [Some img] (1000, 1000)%Z
        1000 1000 0 = Ok w'
      /\ shapes (slide w')
         = [TextShape "Block_title" "Quarterly plan" (FromLTRB 100 47 930 157)
              AlignCenter "Calibri" 75].
Proof.
  intros sampler resize img.
  assert (Ht : strip "Quarterly plan" <> ""%string) by discriminate.
  split; [exact Ht|].
  destruct (page_scenario sampler resize [] "Quarterly plan"
              "Made with NotebookLM" (Some (mkBBox 100 950 900 990))
              [mkBBox 100 955 400 985] img Ht)
    as (w' & E & S & _).
  - by exists "made with "%string, ""%string.
  - repeat constructor. intros (_ & _ & H). vm_compute in H. by apply H.
  - reflexivity.
  - exists w'. split; [exact E | exact S].
Defined.

(** The document passes in front of the page pass move the scenario's
    title: a 1000 x 1000 page is widened to 1778 x 1000 and then scaled to
    the canvas, here 720 x 405, where the title box is (198, 20, 522, 61)
    and its font size 30. *)
Lemma document_passes_title :
  let data :=
    mkData [mkPageLayout 1000 1000 [title_block "Quarterly plan"]]
           [mkPageOcr []] None in
  get_pdf_size_from_data (make_data_wide_screen data) = Ok (1778, 1000)%Z
  /\ exists out,
      resize_data (make_data_wide_screen data) (1778, 1000) (720, 405) = Ok out
      /\ map parsing_res_list (layoutParsingResults out)
         = [[mkBlock (Some "title"%string) (Some "Quarterly plan"%string)
               (Some (mkBBox 198 20 522 61))]]
      /\ calculate_font_size ((61 - 20) * 1) default_min_font_size false 0
         = 30%Z.
Proof.
  intros data. split; [reflexivity|].
  eexists. split; [reflexivity|]. split; reflexivity.
Qed.

(** * Further properties of the code *)

(** ** Numerics *)

Lemma int_mono (x y : Q) : x <= y -> (Py.int x <= Py.int y)%Z.
Proof.
  intros H.
  destruct (Qlt_le_dec x 0) as [Nx|Px]; destruct (Qlt_le_dec y 0) as [Ny|Py_].
  - rewrite !int_nonpos by lra. by apply Qceiling_resp_le.
  - rewrite (int_nonpos x) by lra.
    pose proof (int_ge_0 y Py_). 
    assert (Qceiling x <= Qceiling 0)%Z by (apply Qceiling_resp_le; lra).
    change (Qceiling 0) with 0%Z in *. lia.
  - lra.
  - rewrite !int_nonneg by lra. by apply Qfloor_resp_le.
Qed.

(** [round] is within one half of its argument. *)
Lemma round_near (x : Q) :
  x - (1 # 2) <= inject_Z (Py.round x) /\ inject_Z (Py.round x) <= x + (1 # 2).
Proof.
  unfold Py.round.
  pose proof (Qfloor_le x) as Lo. pose proof (Qlt_floor x) as Hi.
  rewrite inject_Z_plus in Hi. change (inject_Z 1) with 1 in Hi.
  destruct (Qcompare (x - inject_Z (Qfloor x)) (1 # 2)) eqn:C.
  - apply Qeq_alt in C.
    destruct (Z.even (Qfloor x)); rewrite ?inject_Z_plus;
      change (inject_Z 1) with 1; split; lra.
  - apply Qlt_alt in C. split; lra.
  - apply Qgt_alt in C. rewrite inject_Z_plus. change (inject_Z 1) with 1.
    split; lra.
Qed.

(** ** Font size *)

Lemma inv_pos_Z (n : Z) : (0 < n)%Z -> 0 < / inject_Z n.
Proof.
  intros H. apply Qinv_lt_0_compat. change 0 with (inject_Z 0).
  by rewrite <- Zlt_Qlt.
Qed.

(** X1: the font size is never below the minimum, never decreases when the
    box gets taller and, for a box of non-negative height sized as
    [process_text_blocks] sizes it, never increases with the line count. *)
Theorem calculate_font_size_monotone (min_font_size : Z) :
  (forall height is_multiline line_count,
      (min_font_size
       <= calculate_font_size height min_font_size is_multiline line_count)%Z)
  /\ (forall h1 h2 is_multiline line_count,
        h1 <= h2 ->
        (calculate_font_size h1 min_font_size is_multiline line_count
         <= calculate_font_size h2 min_font_size is_multiline line_count)%Z)
  /\ (forall height n1 n2,
        0 <= height -> (n1 <= n2)%Z ->
        (calculate_font_size height min_font_size (1 <? n2)%Z n2
         <= calculate_font_size height min_font_size (1 <? n1)%Z n1)%Z).
Proof.
  split; [|split].
  - intros. unfold calculate_font_size. lia.
  - intros h1 h2 m n H. unfold calculate_font_size.
    apply Z.max_le_compat_l, int_mono.
    destruct (m && (1 <? n)%Z) eqn:B; [|lra].
    apply andb_true_iff in B as [_ B]. apply Z.ltb_lt in B.
    pose proof (inv_pos_Z n ltac:(lia)) as I. unfold Qdiv.
    set (i := / inject_Z n) in *. nra.
  - intros h n1 n2 Hh Hn. unfold calculate_font_size.
    apply Z.max_le_compat_l, int_mono.
    rewrite !andb_diag.
    destruct (Z.ltb_spec 1 n2) as [L2|L2]; destruct (Z.ltb_spec 1 n1) as [L1|L1];
      try lra; try lia.
    + assert (Hi : / inject_Z n2 <= / inject_Z n1).
      { apply Qle_shift_inv_l.
        - change 0 with (inject_Z 0). rewrite <- Zlt_Qlt. lia.
        - pose proof (inv_pos_Z n2 ltac:(lia)) as I2.
          assert (E : / inject_Z n2 * inject_Z n2 == 1).
          { rewrite Qmult_comm. apply Qmult_inv_r. intros E.
            unfold Qeq in E. simpl in E. lia. }
          assert (L : inject_Z n1 <= inject_Z n2) by (by rewrite <- Zle_Qle).
          nra. }
      unfold Qdiv. nra.
    + pose proof (inv_pos_Z n2 ltac:(lia)) as I2.
      assert (Hi : / inject_Z n2 <= 1).
      { apply Qle_shift_inv_r.
        - change 0 with (inject_Z 0). rewrite <- Zlt_Qlt. lia.
        - rewrite Qmult_1_l. change 1 with (inject_Z 1). rewrite <- Zle_Qle. lia. }
      unfold Qdiv. nra.
Qed.

Lemma calculate_font_size_monotone_witness :
  0 <= 40
  /\ (calculate_font_size 40 8 (1 <? 3)%Z 3
      <= calculate_font_size 40 8 (1 <? 2)%Z 2)%Z.
Proof.
  assert (H : 0 <= 40) by discriminate.
  split; [exact H|].
  apply (proj2 (proj2 (calculate_font_size_monotone 8)) 40 2%Z 3%Z H). lia.
Defined.

(** ** Geometry *)

Lemma expand_bbox_within (bbox : BBox) (e w h : Q) :
  let b' := expand_bbox bbox e (w, h) in
  (0 <= bx1 b' /\ 0 <= by1 b' /\ bx2 b' <= w /\ by2 b' <= h)
  /\ (0 <= e ->
      0 <= bx1 bbox -> bx2 bbox <= w -> 0 <= by1 bbox -> by2 bbox <= h ->
      (bx1 bbox - e <= bx1 b' /\ bx1 b' <= bx1 bbox)
      /\ (by1 bbox - e <= by1 b' /\ by1 b' <= by1 bbox)
      /\ (bx2 bbox <= bx2 b' /\ bx2 b' <= bx2 bbox + e)
      /\ (by2 bbox <= by2 b' /\ by2 b' <= by2 bbox + e)).
Proof.
  destruct bbox as [x1 y1 x2 y2]. cbn [expand_bbox bx1 by1 bx2 by2].
  unfold Py.max, Py.min.
  pose proof (Q.le_max_l 0 (x1 - e)). pose proof (Q.le_max_r 0 (x1 - e)).
  pose proof (Q.le_max_l 0 (y1 - e)). pose proof (Q.le_max_r 0 (y1 - e)).
  pose proof (Q.le_min_l w (x2 + e)). pose proof (Q.le_min_r w (x2 + e)).
  pose proof (Q.le_min_l h (y2 + e)). pose proof (Q.le_min_r h (y2 + e)).
  split; [done|]. intros He Hx1 Hx2 Hy1 Hy2.
  destruct (Q.max_spec 0 (x1 - e)) as [[? Ex1]|[? Ex1]];
    destruct (Q.max_spec 0 (y1 - e)) as [[? Ey1]|[? Ey1]];
    destruct (Q.min_spec w (x2 + e)) as [[? Ex2]|[? Ex2]];
    destruct (Q.min_spec h (y2 + e)) as [[? Ey2]|[? Ey2]];
    rewrite Ex1, Ey1, Ex2, Ey2; repeat split; lra.
Qed.

(** X2: [expand_bbox] clamps each corner on one side only: the top-left
    corner it returns is never below 0 and the bottom-right corner never
    beyond the page size (the top-left corner is not clamped to the page
    size, nor the bottom-right corner to 0).  For a box that lies on the
    page and a non-negative margin, each side moves outwards by at most
    the margin and never inwards; when moreover [x1 <= x2] and
    [y1 <= y2], the result is a box inside the page:
    [0 <= x1' <= x2' <= w] and [0 <= y1' <= y2' <= h]. *)
Theorem expand_bbox_on_page (bbox : BBox) (e w h : Q) :
  let b' := expand_bbox bbox e (w, h) in
  (0 <= bx1 b' /\ 0 <= by1 b' /\ bx2 b' <= w /\ by2 b' <= h)
  /\ (0 <= e ->
      0 <= bx1 bbox -> bx2 bbox <= w -> 0 <= by1 bbox -> by2 bbox <= h ->
      (bx1 bbox - e <= bx1 b' /\ bx1 b' <= bx1 bbox)
      /\ (by1 bbox - e <= by1 b' /\ by1 b' <= by1 bbox)
      /\ (bx2 bbox <= bx2 b' /\ bx2 b' <= bx2 bbox + e)
      /\ (by2 bbox <= by2 b' /\ by2 b' <= by2 bbox + e))
  /\ (0 <= e ->
      0 <= bx1 bbox -> bx1 bbox <= bx2 bbox -> bx2 bbox <= w ->
      0 <= by1 bbox -> by1 bbox <= by2 bbox -> by2 bbox <= h ->
      (0 <= bx1 b' /\ bx1 b' <= bx2 b' /\ bx2 b' <= w)
      /\ (0 <= by1 b' /\ by1 b' <= by2 b' /\ by2 b' <= h)).
Proof.
  intros b'. destruct (expand_bbox_within bbox e w h) as [A B].
  fold b' in A, B. split; [exact A|]. split; [exact B|].
  intros He Hx1 Hx Hx2 Hy1 Hy Hy2.
  destruct A as (A1 & A2 & A3 & A4).
  destruct (B He Hx1 Hx2 Hy1 Hy2)
    as ((_ & B1) & (_ & B2) & (B3 & _) & (B4 & _)).
  repeat split; lra.
Qed.

Lemma expand_bbox_on_page_witness :
  0 <= 2
  /\ bx1 (expand_bbox (mkBBox 1 10 999 20) 2 (1000, 1000)) <= 1
  /\ 999 <= bx2 (expand_bbox (mkBBox 1 10 999 20) 2 (1000, 1000))
  /\ bx1 (expand_bbox (mkBBox 1 10 999 20) 2 (1000, 1000))
     <= bx2 (expand_bbox (mkBBox 1 10 999 20) 2 (1000, 1000)).
Proof.
  assert (He : 0 <= 2) by discriminate.
  split; [exact He|].
  destruct (expand_bbox_on_page (mkBBox 1 10 999 20) 2 1000 1000)
    as (_ & Grow & Inside).
  destruct (Grow He) as ((_ & A) & _ & (B & _) & _);
    try (simpl; discriminate).
  destruct (Inside He) as ((_ & C & _) & _); try (simpl; discriminate).
  split; [exact A|]. split; [exact B | exact C].
Defined.

Lemma Zlt_of_Q (a b : Z) (x y : Q) :
  inject_Z a <= x -> x < y -> y <= inject_Z b -> (a < b)%Z.
Proof. intros A B C. rewrite Zlt_Qlt. lra. Qed.

(** X3: a box of positive width and height that lies on the page always
    has a pixel rectangle when the scale is positive: the rectangle is not
    empty, starts at non-negative pixels, reaches no further than the
    scaled page size rounded up, and covers the exact scaling of the
    box. *)
Theorem pixel_rect_on_page (bbox : BBox) (img_scale : Q) (pdf_size : Z * Z) :
  0 < img_scale ->
  0 <= bx1 bbox -> bx1 bbox < bx2 bbox -> bx2 bbox <= inject_Z (fst pdf_size) ->
  0 <= by1 bbox -> by1 bbox < by2 bbox -> by2 bbox <= inject_Z (snd pdf_size) ->
  exists t b l r,
    pixel_rect bbox img_scale pdf_size = Some (t, b, l, r)
    /\ (0 <= l < r)%Z /\ (r <= Py.ceil (inject_Z (fst pdf_size) * img_scale))%Z
    /\ (0 <= t < b)%Z /\ (b <= Py.ceil (inject_Z (snd pdf_size) * img_scale))%Z
    /\ inject_Z l <= bx1 bbox * img_scale /\ bx2 bbox * img_scale <= inject_Z r
    /\ inject_Z t <= by1 bbox * img_scale /\ by2 bbox * img_scale <= inject_Z b.
Proof.
  intros Hs Hx0 Hx Hxw Hy0 Hy Hyh.
  destruct (expand_bbox_within bbox 2 (inject_Z (fst pdf_size))
              (inject_Z (snd pdf_size))) as [(A1 & A2 & A3 & A4) B].
  destruct B as ((_ & B1) & (_ & B2) & (B3 & _) & (B4 & _));
    try done; try lra.
  unfold pixel_rect, as_size.
  destruct (expand_bbox bbox 2 _) as [x1 y1 x2 y2].
  cbn [bx1 by1 bx2 by2 scale_bbox_ints] in *.
  destruct (int_trunc_nonneg (x1 * img_scale)) as [L1 _]; [nra|].
  destruct (int_trunc_nonneg (y1 * img_scale)) as [L2 _]; [nra|].
  pose proof (ceil_above (x2 * img_scale)) as R1.
  pose proof (ceil_above (y2 * img_scale)) as R2.
  assert (Wl : (Py.int (x1 * img_scale) < Py.ceil (x2 * img_scale))%Z).
  { apply (Zlt_of_Q _ _ (bx1 bbox * img_scale) (bx2 bbox * img_scale)); nra. }
  assert (Wt : (Py.int (y1 * img_scale) < Py.ceil (y2 * img_scale))%Z).
  { apply (Zlt_of_Q _ _ (by1 bbox * img_scale) (by2 bbox * img_scale)); nra. }
  destruct (Z.leb_spec (Py.ceil (x2 * img_scale)) (Py.int (x1 * img_scale)));
    [lia|].
  destruct (Z.leb_spec (Py.ceil (y2 * img_scale)) (Py.int (y1 * img_scale)));
    [lia|].
  cbn [orb]. eexists _, _, _, _. split; [reflexivity|].
  assert (0 <= Py.int (x1 * img_scale))%Z by (apply int_ge_0; nra).
  assert (0 <= Py.int (y1 * img_scale))%Z by (apply int_ge_0; nra).
  split; [lia|]. split; [apply Qceiling_resp_le; nra|].
  split; [lia|]. split; [apply Qceiling_resp_le; nra|].
  repeat split; nra.
Qed.

Lemma pixel_rect_on_page_witness :
  0 < 2
  /\ exists t b l r,
      pixel_rect (mkBBox 10 10 50 50) 2 (100, 100)%Z = Some (t, b, l, r)
      /\ (0 <= l < r)%Z.
Proof.
  assert (Hs : 0 < 2) by reflexivity.
  split; [exact Hs|].
  destruct (pixel_rect_on_page (mkBBox 10 10 50 50) 2 (100, 100)%Z Hs)
    as (t & b & l & r & E & B & _); try (simpl; discriminate);
    try reflexivity.
  exists t, b, l, r. split; [exact E | exact B].
Defined.

(** ** Line count *)

Lemma spec_walk_bounds (c h : Q) (lines : list BBox) :
  (0 <= spec_walk c h lines <= Z.of_nat (length lines))%Z.
Proof.
  revert c h. induction lines as [|b lines IH]; intros c h; [simpl; lia|].
  cbn [spec_walk length]. destruct (Qlt_le_dec _ _).
  - specialize (IH (y_center b) (box_height b)). lia.
  - specialize (IH c h). lia.
Qed.

Lemma filter_nil_none (blk : BBox) (boxes : list BBox) :
  List.filter (centroid_inside_dec blk) boxes = []
  <-> Forall (fun o => ~ centroid_inside blk o) boxes.
Proof.
  induction boxes as [|o boxes IH]; [by split|].
  cbn [List.filter]. destruct (centroid_inside_dec blk o) eqn:E.
  - apply centroid_inside_dec_spec in E. split; [done|].
    intros H. by apply Forall_inv in H.
  - rewrite IH. split.
    + intros H. constructor; [|done]. intros C.
      apply centroid_inside_dec_spec in C. congruence.
    + intros H. by apply Forall_inv_tail in H.
Qed.

Lemma filter_length_le (f : BBox -> bool) (l : list BBox) :
  (length (List.filter f l) <= length l)%nat.
Proof.
  induction l as [|x l IH]; [done|]. simpl. destruct (f x); simpl; lia.
Qed.

(** X4: over four-number OCR boxes [get_line_count] always returns; the
    count is 0 exactly when no box has its centroid in the block, and it
    is otherwise at least 1 and at most the number of boxes whose centroid
    is in the block. *)
Theorem get_line_count_bounds (blk : BBox) (boxes : list BBox) :
  exists n,
    get_line_count blk (map box_list boxes) = Ok n
    /\ (n = 0%Z <-> Forall (fun o => ~ centroid_inside blk o) boxes)
    /\ (0 <= n)%Z
    /\ (n <= Z.of_nat (length (List.filter (centroid_inside_dec blk) boxes)))%Z
    /\ (n <= Z.of_nat (length boxes))%Z.
Proof.
  eexists. split; [apply get_line_count_refines|].
  pose proof (filter_length_le (centroid_inside_dec blk) boxes) as Lf.
  rewrite <- filter_nil_none.
  pose proof (sort_by_key_perm y_center
                (List.filter (centroid_inside_dec blk) boxes)) as P.
  pose proof (Permutation_length P) as Lp.
  destruct (sort_by_key y_center _) as [|first rest] eqn:S.
  - apply Permutation_nil_r in P. rewrite P. simpl. split; [done|]. lia.
  - cbn [spec_line_count].
    pose proof (spec_walk_bounds (y_center first) (box_height first) rest) as B.
    cbn [length] in Lp. split; [|lia]. split; [lia|].
    intros E. rewrite E in P. by apply Permutation_nil_l in P.
Qed.

Lemma filter_perm (f : BBox -> bool) (l l' : list BBox) :
  Permutation l l' -> Permutation (List.filter f l) (List.filter f l').
Proof.
  induction 1 as [|x l l' P IH|x y l|l1 l2 l3 P1 IH1 P2 IH2]; simpl.
  - done.
  - destruct (f x); [by constructor | done].
  - destruct (f x), (f y); try done. apply Permutation_swap.
  - by rewrite IH1.
Qed.

(** Two ascending arrangements of the same boxes are the same list when
    boxes with equal keys are equal. *)
Lemma sorted_perm_equal (key : BBox -> Q) (l l' : list BBox) :
  (forall a b, In a l -> In b l -> key a == key b -> a = b) ->
  StronglySorted (fun a b => key a <= key b) l ->
  StronglySorted (fun a b => key a <= key b) l' ->
  Permutation l l' -> l = l'.
Proof.
  intros D Hl. revert l' D.
  induction Hl as [|x l Hs IH Hx]; intros l' D Hl' Hp.
  - by apply Permutation_nil_l in Hp.
  - destruct l' as [|x' l'].
    { symmetry in Hp. by apply Permutation_nil_l in Hp. }
    apply StronglySorted_inv in Hl' as [Hs' Hx'].
    assert (I : In x' (x :: l)).
    { eapply Permutation_in; [symmetry; exact Hp | by left]. }
    assert (I' : In x (x' :: l')).
    { eapply Permutation_in; [exact Hp | by left]. }
    assert (E : x = x').
    { apply D; [by left | done |].
      rewrite List.Forall_forall in Hx, Hx'.
      destruct I as [->|I]; [reflexivity|].
      destruct I' as [->|I']; [reflexivity|].
      specialize (Hx _ I). specialize (Hx' _ I'). simpl in *. lra. }
    subst x'. f_equal. apply IH; [|done|by apply Permutation_cons_inv in Hp].
    intros a b Ha Hb. apply D; by right.
Qed.

(** X5: the order in which the OCR boxes are listed does not change the
    line count, as long as two different boxes never have the same
    vertical centroid. *)
Theorem get_line_count_order (blk : BBox) (boxes boxes' : list BBox) :
  Permutation boxes boxes' ->
  (forall a b, In a boxes -> In b boxes -> y_center a == y_center b -> a = b) ->
  get_line_count blk (map box_list boxes)
  = get_line_count blk (map box_list boxes').
Proof.
  intros P D. rewrite !get_line_count_refines. do 2 f_equal.
  pose proof (filter_perm (centroid_inside_dec blk) _ _ P) as Pf.
  apply (sorted_perm_equal y_center).
  - intros a b Ha Hb. apply D.
    + rewrite <- sort_by_key_perm in Ha. apply List.filter_In in Ha. tauto.
    + rewrite <- sort_by_key_perm in Hb. apply List.filter_In in Hb. tauto.
  - apply sort_by_key_sorted.
  - apply sort_by_key_sorted.
  - by rewrite <- !sort_by_key_perm.
Qed.

Lemma get_line_count_order_witness :
  get_line_count (mkBBox 0 0 100 100)
    (map box_list [mkBBox 0 0 10 10; mkBBox 0 20 10 30])
  = get_line_count (mkBBox 0 0 100 100)
      (map box_list [mkBBox 0 20 10 30; mkBBox 0 0 10 10]).
Proof.
  apply get_line_count_order.
  - apply Permutation_swap.
  - intros a b Ha Hb. simpl in Ha, Hb.
    destruct Ha as [<-|[<-|[]]]; destruct Hb as [<-|[<-|[]]];
      try reflexivity; intros E; vm_compute in E; discriminate E.
Defined.

(** ** Text blocks: failures and shapes *)

Lemma four_number_boxes (ocr_boxes : list (list Q)) :
  Forall (fun b => length b = 4%nat) ocr_boxes ->
  exists boxes, ocr_boxes = map box_list boxes.
Proof.
  induction 1 as [|b l Hb Hl (boxes & ->)]; [by exists []|].
  destruct b as [|x1 [|y1 [|x2 [|y2 [|? ?]]]]]; try discriminate Hb.
  by exists (mkBBox x1 y1 x2 y2 :: boxes).
Qed.

Lemma get_line_count_malformed (blk : BBox) (ocr_boxes : list (list Q)) :
  Exists (fun b => length b <> 4%nat) ocr_boxes ->
  get_line_count blk ocr_boxes = Raise ValueError.
Proof.
  intros H. unfold get_line_count.
  by rewrite (select_contained_malformed blk ocr_boxes [] H).
Qed.

Lemma process_text_blocks_none_rendered (slide : Slide) (items : list Block)
    (ocr_boxes : list (list Q)) (scale ppt_width ppt_height : Q)
    (font_name : string) :
  Forall (fun item => reaches_create_text_shape item = false) items ->
  process_text_blocks slide items ocr_boxes scale ppt_width ppt_height font_name
  = Ok slide.
Proof.
  induction 1 as [|item rest Hi Hr IH]; [done|].
  cbn [process_text_blocks]. unfold reaches_create_text_shape in Hi.
  destruct (block_bbox item); [|exact IH].
  apply negb_false_iff in Hi. unfold item_label, item_content in Hi.
  by rewrite Hi.
Qed.

Lemma process_text_blocks_returns (slide : Slide) (items : list Block)
    (boxes : list BBox) (scale ppt_width ppt_height : Q) (font_name : string) :
  exists slide',
    process_text_blocks slide items (map box_list boxes) scale ppt_width
      ppt_height font_name = Ok slide'.
Proof.
  revert slide. induction items as [|item rest IH]; intros slide.
  - by exists slide.
  - destruct (process_text_blocks_cons slide item rest boxes scale ppt_width
                ppt_height font_name) as (c & _ & ->).
    apply IH.
Qed.

Lemma process_text_blocks_raises (slide : Slide) (items : list Block)
    (ocr_boxes : list (list Q)) (scale ppt_width ppt_height : Q)
    (font_name : string) :
  Exists (fun b => length b <> 4%nat) ocr_boxes ->
  Exists (fun item => reaches_create_text_shape item = true) items ->
  process_text_blocks slide items ocr_boxes scale ppt_width ppt_height font_name
  = Raise ValueError.
Proof.
  intros Hb Hi. revert slide.
  induction items as [|item rest IH]; intros slide; [inversion Hi|].
  cbn [process_text_blocks].
  destruct (reaches_create_text_shape item) eqn:R.
  - unfold reaches_create_text_shape in R.
    destruct (block_bbox item) as [bbox|]; [|discriminate R].
    apply negb_true_iff in R. unfold item_label, item_content in R.
    rewrite R. by rewrite (get_line_count_malformed bbox ocr_boxes Hb).
  - assert (Hr : Exists (fun item => reaches_create_text_shape item = true) rest).
    { inversion Hi; subst; [congruence | done]. }
    unfold reaches_create_text_shape in R.
    destruct (block_bbox item) as [bbox|]; [|by apply IH].
    apply negb_false_iff in R. unfold item_label, item_content in R.
    rewrite R. by apply IH.
Qed.

(** X6: [process_text_blocks] raises exactly when some OCR box is not a
    four-number array and some block of the list is rendered as text; the
    exception is then [ValueError], from the unpacking in
    [get_line_count].  In every other case it returns. *)
Theorem process_text_blocks_failure (slide : Slide) (items : list Block)
    (ocr_boxes : list (list Q)) (scale ppt_width ppt_height : Q)
    (font_name : string) :
  let result :=
    process_text_blocks slide items ocr_boxes scale ppt_width ppt_height
      font_name in
  (result = Raise ValueError
   <-> Exists (fun b => length b <> 4%nat) ocr_boxes
       /\ Exists (fun item => reaches_create_text_shape item = true) items)
  /\ ((exists slide', result = Ok slide') \/ result = Raise ValueError).
Proof.
  intros result.
  assert (Da : forall b : list Q, {length b <> 4%nat} + {~ length b <> 4%nat}).
  { intros b. destruct (Nat.eq_dec (length b) 4%nat); [right; tauto | by left]. }
  assert (Db : forall item, {reaches_create_text_shape item = true}
                            + {~ reaches_create_text_shape item = true}).
  { intros item. destruct (reaches_create_text_shape item); [by left|by right]. }
  destruct (List.Exists_dec _ ocr_boxes Da) as [A|A].
  - destruct (List.Exists_dec _ items Db) as [B|B].
    + pose proof (process_text_blocks_raises slide items ocr_boxes scale
                    ppt_width ppt_height font_name A B) as E.
      fold result in E. split; [by split | by right].
    + assert (F : Forall (fun item => reaches_create_text_shape item = false) items).
      { apply List.Forall_forall. intros item I.
        destruct (reaches_create_text_shape item) eqn:R; [|done].
        exfalso. apply B. apply List.Exists_exists. by exists item. }
      pose proof (process_text_blocks_none_rendered slide items ocr_boxes scale
                    ppt_width ppt_height font_name F) as E.
      fold result in E. split; [|left; by exists slide].
      split; [rewrite E; discriminate | tauto].
  - assert (F : Forall (fun b : list Q => length b = 4%nat) ocr_boxes).
    { apply List.Forall_forall. intros b I.
      destruct (Nat.eq_dec (length b) 4%nat) as [E|N]; [done|].
      exfalso. apply A. apply List.Exists_exists. by exists b. }
    destruct (four_number_boxes ocr_boxes F) as (boxes & ->).
    destruct (process_text_blocks_returns slide items boxes scale ppt_width
                ppt_height font_name) as (slide' & E).
    fold result in E. split; [|left; by exists slide'].
    split; [rewrite E; discriminate | tauto].
Qed.






(** ** Aspect conformance: widening, and what no branch changes *)

Lemma wide_screen_pad_pages (data : Data) (first : PageLayout) (rest : list PageLayout) :
  layoutParsingResults data = first :: rest ->
  (width first < wide_target_width (height first))%Z ->
  let target := wide_target_width (height first) in
  let offset_x := ((target - width first) / 2)%Z in
  make_data_wide_screen data
  = mkData
      (map (fun page =>
              mkPageLayout target (height page)
                (map (pad_item offset_x) (parsing_res_list page)))
           (layoutParsingResults data))
      (map (fun page => mkPageOcr (map (pad_rec_box offset_x) (rec_boxes page)))
           (ocrResults data))
      (dataInfo (update_data_size data (inject_Z target) None)).
Proof.
  intros E L target offset_x. unfold make_data_wide_screen. rewrite E.
  fold target.
  destruct (Z.eqb_spec target (width first)) as [W|W]; [lia|].
  destruct (Z.ltb_spec (width first) target) as [L1|L1]; [|lia].
  fold offset_x. rewrite <- E. f_equal.
  cbn [layoutParsingResults update_data_size]. rewrite map_map.
  apply map_ext. intros page. cbn [width height parsing_res_list set_if].
  by rewrite int_inject_Z.
Qed.

Lemma sixteen_ninths (x : Q) : x * 16 / 9 == x * (16 # 9).
Proof. field. Qed.

Lemma target_width_nonneg (h : Z) : (0 <= h)%Z -> (0 <= wide_target_width h)%Z.
Proof.
  intros H. unfold wide_target_width.
  destruct (round_near (inject_Z h * 16 / 9)) as [Lo _].
  pose proof (sixteen_ninths (inject_Z h)) as E.
  assert (P : 0 <= inject_Z h) by (change 0 with (inject_Z 0); by rewrite <- Zle_Qle).
  remember (inject_Z h * 16 / 9) as x eqn:Hx. clear Hx.
  assert (Q1 : inject_Z (-1) < inject_Z (Py.round x)).
  { change (inject_Z (-1)) with (-1 # 1).
    generalize dependent (inject_Z (Py.round x)). intros r Lo.
    generalize dependent (inject_Z h). intros i E P. lra. }
  rewrite <- Zlt_Qlt in Q1. lia.
Qed.

(** X8: when the page is narrower than 16:9 every page gets the target
    width, no block and no OCR box is dropped, every block bbox is moved
    right by [offset = (target - w) // 2] with its height, width, label and
    content unchanged, and every OCR box of at least four numbers has its
    two x-coordinates moved by the same offset.  The old page sits in the
    new one with a left margin of [offset] and a right margin of [offset]
    or [offset + 1]. *)
Theorem make_data_wide_screen_pad (data : Data) (first : PageLayout)
    (rest : list PageLayout) :
  layoutParsingResults data = first :: rest ->
  (width first < wide_target_width (height first))%Z ->
  let target := wide_target_width (height first) in
  let offset_x := ((target - width first) / 2)%Z in
  let out := make_data_wide_screen data in
  (0 <= offset_x /\ offset_x + width first <= target
   /\ target <= offset_x + width first + offset_x + 1)%Z
  /\ Forall2 (fun page page' =>
                width page' = target /\ height page' = height page
                /\ Forall2 (fun item item' =>
                              block_label item' = block_label item
                              /\ block_content item' = block_content item
                              /\ block_bbox item'
                                 = (fun b => mkBBox (bx1 b + inject_Z offset_x)
                                               (by1 b)
                                               (bx2 b + inject_Z offset_x)
                                               (by2 b))
                                     <$> block_bbox item)
                     (parsing_res_list page) (parsing_res_list page'))
       (layoutParsingResults data) (layoutParsingResults out)
  /\ Forall2 (fun page page' =>
                Forall2 (fun bbox bbox' =>
                           bbox'
                           = if (4 <=? length bbox)%nat
                             then <[2%nat := at_ bbox 2 + inject_Z offset_x]>
                                    (<[0%nat := at_ bbox 0 + inject_Z offset_x]>
                                       bbox)
                             else bbox)
                  (rec_boxes page) (rec_boxes page'))
       (ocrResults data) (ocrResults out).
Proof.
  intros E L target offset_x out. unfold out.
  rewrite (wide_screen_pad_pages data first rest E L).
  fold target offset_x. cbn [layoutParsingResults ocrResults].
  split; [|split].
  - pose proof (Z.div_mod (target - width first) 2 ltac:(lia)) as D.
    pose proof (Z.mod_pos_bound (target - width first) 2 ltac:(lia)) as M.
    fold offset_x in D. lia.
  - apply Forall2_fmap_r, Forall_Forall2_diag, List.Forall_forall.
    intros page _. unfold compose. cbn [width height parsing_res_list].
    split; [done|]. split; [done|].
    apply Forall2_fmap_r, Forall_Forall2_diag, List.Forall_forall.
    intros item _. unfold compose, pad_item. cbv beta.
    destruct (block_bbox item) eqn:B; repeat split; try reflexivity. exact B.
  - apply Forall2_fmap_r, Forall_Forall2_diag, List.Forall_forall.
    intros page _. unfold compose. cbn [rec_boxes].
    apply Forall2_fmap_r, Forall_Forall2_diag, List.Forall_forall.
    intros bbox _. unfold compose, pad_rec_box, has_four. cbv beta.
    destruct (4 <=? length bbox)%nat eqn:F; [|done].
    do 2 f_equal. destruct bbox as [|a [|b [|c l]]]; try discriminate F.
    reflexivity.
Qed.

Lemma make_data_wide_screen_pad_witness :
  let page :=
    mkPageLayout 1000 1000
      [mkBlock (Some "title"%string) (Some "Plan"%string)
         (Some (mkBBox 100 50 900 150))] in
  let data := mkData [page] [mkPageOcr [[100; 60; 400; 90]]] None in
  (1000 < wide_target_width 1000)%Z
  /\ Forall2 (fun page page' => width page' = 1778%Z /\ height page' = height page)
       (layoutParsingResults data)
       (layoutParsingResults (make_data_wide_screen data)).
Proof.
  intros page data.
  assert (L : (width page < wide_target_width (height page))%Z) by reflexivity.
  split; [exact L|].
  destruct (make_data_wide_screen_pad data page [] eq_refl L) as (_ & H & _).
  eapply Forall2_impl; [exact H|]. intros p p' (A & B & _). by split.
Defined.

Lemma Forall2_map_same {A B : Type} (R : A -> B -> Prop) (f : A -> B) (l : list A) :
  (forall a, In a l -> R a (f a)) -> Forall2 R l (map f l).
Proof.
  induction l as [|a l IH]; intros H; [constructor|].
  cbn [map]. constructor; [apply H; by left|]. apply IH. intros b Hb.
  apply H. by right.
Qed.

Lemma Forall2_same {A : Type} (R : A -> A -> Prop) (l : list A) :
  (forall a, In a l -> R a a) -> Forall2 R l l.
Proof.
  intros H. rewrite <- (map_id l) at 2. by apply Forall2_map_same.
Qed.

(** The three ways [make_data_wide_screen] can go on a document with a
    first page. *)
Lemma wide_screen_cases (data : Data) (first : PageLayout) (rest : list PageLayout) :
  layoutParsingResults data = first :: rest ->
  let target := wide_target_width (height first) in
  (target = width first /\ make_data_wide_screen data = data)
  \/ ((width first < target)%Z
      /\ exists info,
          make_data_wide_screen data
          = mkData
              (map (fun page =>
                      mkPageLayout target (height page)
                        (map (pad_item ((target - width first) / 2)%Z)
                           (parsing_res_list page)))
                   (layoutParsingResults data))
              (map (fun page =>
                      mkPageOcr (map (pad_rec_box ((target - width first) / 2)%Z)
                                   (rec_boxes page)))
                   (ocrResults data))
              info)
  \/ ((target < width first)%Z
      /\ exists info,
          make_data_wide_screen data
          = mkData
              (map (fun page =>
                      mkPageLayout target (height page)
                        (map (item_clipped ((width first - target) / 2)%Z target)
                           (List.filter
                              (item_kept ((width first - target) / 2)%Z
                                 ((width first - target) / 2 + target)%Z)
                              (parsing_res_list page))))
                   (layoutParsingResults data))
              (map (fun page =>
                      mkPageOcr
                        (map (rec_box_clipped ((width first - target) / 2)%Z target)
                           (List.filter
                              (rec_box_kept ((width first - target) / 2)%Z
                                 ((width first - target) / 2 + target)%Z)
                              (rec_boxes page))))
                   (ocrResults data))
              info).
Proof.
  intros E target.
  destruct (Z.lt_trichotomy target (width first)) as [L|[L|L]].
  - right. right. split; [done|]. eexists.
    apply (wide_screen_crop_pages data first rest E L).
  - left. split; [done|]. by apply (wide_screen_noop data first rest).
  - right. left. split; [done|]. eexists.
    apply (wide_screen_pad_pages data first rest E L).
Qed.

(** X9: if every block bbox of the document lies on the first page's
    width, [0 <= x1 <= x2 <= w], and the page height is not negative, then
    after [make_data_wide_screen] every block bbox lies on the 16:9 width:
    [0 <= x1 <= x2 <= target], whichever branch was taken. *)
Theorem make_data_wide_screen_on_page (data : Data) (first : PageLayout)
    (rest : list PageLayout) :
  layoutParsingResults data = first :: rest ->
  (0 <= height first)%Z ->
  (forall page item b,
      In page (layoutParsingResults data) ->
      In item (parsing_res_list page) ->
      block_bbox item = Some b ->
      0 <= bx1 b /\ bx1 b <= bx2 b /\ bx2 b <= inject_Z (width first)) ->
  forall page' item' b',
    In page' (layoutParsingResults (make_data_wide_screen data)) ->
    In item' (parsing_res_list page') ->
    block_bbox item' = Some b' ->
    0 <= bx1 b' /\ bx1 b' <= bx2 b'
    /\ bx2 b' <= inject_Z (wide_target_width (height first)).
Proof.
  intros E Hh Hin page' item' b' Hp Hi Hb.
  pose proof (target_width_nonneg _ Hh) as Ht.
  rewrite Zle_Qle in Ht. change (inject_Z 0) with 0 in Ht.
  destruct (wide_screen_cases data first rest E) as [[W N]|[[L (info & P)]|[L (info & C)]]].
  - rewrite N in Hp. rewrite W. by apply (Hin page' item' b').
  - rewrite P in Hp. cbn [layoutParsingResults] in Hp.
    apply List.in_map_iff in Hp as (page & <- & Hp).
    cbn [parsing_res_list] in Hi.
    apply List.in_map_iff in Hi as (item & <- & Hi).
    unfold pad_item in Hb. destruct (block_bbox item) as [b|] eqn:B;
      [|by rewrite B in Hb].
    cbn [set_bbox block_bbox] in Hb. injection Hb as <-.
    destruct (Hin page item b Hp Hi B) as (A1 & A2 & A3). cbn [bx1 bx2].
    set (target := wide_target_width (height first)) in *.
    pose proof (Z.div_mod (target - width first) 2 ltac:(lia)) as D.
    pose proof (Z.mod_pos_bound (target - width first) 2 ltac:(lia)) as M.
    assert (O1 : (0 <= (target - width first) / 2)%Z) by lia.
    assert (O2 : ((target - width first) / 2 + width first <= target)%Z) by lia.
    rewrite Zle_Qle in O1, O2. rewrite inject_Z_plus in O2.
    change (inject_Z 0) with 0 in O1.
    repeat split; lra.
  - rewrite C in Hp. cbn [layoutParsingResults] in Hp.
    apply List.in_map_iff in Hp as (page & <- & Hp).
    cbn [parsing_res_list] in Hi.
    apply List.in_map_iff in Hi as (item & <- & Hi).
    apply List.filter_In in Hi as [Hi K].
    unfold item_clipped in Hb. unfold item_kept in K.
    destruct (block_bbox item) as [b|] eqn:B; [|discriminate K].
    cbn [set_bbox block_bbox] in Hb. injection Hb as <-.
    destruct (Hin page item b Hp Hi B) as (A1 & A2 & A3). cbn [bx1 bx2].
    apply andb_true_iff in K as [K1 K2]. apply ltb_lt in K1, K2.
    rewrite inject_Z_plus in K2.
    set (target := wide_target_width (height first)) in *.
    set (left := ((width first - target) / 2)%Z) in *.
    unfold clip_x1, clip_x2.
    destruct (Q.max_spec 0 (bx1 b - inject_Z left)) as [[? M1]|[? M1]];
      destruct (Q.min_spec (inject_Z target) (bx2 b - inject_Z left))
        as [[? M2]|[? M2]];
      rewrite M1, M2; repeat split; lra.
Qed.

Lemma make_data_wide_screen_on_page_witness :
  let page :=
    mkPageLayout 2000 900
      [mkBlock (Some "text"%string) (Some "c"%string) (Some (mkBBox 150 0 400 10))] in
  let data := mkData [page] [] None in
  (0 <= 900)%Z
  /\ forall page' item' b',
      In page' (layoutParsingResults (make_data_wide_screen data)) ->
      In item' (parsing_res_list page') ->
      block_bbox item' = Some b' ->
      0 <= bx1 b' /\ bx1 b' <= bx2 b' /\ bx2 b' <= 1600.
Proof.
  intros page data.
  assert (H : (0 <= height page)%Z) by (simpl; lia).
  split; [exact H|].
  apply (make_data_wide_screen_on_page data page [] eq_refl H).
  intros p item b [<-|[]] [<-|[]] [= <-]. simpl.
  repeat split; discriminate.
Defined.

Lemma insert_02_frame (bbox : list Q) (a c : Q) (i : nat) :
  i <> 0%nat -> i <> 2%nat ->
  length (<[2%nat := c]> (<[0%nat := a]> bbox)) = length bbox
  /\ <[2%nat := c]> (<[0%nat := a]> bbox) !! i = bbox !! i.
Proof.
  intros H0 H2. rewrite !length_insert. split; [done|].
  rewrite list_lookup_insert_ne by done. by rewrite list_lookup_insert_ne.
Qed.

(** X10: [make_data_wide_screen] only works along x.  In every branch
    the number of pages and each page's height are kept; every block of an
    output page comes from a block of the same input page with the same
    label, content, top and bottom; every OCR box of an output page comes
    from an OCR box of the same input page with the same length and the
    same entries everywhere but at positions 0 and 2. *)
Theorem make_data_wide_screen_horizontal (data : Data) :
  let out := make_data_wide_screen data in
  Forall2 (fun page page' =>
             height page' = height page
             /\ forall item',
                 In item' (parsing_res_list page') ->
                 exists item,
                   In item (parsing_res_list page)
                   /\ block_label item' = block_label item
                   /\ block_content item' = block_content item
                   /\ by1 <$> block_bbox item' = by1 <$> block_bbox item
                   /\ by2 <$> block_bbox item' = by2 <$> block_bbox item)
    (layoutParsingResults data) (layoutParsingResults out)
  /\ Forall2 (fun page page' =>
                forall bbox',
                  In bbox' (rec_boxes page') ->
                  exists bbox,
                    In bbox (rec_boxes page)
                    /\ length bbox' = length bbox
                    /\ forall i, i <> 0%nat -> i <> 2%nat ->
                                 bbox' !! i = bbox !! i)
       (ocrResults data) (ocrResults out).
Proof.
  intros out. unfold out.
  assert (Same : make_data_wide_screen data = data ->
                 Forall2 (fun page page' =>
                            height page' = height page
                            /\ forall item',
                                In item' (parsing_res_list page') ->
                                exists item,
                                  In item (parsing_res_list page)
                                  /\ block_label item' = block_label item
                                  /\ block_content item' = block_content item
                                  /\ by1 <$> block_bbox item' = by1 <$> block_bbox item
                                  /\ by2 <$> block_bbox item' = by2 <$> block_bbox item)
                   (layoutParsingResults data)
                   (layoutParsingResults (make_data_wide_screen data))
                 /\ Forall2 (fun page page' =>
                               forall bbox',
                                 In bbox' (rec_boxes page') ->
                                 exists bbox,
                                   In bbox (rec_boxes page)
                                   /\ length bbox' = length bbox
                                   /\ forall i, i <> 0%nat -> i <> 2%nat ->
                                                bbox' !! i = bbox !! i)
                      (ocrResults data)
                      (ocrResults (make_data_wide_screen data))).
  { intros ->. split; apply Forall2_same.
    - intros page _. split; [done|]. intros item Hi. by exists item.
    - intros page _ bbox Hb. by exists bbox. }
  assert (Cases : layoutParsingResults data = []
                  \/ exists first rest, layoutParsingResults data = first :: rest).
  { destruct (layoutParsingResults data) as [|first rest]; [by left|].
    right. by exists first, rest. }
  destruct Cases as [E|(first & rest & E)].
  { apply Same. unfold make_data_wide_screen. by rewrite E. }
  destruct (wide_screen_cases data first rest E)
    as [[W N]|[[L (info & P)]|[L (info & C)]]].
  - by apply Same.
  - rewrite P. cbn [layoutParsingResults ocrResults].
    split; apply Forall2_map_same.
    + intros page _. cbn [height parsing_res_list]. split; [done|].
      intros item' Hi. apply List.in_map_iff in Hi as (item & <- & Hi).
      exists item. split; [done|]. unfold pad_item.
      by destruct (block_bbox item) eqn:B; rewrite ?B.
    + intros page _ bbox' Hb. cbn [rec_boxes] in Hb.
      apply List.in_map_iff in Hb as (bbox & <- & Hb).
      exists bbox. split; [done|]. unfold pad_rec_box.
      destruct (has_four bbox); [|done].
      split; [by rewrite !length_insert|].
      intros i H0 H2. by apply insert_02_frame.
  - rewrite C. cbn [layoutParsingResults ocrResults].
    split; apply Forall2_map_same.
    + intros page _. cbn [height parsing_res_list]. split; [done|].
      intros item' Hi. apply List.in_map_iff in Hi as (item & <- & Hi).
      apply List.filter_In in Hi as [Hi _].
      exists item. split; [done|]. unfold item_clipped.
      by destruct (block_bbox item) eqn:B; rewrite ?B.
    + intros page _ bbox' Hb. cbn [rec_boxes] in Hb.
      apply List.in_map_iff in Hb as (bbox & <- & Hb).
      apply List.filter_In in Hb as [Hb _].
      exists bbox. split; [done|]. unfold rec_box_clipped.
      split; [by rewrite !length_insert|].
      intros i H0 H2. by apply insert_02_frame.
Qed.

(** ** The slide size *)

Lemma target_width_ratio (h : Z) :
  (0 < h)%Z -> (33 * h < 20 * wide_target_width h)%Z.
Proof.
  intros H.
  destruct (Z.eq_dec h 1%Z) as [->|N1]; [reflexivity|].
  destruct (Z.eq_dec h 2%Z) as [->|N2]; [reflexivity|].
  destruct (Z.eq_dec h 3%Z) as [->|N3]; [reflexivity|].
  unfold wide_target_width.
  destruct (round_near (inject_Z h * 16 / 9)) as [Lo _].
  pose proof (sixteen_ninths (inject_Z h)) as E.
  remember (inject_Z h * 16 / 9) as x eqn:Hx. clear Hx.
  assert (G : inject_Z (33 * h) < inject_Z (20 * Py.round x)).
  { rewrite !inject_Z_mult.
    assert (P : 4 <= inject_Z h).
    { change 4 with (inject_Z 4). rewrite <- Zle_Qle. lia. }
    change (inject_Z 33) with 33. change (inject_Z 20) with 20.
    generalize dependent (inject_Z (Py.round x)). intros r Lo.
    generalize dependent (inject_Z h). intros i E P. lra. }
  by rewrite <- Zlt_Qlt in G.
Qed.

Lemma target_width_positive (h : Z) : (0 < h)%Z -> (0 < wide_target_width h)%Z.
Proof. intros H. pose proof (target_width_ratio h H). lia. Qed.

Lemma Z_ratio_lt (a b : Z) (c : Q) :
  (0 < b)%Z -> c * inject_Z b < inject_Z a -> c < inject_Z a / inject_Z b.
Proof.
  intros Hb H. apply Qlt_shift_div_l; [|exact H].
  change 0 with (inject_Z 0). by rewrite <- Zlt_Qlt.
Qed.

Section SlideSize.

Variable preset_size : SlideSizeType -> Q * Q.
Variable custom_size : Q * Q -> Outcome (Q * Q).

Lemma setup_presentation_widened (h : Z) :
  (0 < h)%Z ->
  setup_presentation preset_size custom_size (wide_target_width h, h)
  = Ok (Screen16x9, fst (preset_size Screen16x9), snd (preset_size Screen16x9)).
Proof.
  intros H. unfold setup_presentation.
  destruct (Z.eqb_spec h 0) as [Z0|_]; [lia|].
  rewrite (proj2 (ltb_lt _ _)); [reflexivity|].
  apply Z_ratio_lt; [done|].
  pose proof (target_width_ratio _ H) as R.
  rewrite Zlt_Qlt, !inject_Z_mult in R.
  change (inject_Z 33) with 33 in R. change (inject_Z 20) with 20 in R.
  generalize dependent (inject_Z (wide_target_width h)).
  intros t R. generalize dependent (inject_Z h). intros i R. lra.
Qed.

(** X11: a document whose first page has a positive height always gets
    the 16:9 preset: after [make_data_wide_screen] the size read by
    [get_pdf_size_from_data] is [(round(h * 16 / 9), h)], whose ratio is
    above 1.65, so that [setup_presentation] never takes the 16:10, the 4:3
    or the custom branch there. *)
Theorem wide_screen_gets_16x9 (data : Data) (first : PageLayout)
    (rest : list PageLayout) :
  layoutParsingResults data = first :: rest ->
  (0 < height first)%Z ->
  let pdf_size := (wide_target_width (height first), height first) in
  get_pdf_size_from_data (make_data_wide_screen data) = Ok pdf_size
  /\ setup_presentation preset_size custom_size pdf_size
     = Ok (Screen16x9, fst (preset_size Screen16x9), snd (preset_size Screen16x9)).
Proof.
  intros E H pdf_size. split.
  - destruct (wide_screen_first_page data first rest E) as (f' & r' & E' & W & Hh).
    unfold get_pdf_size_from_data. rewrite E', W, Hh. reflexivity.
  - by apply setup_presentation_widened.
Qed.

Lemma custom_scales_agree (w h : Z) (W H : Q) :
  (0 < w)%Z -> (w <= h)%Z ->
  Qabs (W - 720 * (inject_Z w / inject_Z h))
  <= 720 * (inject_Z w / inject_Z h) / 1000000 ->
  Qabs (H - 720) <= 720 / 1000000 ->
  Qabs (W / inject_Z w - H / inject_Z h) < 1 # 100.
Proof.
  intros Hw Hwh BW BH.
  assert (Pw : 0 < inject_Z w)
    by (change 0 with (inject_Z 0); by rewrite <- Zlt_Qlt).
  assert (Ph : 1 <= inject_Z h)
    by (change 1 with (inject_Z 1); rewrite <- Zle_Qle; lia).
  pose proof (inv_pos_Z w Hw) as Ia.
  assert (Ib : 0 < / inject_Z h) by (apply inv_pos_Z; lia).
  assert (Ib1 : / inject_Z h <= 1) by (apply Qle_shift_inv_r; lra).
  apply Qabs_Qle_condition in BW as [BW1 BW2].
  apply Qabs_Qle_condition in BH as [BH1 BH2].
  apply (Qmult_le_compat_r _ _ (/ inject_Z w)) in BW1; [|lra].
  apply (Qmult_le_compat_r _ _ (/ inject_Z w)) in BW2; [|lra].
  apply (Qmult_le_compat_r _ _ (/ inject_Z h)) in BH1; [|lra].
  apply (Qmult_le_compat_r _ _ (/ inject_Z h)) in BH2; [|lra].
  assert (E1 : (W - 720 * (inject_Z w / inject_Z h)) * / inject_Z w
               == W / inject_Z w - 720 * / inject_Z h)
    by (field; split; lra).
  assert (E2 : 720 * (inject_Z w / inject_Z h) / 1000000 * / inject_Z w
               == 720 * / inject_Z h * (1 # 1000000))
    by (field; split; lra).
  assert (E3 : - (720 * (inject_Z w / inject_Z h) / 1000000) * / inject_Z w
               == - (720 * / inject_Z h * (1 # 1000000)))
    by (field; split; lra).
  assert (E4 : (H - 720) * / inject_Z h == H / inject_Z h - 720 * / inject_Z h)
    by (field; lra).
  assert (E5 : 720 / 1000000 * / inject_Z h
               == 720 * / inject_Z h * (1 # 1000000))
    by (field; lra).
  assert (E6 : - (720 / 1000000) * / inject_Z h
               == - (720 * / inject_Z h * (1 # 1000000)))
    by (field; lra).
  rewrite E1 in BW1, BW2. rewrite E2 in BW2. rewrite E3 in BW1.
  rewrite E4 in BH1, BH2. rewrite E5 in BH2. rewrite E6 in BH1.
  clear E1 E2 E3 E4 E5 E6.
  generalize dependent (W / inject_Z w). intros u BW1 BW2.
  generalize dependent (H / inject_Z h). intros v BH1 BH2.
  generalize dependent (/ inject_Z h). intros c Ib Ib1 BW1 BW2 BH1 BH2.
  apply Qabs_case; intros _; lra.
Qed.

(** X12: for a page that is not wider than tall, [0 < w <= h],
    [setup_presentation] never takes a preset: it asks the library for
    the custom size [720 * w / h] by 720 and returns what the library
    reads back, or fails as the library does.  Whenever the size read
    back is within a millionth (relative) of the size asked for, as with a
    size stored in single precision, the two scales that [resize_data]
    compares differ by less than 1/100 and its assertion cannot fail. *)
Theorem setup_presentation_custom (data : Data) (w h : Z) :
  (0 < w)%Z -> (w <= h)%Z ->
  let asked_width := 720 * (inject_Z w / inject_Z h) in
  (forall e,
     custom_size (asked_width, 720) = Raise e ->
     setup_presentation preset_size custom_size (w, h) = Raise e)
  /\ (forall ppt_width ppt_height,
        custom_size (asked_width, 720) = Ok (ppt_width, ppt_height) ->
        setup_presentation preset_size custom_size (w, h)
        = Ok (Custom, ppt_width, ppt_height)
        /\ (Qabs (ppt_width - asked_width) <= asked_width / 1000000 ->
            Qabs (ppt_height - 720) <= 720 / 1000000 ->
            Qabs (ppt_width / inject_Z w - ppt_height / inject_Z h) < 1 # 100
            /\ resize_data data (as_size (w, h)) (ppt_width, ppt_height)
               <> Raise AssertionError)).
Proof.
  intros Hw Hwh asked_width.
  assert (Pw : 0 < inject_Z w) by (change 0 with (inject_Z 0); by rewrite <- Zlt_Qlt).
  assert (Ph : 0 < inject_Z h)
    by (change 0 with (inject_Z 0); rewrite <- Zlt_Qlt; lia).
  assert (R : inject_Z w / inject_Z h <= 1).
  { apply Qle_shift_div_r; [done|]. rewrite Qmult_1_l. by rewrite <- Zle_Qle. }
  assert (S : setup_presentation preset_size custom_size (w, h)
              = custom_size (asked_width, 720)
                ≫= fun '(ppt_width, ppt_height) =>
                      Ok (Custom, ppt_width, ppt_height)).
  { unfold setup_presentation.
    destruct (Z.eqb_spec h 0) as [Z0|_]; [lia|].
    destruct (Py.ltb (33 # 20) _) eqn:A; [apply ltb_lt in A; lra|].
    destruct (Py.ltb (29 # 20) _) eqn:B; [apply ltb_lt in B; lra|].
    destruct (Py.ltb 1 _) eqn:C; [apply ltb_lt in C; lra|].
    reflexivity. }
  split.
  - intros e E. by rewrite S, E.
  - intros ppt_width ppt_height E. split; [by rewrite S, E|].
    intros BW BH.
    pose proof (custom_scales_agree w h ppt_width ppt_height Hw Hwh BW BH) as A.
    split; [exact A|].
    unfold as_size. cbn [fst snd]. intros F.
    apply resize_data_assertion in F; lra.
Qed.

End SlideSize.

Lemma wide_screen_gets_16x9_witness :
  let data := mkData [mkPageLayout 1000 1000 []] [] None in
  (0 < 1000)%Z
  /\ get_pdf_size_from_data (make_data_wide_screen data) = Ok (1778, 1000)%Z.
Proof.
  intros data.
  assert (H : (0 < 1000)%Z) by lia.
  split; [exact H|].
  exact (proj1 (wide_screen_gets_16x9 (fun _ => (720, 405)) (fun size => Ok size) data (mkPageLayout 1000 1000 []) []
                  eq_refl H)).
Defined.

Lemma setup_presentation_custom_witness :
  let single := fun _ : Q * Q => Ok (5538461303710938 # 10000000000000, 720) in
  setup_presentation (fun _ => (720, 405)) single (1000, 1300)%Z
  = Ok (Custom, 5538461303710938 # 10000000000000, 720)
  /\ Qabs ((5538461303710938 # 10000000000000) / inject_Z 1000
           - 720 / inject_Z 1300) < 1 # 100.
Proof.
  intros single.
  destruct (proj2 (setup_presentation_custom (fun _ => (720, 405)) single
                     (mkData [] [] None) 1000 1300 eq_refl ltac:(discriminate))
              (5538461303710938 # 10000000000000) 720 eq_refl)
    as [E A].
  split; [exact E|]. apply A; discriminate.
Defined.


(** ** The two scale assertions of the pipeline *)

Lemma Qabs_lt (x y : Q) : - y < x -> x < y -> Qabs x < y.
Proof. intros A B. apply Qabs_case; intros; lra. Qed.

Lemma Qlt_by_product (x y p : Q) : 0 < p -> x * p < y * p -> x < y.
Proof. intros Hp H. by apply (Qmult_lt_r x y p Hp). Qed.

Lemma div_times (a b : Q) : ~ b == 0 -> a / b * b == a.
Proof. intros H. field. exact H. Qed.

(** The assertion of [resize_data] on a widened page and a canvas whose
    width is 16/9 of its height. *)
Lemma widened_scales_agree (h : Z) (W H : Q) :
  (0 < h)%Z -> 0 < H -> 9 * W == 16 * H ->
  50 * H < inject_Z (wide_target_width h) * inject_Z h ->
  Qabs (W / inject_Z (wide_target_width h) - H / inject_Z h) < 1 # 100.
Proof.
  intros Hh HH HW Harea.
  pose proof (target_width_positive h Hh) as Tp.
  rewrite Zlt_Qlt in Tp, Hh. change (inject_Z 0) with 0 in Tp, Hh.
  unfold wide_target_width in *.
  destruct (round_near (inject_Z h * 16 / 9)) as [Lo Hi].
  pose proof (sixteen_ninths (inject_Z h)) as E.
  remember (inject_Z h * 16 / 9) as x eqn:Hx. clear Hx.
  remember (inject_Z (Py.round x)) as T eqn:HT. clear HT.
  remember (inject_Z h) as I eqn:HI. clear HI.
  pose proof (div_times W T ltac:(lra)) as Ea.
  pose proof (div_times H I ltac:(lra)) as Eb.
  remember (W / T) as a eqn:Ha. clear Ha.
  remember (H / I) as b eqn:Hb. clear Hb.
  assert (Pp : 0 < T * I) by nra.
  assert (K : (a - b) * (T * I) == W * I - H * T).
  { rewrite <- Ea, <- Eb. ring. }
  assert (K1 : W * I - H * T <= H * (1 # 2)) by nra.
  assert (K2 : - (H * (1 # 2)) <= W * I - H * T) by nra.
  apply Qabs_lt.
  - apply (Qlt_by_product _ _ (T * I) Pp). rewrite K. nra.
  - apply (Qlt_by_product _ _ (T * I) Pp). rewrite K. nra.
Qed.

(** The assertion after [resize_data]: the canvas width over its integer
    part. *)
Lemma canvas_scale_near_one (W : Q) :
  100 <= W -> Qabs (W / inject_Z (Py.int W) - 1) < 1 # 100.
Proof.
  intros HW.
  destruct (int_trunc_nonneg W ltac:(lra)) as [Lo Hi].
  assert (N : 100 <= inject_Z (Py.int W)).
  { change 100 with (inject_Z 100). rewrite <- Zle_Qle.
    apply (int_mono 100 W HW). }
  remember (inject_Z (Py.int W)) as n eqn:Hn. clear Hn.
  pose proof (div_times W n ltac:(lra)) as Ea.
  remember (W / n) as a eqn:Ha. clear Ha.
  assert (Pn : 0 < n) by lra.
  apply Qabs_lt.
  - apply (Qlt_by_product _ _ n Pn). nra.
  - apply (Qlt_by_product _ _ n Pn). nra.
Qed.

(** X13: on a canvas whose width is 16/9 of its height and at least 100,
    neither scale assertion of the pipeline can fail for a widened page of
    positive height [h] whose area [round(h * 16 / 9) * h] exceeds fifty
    times the canvas height: the two scales of [resize_data] differ by less
    than 1/100, and so does the scale recomputed from the stored integer
    width from 1. *)
Theorem canvas_assertions_hold (h : Z) (W H : Q) :
  (0 < h)%Z -> 100 <= W -> 9 * W == 16 * H ->
  50 * H < inject_Z (wide_target_width h) * inject_Z h ->
  Qabs (W / inject_Z (wide_target_width h) - H / inject_Z h) < 1 # 100
  /\ (forall data,
        resize_data data (as_size (wide_target_width h, h)) (W, H)
        <> Raise AssertionError)
  /\ Qabs (W / inject_Z (Py.int W) - 1) < 1 # 100.
Proof.
  intros Hh HW E A.
  assert (HH : 0 < H) by lra.
  pose proof (widened_scales_agree h W H Hh HH E A) as S.
  split; [exact S|]. split; [|by apply canvas_scale_near_one].
  intros data F. unfold as_size in F. cbn [fst snd] in F.
  pose proof (target_width_positive h Hh) as Tp.
  rewrite Zlt_Qlt in Tp, Hh. change (inject_Z 0) with 0 in Tp, Hh.
  apply resize_data_assertion in F; lra.
Qed.

Lemma canvas_assertions_hold_witness :
  (0 < 1000)%Z
  /\ Qabs (720 / inject_Z (wide_target_width 1000) - 405 / inject_Z 1000)
     < 1 # 100.
Proof.
  assert (H : (0 < 1000)%Z) by lia.
  split; [exact H|].
  apply (canvas_assertions_hold 1000 720 405 H); [discriminate|reflexivity|reflexivity].
Defined.

(** ** After the canvas scaling *)

Lemma int_comp (x y : Q) : x == y -> Py.int x = Py.int y.
Proof.
  intros E. destruct (Qlt_le_dec x 0) as [N|P].
  - rewrite !int_nonpos by lra. by apply Qceiling_comp.
  - rewrite !int_nonneg by lra. by apply Qfloor_comp.
Qed.

(** A factor equal to 1 leaves an integer where it is. *)
Lemma int_unit (z : Z) (s : Q) : s == 1 -> Py.int (inject_Z z * s) = z.
Proof.
  intros E. rewrite (int_comp _ (inject_Z z)); [apply int_inject_Z|].
  rewrite E. ring.
Qed.

Lemma ceil_unit (z : Z) (s : Q) : s == 1 -> Py.ceil (inject_Z z * s) = z.
Proof.
  intros E. unfold Py.ceil.
  rewrite (Qceiling_comp _ (inject_Z z)); [apply Qceiling_Z|].
  rewrite E. ring.
Qed.

Lemma scale_bbox_unit (l t r b : Z) (s : Q) :
  s == 1 ->
  scale_bbox (mkBBox (inject_Z l) (inject_Z t) (inject_Z r) (inject_Z b)) s true
  = mkBBox (inject_Z l) (inject_Z t) (inject_Z r) (inject_Z b).
Proof.
  intros E. unfold scale_bbox, scale_bbox_ints.
  by rewrite !int_unit, !ceil_unit.
Qed.

Lemma scale_bbox_integral (bbox : BBox) (s : Q) :
  exists l t r b : Z,
    scale_bbox bbox s true
    = mkBBox (inject_Z l) (inject_Z t) (inject_Z r) (inject_Z b).
Proof. destruct bbox. unfold scale_bbox, scale_bbox_ints. by eexists _, _, _, _. Qed.

Lemma for_each_ok {A B : Type} (f : A -> Outcome B) (l : list A) (l' : list B) :
  for_each f l = Ok l' -> Forall2 (fun a b => f a = Ok b) l l'.
Proof.
  revert l'. induction l as [|a l IH]; intros l'.
  - intros [= <-]. constructor.
  - cbn [for_each]. destruct (f a) as [b|e] eqn:Fa; cbn [mbind outcome_bind];
      [|discriminate].
    destruct (for_each f l) as [bs|e] eqn:Fl; cbn [mbind outcome_bind];
      [|discriminate].
    intros [= <-]. constructor; [done|]. by apply IH.
Qed.

Lemma resize_rec_box_inv (s : Q) (bbox bbox' : list Q) :
  resize_rec_box s bbox = Ok bbox' ->
  (length bbox <= 4)%nat /\ bbox' = resized_rec_box s bbox.
Proof.
  destruct bbox as [|a [|b [|c [|d [|e bbox]]]]]; cbn; intros H;
    try (injection H as <-; split; [lia | reflexivity]).
  discriminate H.
Qed.

(** A successful [resize_data] had no long OCR box and returned the
    closed form. *)
Lemma resize_data_inv (data out : Data) (pdf_w pdf_h ppt_w ppt_h : Q) :
  resize_data data (pdf_w, pdf_h) (ppt_w, ppt_h) = Ok out ->
  rec_boxes_at_most_four data
  /\ out = resized_data data (ppt_w / pdf_w) ppt_w ppt_h.
Proof.
  unfold resize_data.
  destruct (is_zero pdf_w); [discriminate|].
  destruct (is_zero pdf_h); [discriminate|].
  destruct (negb _); [discriminate|].
  destruct (for_each _ (ocrResults _)) as [pages'|e] eqn:F;
    cbn [mbind outcome_bind]; [|discriminate].
  intros [= <-]. apply for_each_ok in F.
  cbn [ocrResults update_data_size] in F.
  assert (G : Forall2 (fun page page' =>
                         Forall (fun bbox => (length bbox <= 4)%nat) (rec_boxes page)
                         /\ page' = mkPageOcr (map (resized_rec_box (ppt_w / pdf_w))
                                                 (rec_boxes page)))
                (ocrResults data) pages').
  { eapply Forall2_impl; [exact F|]. intros page page' H. cbv beta in H.
    destruct (for_each (resize_rec_box (ppt_w / pdf_w)) (rec_boxes page))
      as [bs|e] eqn:B; cbn [mbind outcome_bind] in H; [|discriminate H].
    injection H as <-. apply for_each_ok in B.
    clear -B. induction B as [|b b' l l' Hb Hl IH]; [by split|].
    apply resize_rec_box_inv in Hb as [Hlen ->].
    destruct IH as [IH1 IH2]. split; [by constructor|].
    cbn [map]. injection IH2 as ->. reflexivity. }
  split.
  - unfold rec_boxes_at_most_four. clear -G.
    induction G as [|p p' l l' [Hp _] Hl IH]; by constructor.
  - unfold resized_data. f_equal.
    + cbn [layoutParsingResults update_data_size]. rewrite map_map.
      apply map_ext. intros page.
      by cbn [parsing_res_list width height set_if fmap option_fmap option_map].
    + clear -G. induction G as [|p p' l l' [_ ->] Hl IH]; [done|].
      cbn [map]. by rewrite IH.
Qed.

Lemma resize_item_unit (s u : Q) (item : Block) :
  u == 1 -> resize_item u (resize_item s item) = resize_item s item.
Proof.
  intros E. unfold resize_item at 2 3.
  destruct (block_bbox item) as [b|] eqn:B.
  - unfold resize_item. cbn [set_bbox block_bbox block_label block_content].
    destruct (scale_bbox_integral b s) as (l & t & r & b0 & ->).
    by rewrite scale_bbox_unit.
  - unfold resize_item. by rewrite B.
Qed.

Lemma resized_rec_box_unit (s u : Q) (bbox : list Q) :
  u == 1 ->
  resized_rec_box u (resized_rec_box s bbox) = resized_rec_box s bbox.
Proof.
  intros E. destruct bbox as [|a [|b [|c [|d [|e bbox]]]]]; try reflexivity.
  unfold resized_rec_box at 2 3.
  destruct (scale_bbox_integral (mkBBox a b c d) s) as (l & t & r & b0 & ->).
  cbn [box_list bx1 by1 bx2 by2 resized_rec_box].
  by rewrite scale_bbox_unit.
Qed.

Lemma resized_rec_box_length (s : Q) (bbox : list Q) :
  length (resized_rec_box s bbox) = length bbox.
Proof.
  by destruct bbox as [|a [|b [|c [|d [|e bbox]]]]].
Qed.

Lemma resized_data_unit (data : Data) (s u w h : Q) :
  u == 1 ->
  resized_data (resized_data data s w h) u
    (inject_Z (Py.int w)) (inject_Z (Py.int h))
  = resized_data data s w h.
Proof.
  intros E. unfold resized_data.
  cbn [layoutParsingResults ocrResults dataInfo update_data_size].
  rewrite !int_inject_Z. f_equal.
  - rewrite map_map. apply map_ext. intros page. cbn [parsing_res_list].
    f_equal. rewrite map_map. apply map_ext. intros item.
    by apply resize_item_unit.
  - rewrite map_map. apply map_ext. intros page. cbn [rec_boxes].
    f_equal. rewrite map_map. apply map_ext. intros bbox.
    by apply resized_rec_box_unit.
  - destruct (dataInfo data) as [info|]; [|done].
    cbn [fmap option_fmap option_map set_if_opt info_width info_height pages].
    rewrite !int_inject_Z, map_map. reflexivity.
Qed.

(** X14: when [resize_data] returns, every page of the result has the
    canvas size truncated to integers and every block bbox has integer
    coordinates, the size read back by [get_pdf_size_from_data] is that
    truncated size, and scaling the result once more to its own size
    changes nothing. *)
Theorem resize_data_settles (data out : Data) (pdf_w pdf_h ppt_w ppt_h : Q) :
  resize_data data (pdf_w, pdf_h) (ppt_w, ppt_h) = Ok out ->
  let W := inject_Z (Py.int ppt_w) in
  let H := inject_Z (Py.int ppt_h) in
  Forall (fun page =>
            width page = Py.int ppt_w /\ height page = Py.int ppt_h
            /\ Forall (fun item =>
                         forall bbox, block_bbox item = Some bbox ->
                           exists l t r b : Z,
                             bbox = mkBBox (inject_Z l) (inject_Z t)
                                      (inject_Z r) (inject_Z b))
                 (parsing_res_list page))
    (layoutParsingResults out)
  /\ (layoutParsingResults data <> [] ->
      get_pdf_size_from_data out = Ok (Py.int ppt_w, Py.int ppt_h))
  /\ (~ W == 0 -> ~ H == 0 -> resize_data out (W, H) (W, H) = Ok out).
Proof.
  intros R W H. apply resize_data_inv in R as [B ->].
  split; [|split].
  - unfold resized_data. cbn [layoutParsingResults].
    apply List.Forall_forall. intros page' Hp.
    apply List.in_map_iff in Hp as (page & <- & _).
    cbn [width height parsing_res_list]. split; [done|]. split; [done|].
    apply List.Forall_forall. intros item' Hi.
    apply List.in_map_iff in Hi as (item & <- & _).
    intros bbox Hb. unfold resize_item in Hb.
    destruct (block_bbox item) as [b|] eqn:Bb; [|by rewrite Bb in Hb].
    cbn [set_bbox block_bbox] in Hb. injection Hb as <-.
    apply scale_bbox_integral.
  - intros N. unfold get_pdf_size_from_data, resized_data.
    cbn [layoutParsingResults].
    by destruct (layoutParsingResults data).
  - intros HW HH.
    assert (U : W / W == 1) by (field; exact HW).
    rewrite resize_data_ok; try done.
    + f_equal. by apply resized_data_unit.
    + assert (V : H / H == 1) by (field; exact HH).
      rewrite U, V. vm_compute. reflexivity.
    + unfold rec_boxes_at_most_four, resized_data in *. cbn [ocrResults].
      apply List.Forall_forall. intros page' Hp.
      apply List.in_map_iff in Hp as (page & <- & Hp).
      cbn [rec_boxes]. rewrite List.Forall_forall in B. specialize (B _ Hp).
      apply List.Forall_forall. intros bbox' Hb.
      apply List.in_map_iff in Hb as (bbox & <- & Hb).
      rewrite resized_rec_box_length.
      rewrite List.Forall_forall in B. by apply B.
Qed.

Lemma resize_data_settles_witness :
  let data :=
    mkData [mkPageLayout 1778 1000
              [mkBlock (Some "title"%string) (Some "Plan"%string)
                 (Some (mkBBox 489 50 1289 150))]]
           [mkPageOcr [[500; 60; 700; 90]]] None in
  exists out,
    resize_data data (1778, 1000) (720, 405) = Ok out
    /\ resize_data out (720, 405) (720, 405) = Ok out.
Proof.
  intros data.
  destruct (resize_data data (1778, 1000) (720, 405)) as [out|e] eqn:R;
    [|vm_compute in R; discriminate R].
  exists out. split; [reflexivity|].
  apply (proj2 (proj2 (resize_data_settles data out 1778 1000 720 405 R)));
    intros E; discriminate E.
Defined.

(** ** The whole conversion *)

Lemma pad_rec_box_length (offset_x : Z) (bbox : list Q) :
  length (pad_rec_box offset_x bbox) = length bbox.
Proof.
  unfold pad_rec_box. destruct (has_four bbox); [|done].
  by rewrite !length_insert.
Qed.

Lemma rec_box_clipped_length (left target : Z) (bbox : list Q) :
  length (rec_box_clipped left target bbox) = length bbox.
Proof. unfold rec_box_clipped. by rewrite !length_insert. Qed.

Lemma wide_screen_lengths (data : Data) :
  length (layoutParsingResults (make_data_wide_screen data))
  = length (layoutParsingResults data)
  /\ length (ocrResults (make_data_wide_screen data))
     = length (ocrResults data).
Proof.
  assert (C : make_data_wide_screen data = data
              \/ exists first rest, layoutParsingResults data = first :: rest).
  { unfold make_data_wide_screen.
    destruct (layoutParsingResults data) as [|first rest]; eauto. }
  destruct C as [->|(first & rest & E)]; [done|].
  destruct (wide_screen_cases data first rest E)
    as [[_ ->]|[[_ [info ->]]|[_ [info ->]]]];
    cbn [layoutParsingResults ocrResults]; by rewrite ?length_map.
Qed.

Lemma wide_screen_well_formed (data : Data) :
  ocr_boxes_well_formed data ->
  ocr_boxes_well_formed (make_data_wide_screen data).
Proof.
  intros B.
  assert (C : make_data_wide_screen data = data
              \/ exists first rest, layoutParsingResults data = first :: rest).
  { unfold make_data_wide_screen.
    destruct (layoutParsingResults data) as [|first rest]; eauto. }
  destruct C as [->|(first & rest & E)]; [done|].
  unfold ocr_boxes_well_formed in *.
  destruct (wide_screen_cases data first rest E)
    as [[_ ->]|[[_ [info ->]]|[_ [info ->]]]]; [done| |];
    cbn [ocrResults]; apply List.Forall_forall; intros page' Hp;
    apply List.in_map_iff in Hp as (page & <- & Hp); cbn [rec_boxes];
    rewrite List.Forall_forall in B; specialize (B _ Hp);
    rewrite List.Forall_forall in B;
    apply List.Forall_forall; intros bbox' Hb;
    apply List.in_map_iff in Hb as (bbox & <- & Hb).
  - rewrite pad_rec_box_length. by apply B.
  - rewrite rec_box_clipped_length. apply List.filter_In in Hb as [Hb _].
    by apply B.
Qed.

Lemma well_formed_at_most_four (data : Data) :
  ocr_boxes_well_formed data -> rec_boxes_at_most_four data.
Proof.
  unfold ocr_boxes_well_formed, rec_boxes_at_most_four. intros B.
  eapply List.Forall_impl; [|exact B]. intros page Hp.
  eapply List.Forall_impl; [|exact Hp]. intros bbox Hb. cbv beta in *. lia.
Qed.

Lemma resized_data_well_formed (data : Data) (s w h : Q) :
  ocr_boxes_well_formed data ->
  ocr_boxes_well_formed (resized_data data s w h).
Proof.
  unfold ocr_boxes_well_formed, resized_data. cbn [ocrResults]. intros B.
  apply List.Forall_forall. intros page' Hp.
  apply List.in_map_iff in Hp as (page & <- & Hp). cbn [rec_boxes].
  rewrite List.Forall_forall in B. specialize (B _ Hp).
  rewrite List.Forall_forall in B.
  apply List.Forall_forall. intros bbox' Hb.
  apply List.in_map_iff in Hb as (bbox & <- & Hb).
  rewrite resized_rec_box_length. by apply B.
Qed.

Lemma process_text_blocks_background (slide slide' : Slide) (items : list Block)
    (ocr_boxes : list (list Q)) (scale ppt_width ppt_height : Q)
    (font_name : string) :
  process_text_blocks slide items ocr_boxes scale ppt_width ppt_height font_name
  = Ok slide' ->
  background slide' = background slide.
Proof.
  revert slide. induction items as [|item rest IH]; intros slide H.
  - by injection H as <-.
  - cbn [process_text_blocks] in H.
    destruct (block_bbox item) as [bbox|]; [|by apply IH].
    destruct (should_skip_text_block _ _); [by apply IH|].
    destruct (get_line_count bbox ocr_boxes) as [n|e];
      cbn [mbind outcome_bind] in H; [|discriminate H].
    apply IH in H. rewrite H. unfold create_text_shape.
    by destruct (String.eqb _ _).
Qed.

Section Conversion.

Context {Pixel : Type}.
Variable sampler : @Raster Pixel -> Z -> Z -> Z -> Z -> Z -> Q * Pixel.
Variable resize : @Raster Pixel -> Z * Z -> @Raster Pixel.
Variable preset_size : SlideSizeType -> Q * Q.
Variable custom_size : Q * Q -> Outcome (Q * Q).

Lemma process_page_ok (files0 : list (FileName * @Raster Pixel))
    (items : list Block) (ocr_boxes : list (list Q))
    (png_files : list (option (@Raster Pixel))) (pdf_size : Z * Z)
    (ppt_width ppt_height : Q) (page_idx : nat) :
  (0 < fst pdf_size)%Z ->
  (forall img size, image_w (resize img size) = fst size) ->
  Forall (fun bbox => length bbox = 4%nat) ocr_boxes ->
  exists w,
    process_page sampler resize files0 items ocr_boxes png_files pdf_size
      ppt_width ppt_height page_idx = Ok w
    /\ background (slide w) = page_background png_files page_idx.
Proof.
  intros Hw Hr B. unfold process_page, page_background.
  destruct (four_number_boxes ocr_boxes B) as [boxes ->].
  destruct (process_text_blocks_returns empty_slide items boxes 1 ppt_width
              ppt_height "Calibri") as [slide1 E].
  rewrite E. cbn [mbind outcome_bind].
  apply process_text_blocks_background in E.
  destruct (png_files !! page_idx) as [[img|]|].
  - rewrite process_slide_background_closed; [|done|by rewrite Hr].
    eexists. split; [reflexivity|]. reflexivity.
  - eexists. split; [reflexivity|]. exact E.
  - eexists. split; [reflexivity|]. exact E.
Qed.

Lemma page_loop_ok (layout_results : list PageLayout) (page_idx : nat)
    (ocr_results : list PageOcr) (png_files : list (option (@Raster Pixel)))
    (pdf_size : Z * Z) (ppt_width ppt_height : Q) (slides : list Slide)
    (files0 : list (FileName * @Raster Pixel)) :
  (0 < fst pdf_size)%Z ->
  (forall img size, image_w (resize img size) = fst size) ->
  Forall (fun page => Forall (fun bbox => length bbox = 4%nat) (rec_boxes page))
    ocr_results ->
  (page_idx + length layout_results <= length ocr_results)%nat ->
  exists new files1,
    page_loop sampler resize page_idx layout_results ocr_results png_files
      pdf_size ppt_width ppt_height slides files0
    = Ok (slides ++ new, files1)
    /\ length new = length layout_results
    /\ forall k slide,
        new !! k = Some slide ->
        background slide = page_background png_files (page_idx + k).
Proof.
  intros Hw Hr B.
  revert page_idx slides files0.
  induction layout_results as [|page rest IH]; intros page_idx slides files0 L.
  - exists [], files0. cbn [page_loop]. rewrite app_nil_r.
    split; [done|]. split; [done|]. intros k slide Hk. done.
  - cbn [length] in L. cbn [page_loop].
    destruct (lookup_lt_is_Some_2 ocr_results page_idx) as [page_ocr E]; [lia|].
    rewrite E.
    assert (Bp : Forall (fun bbox => length bbox = 4%nat) (rec_boxes page_ocr)).
    { exact (Forall_lookup_1 _ _ _ _ B E). }
    destruct (process_page_ok files0 (parsing_res_list page)
                (rec_boxes page_ocr) png_files pdf_size ppt_width ppt_height
                page_idx Hw Hr Bp) as (w & -> & Bg).
    cbn [mbind outcome_bind].
    destruct (IH (S page_idx) (slides ++ [slide w]) (files w))
      as (new & files1 & -> & Ln & Bn); [lia|].
    exists (slide w :: new), files1. rewrite <- app_assoc.
    split; [done|]. split; [cbn [length]; lia|].
    intros [|k] s Hk.
    + injection Hk as <-. by rewrite Nat.add_0_r.
    + replace (page_idx + S k)%nat with (S page_idx + k)%nat by lia.
      by apply Bn.
Qed.

Lemma page_loop_needs_ocr (layout_results : list PageLayout) (page_idx : nat)
    (ocr_results : list PageOcr) (png_files : list (option (@Raster Pixel)))
    (pdf_size : Z * Z) (ppt_width ppt_height : Q) (slides : list Slide)
    (files0 : list (FileName * @Raster Pixel))
    (r : list Slide * list (FileName * @Raster Pixel)) :
  page_loop sampler resize page_idx layout_results ocr_results png_files
    pdf_size ppt_width ppt_height slides files0 = Ok r ->
  layout_results = []
  \/ (page_idx + length layout_results <= length ocr_results)%nat.
Proof.
  revert page_idx slides files0.
  induction layout_results as [|page rest IH]; intros page_idx slides files0 H;
    [by left|right].
  cbn [page_loop] in H. cbn [length].
  destruct (ocr_results !! page_idx) as [page_ocr|] eqn:E; [|discriminate H].
  apply lookup_lt_Some in E.
  destruct (process_page _ _ _ _ _ _ _ _ _ _) as [w|e];
    cbn [mbind outcome_bind] in H; [|discriminate H].
  apply IH in H as [->|H]; cbn [length]; lia.
Qed.

(** X15: a document is converted whenever its first page has a positive
    height, every OCR box has four numbers, there are at least as many OCR
    pages as layout pages, the 16:9 preset canvas is at least 100 wide with
    its height 9/16 of its width and the widened page has more than fifty
    times the canvas height in area, and [resize] returns an image of the
    width asked for.  The presentation then has the 16:9 preset and one
    slide per layout page, in page order, and the slide of a page carries
    the processed page image as its background exactly when the page has
    an image. *)
Theorem create_ppt_from_paddle_json_converts (data : Data) (first : PageLayout)
    (rest : list PageLayout) (png_files : list (option (@Raster Pixel)))
    (W H : Q) :
  layoutParsingResults data = first :: rest ->
  (0 < height first)%Z ->
  ocr_boxes_well_formed data ->
  (length (layoutParsingResults data) <= length (ocrResults data))%nat ->
  preset_size Screen16x9 = (W, H) ->
  100 <= W -> 9 * W == 16 * H ->
  50 * H < inject_Z (wide_target_width (height first)) * inject_Z (height first) ->
  (forall img size, image_w (resize img size) = fst size) ->
  exists slides files1,
    create_ppt_from_paddle_json sampler resize preset_size custom_size data png_files
    = Ok (Screen16x9, slides, files1)
    /\ length slides = length (layoutParsingResults data)
    /\ forall k slide,
        slides !! k = Some slide ->
        background slide = page_background png_files k.
Proof.
  intros E Hh B L P HW R A Hr.
  assert (HH : 0 < H) by lra.
  pose proof (target_width_positive _ Hh) as Tp.
  destruct (wide_screen_first_page data first rest E) as (f' & r' & E' & Wf & Hf).
  destruct (wide_screen_lengths data) as [Ll Lo].
  pose proof (wide_screen_well_formed data B) as B'.
  unfold create_ppt_from_paddle_json. cbv zeta.
  set (data1 := make_data_wide_screen data) in *.
  assert (G : get_pdf_size_from_data data1
              = Ok (wide_target_width (height first), height first)).
  { unfold get_pdf_size_from_data. by rewrite E', Wf, Hf. }
  rewrite G. cbn [mbind outcome_bind].
  rewrite setup_presentation_widened by done. cbn [mbind outcome_bind].
  rewrite P. cbn [fst snd]. unfold as_size. cbn [fst snd].
  rewrite resize_data_ok.
  2:{ intros Z0. rewrite Zlt_Qlt in Tp. change (inject_Z 0) with 0 in Tp.
      rewrite Z0 in Tp. lra. }
  2:{ intros Z0. rewrite Zlt_Qlt in Hh. change (inject_Z 0) with 0 in Hh.
      rewrite Z0 in Hh. lra. }
  2:{ by apply widened_scales_agree. }
  2:{ by apply well_formed_at_most_four. }
  cbn [mbind outcome_bind].
  set (s := W / inject_Z (wide_target_width (height first))).
  pose proof (resized_data_well_formed data1 s W H B') as B''.
  assert (G2 : get_pdf_size_from_data (resized_data data1 s W H)
               = Ok (Py.int W, Py.int H)).
  { unfold get_pdf_size_from_data, resized_data. cbn [layoutParsingResults].
    by rewrite E'. }
  rewrite G2. cbn [mbind outcome_bind fst snd].
  assert (Iw : (100 <= Py.int W)%Z).
  { change 100%Z with (Py.int (inject_Z 100)) at 1.
    apply int_mono. exact HW. }
  destruct (Z.eqb_spec (Py.int W) 0) as [Z0|_]; [lia|].
  rewrite (proj2 (ltb_lt _ _)) by (by apply canvas_scale_near_one).
  cbn [negb].
  destruct (page_loop_ok (layoutParsingResults (resized_data data1 s W H)) 0
              (ocrResults (resized_data data1 s W H)) png_files
              (Py.int W, Py.int H) W H [] [])
    as (new & files1 & -> & Ln & Bn).
  - cbn [fst]. lia.
  - exact Hr.
  - exact B''.
  - unfold resized_data. cbn [layoutParsingResults ocrResults].
    rewrite !length_map. lia.
  - cbn [mbind outcome_bind app]. exists new, files1.
    split; [done|]. split.
    + rewrite Ln. unfold resized_data. cbn [layoutParsingResults].
      rewrite length_map. exact Ll.
    + exact Bn.
Qed.

(** X16: a document without layout pages is not converted:
    [get_pdf_size_from_data] fails on the empty page list with an
    [IndexError] before any slide is made. *)
Theorem create_ppt_from_paddle_json_empty (data : Data)
    (png_files : list (option (@Raster Pixel))) :
  layoutParsingResults data = [] ->
  create_ppt_from_paddle_json sampler resize preset_size custom_size data png_files
  = Raise IndexError.
Proof.
  intros E. unfold create_ppt_from_paddle_json, make_data_wide_screen.
  rewrite E. unfold get_pdf_size_from_data. by rewrite E.
Qed.

(** X17: a document whose first page has height 0 is not converted: the
    aspect ratio of [setup_presentation] divides by the page height and
    the conversion ends with a [ZeroDivisionError]. *)
Theorem create_ppt_from_paddle_json_flat_page (data : Data)
    (first : PageLayout) (rest : list PageLayout)
    (png_files : list (option (@Raster Pixel))) :
  layoutParsingResults data = first :: rest ->
  height first = 0%Z ->
  create_ppt_from_paddle_json sampler resize preset_size custom_size data png_files
  = Raise ZeroDivisionError.
Proof.
  intros E Hh.
  destruct (wide_screen_first_page data first rest E) as (f' & r' & E' & Wf & Hf).
  assert (G : get_pdf_size_from_data (make_data_wide_screen data)
              = Ok (wide_target_width 0, 0%Z)).
  { unfold get_pdf_size_from_data. by rewrite E', Wf, Hf, Hh. }
  unfold create_ppt_from_paddle_json. cbv zeta. by rewrite G.
Qed.

(** X18: a document with fewer OCR pages than layout pages is never
    converted: whatever else holds, the page loop runs out of OCR pages
    and no presentation is returned. *)
Theorem create_ppt_from_paddle_json_needs_ocr (data : Data)
    (png_files : list (option (@Raster Pixel)))
    (r : SlideSizeType * list Slide * list (FileName * @Raster Pixel)) :
  (length (ocrResults data) < length (layoutParsingResults data))%nat ->
  create_ppt_from_paddle_json sampler resize preset_size custom_size data png_files
  <> Ok r.
Proof.
  intros L F. destruct (wide_screen_lengths data) as [Ll Lo].
  unfold create_ppt_from_paddle_json in F. cbv zeta in F.
  set (data1 := make_data_wide_screen data) in *.
  destruct (get_pdf_size_from_data data1) as [pdf_size|e];
    cbn [mbind outcome_bind] in F; [|discriminate F].
  destruct (setup_presentation preset_size custom_size pdf_size) as [[[ty W] H]|e];
    cbn [mbind outcome_bind] in F; [|discriminate F].
  destruct (resize_data data1 (as_size pdf_size) (W, H)) as [data2|e] eqn:R;
    cbn [mbind outcome_bind] in F; [|discriminate F].
  unfold as_size in R. apply resize_data_inv in R as [_ ->].
  destruct (get_pdf_size_from_data _) as [pdf_size2|e];
    cbn [mbind outcome_bind] in F; [|discriminate F].
  destruct (fst pdf_size2 =? 0)%Z; [discriminate F|].
  destruct (negb _); [discriminate F|].
  destruct (page_loop _ _ _ _ _ _ _ _ _ _ _) as [[slides files1]|e] eqn:Pl;
    cbn [mbind outcome_bind] in F; [|discriminate F].
  apply page_loop_needs_ocr in Pl. unfold resized_data in Pl.
  cbn [layoutParsingResults ocrResults] in Pl.
  rewrite !length_map in Pl.
  destruct Pl as [Pl|Pl]; [|lia].
  apply (f_equal length) in Pl. rewrite length_map in Pl. cbn [length] in Pl.
  lia.
Qed.

End Conversion.

Lemma create_ppt_from_paddle_json_converts_witness :
  let data :=
    mkData [mkPageLayout 1778 1000
              [mkBlock (Some "title"%string) (Some "Plan"%string)
                 (Some (mkBBox 489 50 1289 150))]]
           [mkPageOcr [[500; 60; 700; 90]]] None in
  let page := mkRaster 1000 1778 (fun _ _ => 0%Z) in
  exists slides files1,
    create_ppt_from_paddle_json (fun _ _ _ _ _ _ => (0, 0%Z))
      (fun img size => mkRaster (snd size) (fst size) (pixel img))
      (fun _ => (720, 405)) (fun size => Ok size) data [Some page]
    = Ok (Screen16x9, slides, files1)
    /\ length slides = 1%nat.
Proof.
  intros data page.
  destruct (create_ppt_from_paddle_json_converts
              (fun _ _ _ _ _ _ => (0, 0%Z))
              (fun img size => mkRaster (snd size) (fst size) (pixel img))
              (fun _ => (720, 405)) (fun size => Ok size) data
              (mkPageLayout 1778 1000
                 [mkBlock (Some "title"%string) (Some "Plan"%string)
                    (Some (mkBBox 489 50 1289 150))])
              [] [Some page] 720 405)
    as (slides & files1 & A & B & _).
  - reflexivity.
  - reflexivity.
  - repeat constructor.
  - apply le_n.
  - reflexivity.
  - discriminate.
  - reflexivity.
  - reflexivity.
  - reflexivity.
  - exists slides, files1. split; [exact A | exact B].
Defined.

Lemma create_ppt_from_paddle_json_empty_witness :
  create_ppt_from_paddle_json (fun _ _ _ _ _ _ => (0, 0%Z))
    (fun img size => mkRaster (snd size) (fst size) (pixel img))
    (fun _ => (720, 405)) (fun size => Ok size)
    (mkData [] [mkPageOcr [[500; 60; 700; 90]]] None)
    [Some (mkRaster 1000 1778 (fun _ _ => 0%Z))]
  = Raise IndexError.
Proof.
  apply (create_ppt_from_paddle_json_empty (fun _ _ _ _ _ _ => (0, 0%Z))).
  reflexivity.
Defined.

Lemma create_ppt_from_paddle_json_flat_page_witness :
  create_ppt_from_paddle_json (fun _ _ _ _ _ _ => (0, 0%Z))
    (fun img size => mkRaster (snd size) (fst size) (pixel img))
    (fun _ => (720, 405)) (fun size => Ok size)
    (mkData [mkPageLayout 1778 0 []] [mkPageOcr []] None)
    [Some (mkRaster 1000 1778 (fun _ _ => 0%Z))]
  = Raise ZeroDivisionError.
Proof.
  apply (create_ppt_from_paddle_json_flat_page (fun _ _ _ _ _ _ => (0, 0%Z))
           _ _ _ _ (mkPageLayout 1778 0 []) []);
    reflexivity.
Defined.

Lemma create_ppt_from_paddle_json_needs_ocr_witness :
  create_ppt_from_paddle_json (fun _ _ _ _ _ _ => (0, 0%Z))
    (fun img size => mkRaster (snd size) (fst size) (pixel img))
    (fun _ => (720, 405)) (fun size => Ok size)
    (mkData [mkPageLayout 1778 1000 []; mkPageLayout 1778 1000 []]
            [mkPageOcr []] None)
    [Some (mkRaster 1000 1778 (fun _ _ => 0%Z))]
  <> Ok (Screen16x9, [], []).
Proof.
  apply (create_ppt_from_paddle_json_needs_ocr (fun _ _ _ _ _ _ => (0, 0%Z))).
  apply le_n.
Defined.

(** ** The page images made wide *)

Section WideImage.

Context {Pixel : Type}.
Variable white : Pixel.

(** X19: [make_wide_screen] leaves a page image of positive size with its
    height and with the width [round(height * 16 / 9)], whichever of the
    three branches is taken; a second pass over the result changes
    nothing. *)
Theorem make_wide_screen_image_size (img : @Raster Pixel) :
  (0 < image_w img)%Z -> (0 < image_h img)%Z ->
  let img' := make_wide_screen_image white img in
  image_h img' = image_h img
  /\ image_w img' = wide_target_width (image_h img)
  /\ make_wide_screen_image white img' = img'.
Proof.
  intros Hw Hh img'.
  assert (S : image_h img' = image_h img
              /\ image_w img' = wide_target_width (image_h img)).
  { unfold img', make_wide_screen_image.
    destruct (Z.ltb_spec (image_w img) (wide_target_width (image_h img)));
      [done|].
    destruct (Z.ltb_spec (wide_target_width (image_h img)) (image_w img));
      cbn [image_h image_w]; split; try done; lia. }
  destruct S as [Sh Sw]. split; [done|]. split; [done|].
  unfold make_wide_screen_image at 1. rewrite Sh, Sw.
  by rewrite Z.ltb_irrefl.
Qed.

(** X20: what [make_wide_screen] does to the pixels of a page image of
    positive size.  When the image is narrower than 16:9, the pixel of
    column [x] moves to column [x + offset] with
    [offset = (target_width - width) // 2], and the columns before
    [offset] and from [offset + width] on are white.  When it is wider,
    the columns [left] to [left + target_width - 1] are kept, with
    [left = (width - target_width) // 2], and column [x] of the result is
    column [x + left] of the image. *)
Theorem make_wide_screen_image_pixels (img : @Raster Pixel) :
  (0 < image_w img)%Z -> (0 < image_h img)%Z ->
  let target_width := wide_target_width (image_h img) in
  let img' := make_wide_screen_image white img in
  ((image_w img < target_width)%Z ->
   let offset := ((target_width - image_w img) / 2)%Z in
   (0 <= offset)%Z /\ (offset + image_w img <= target_width)%Z
   /\ (forall y x,
         (0 <= y < image_h img)%Z -> (0 <= x < image_w img)%Z ->
         pixel img' y (x + offset) = pixel img y x)
   /\ (forall y x,
         (x < offset \/ offset + image_w img <= x)%Z ->
         pixel img' y x = white))
  /\ ((target_width < image_w img)%Z ->
      let left := ((image_w img - target_width) / 2)%Z in
      (0 <= left)%Z /\ (left + target_width <= image_w img)%Z
      /\ forall y x, pixel img' y x = pixel img y (x + left)).
Proof.
  intros Hw Hh target_width img'. split.
  - intros L offset.
    assert (O : (0 <= offset)%Z) by (apply Z.div_pos; lia).
    assert (O2 : (2 * offset <= target_width - image_w img)%Z)
      by (apply Z.mul_div_le; lia).
    split; [done|]. split; [lia|].
    unfold img', make_wide_screen_image. fold target_width.
    destruct (Z.ltb_spec (image_w img) target_width) as [_|N]; [|lia].
    fold offset. cbn [pixel]. split.
    + intros y x Hy Hx.
      destruct (Z.leb_spec offset (x + offset)); [|lia].
      destruct (Z.ltb_spec (x + offset) (offset + image_w img)); [|lia].
      destruct (Z.leb_spec 0 y); [|lia].
      destruct (Z.ltb_spec y (image_h img)); [|lia].
      cbn [andb]. f_equal. lia.
    + intros y x Hx.
      destruct (Z.leb_spec offset x); [|done].
      destruct (Z.ltb_spec x (offset + image_w img)); [lia|done].
  - intros L left.
    assert (O : (0 <= left)%Z) by (apply Z.div_pos; lia).
    assert (O2 : (2 * left <= image_w img - target_width)%Z)
      by (apply Z.mul_div_le; lia).
    assert (T : (0 < target_width)%Z) by (by apply target_width_positive).
    split; [done|]. split; [lia|].
    unfold img', make_wide_screen_image. fold target_width.
    destruct (Z.ltb_spec (image_w img) target_width) as [N|_]; [lia|].
    destruct (Z.ltb_spec target_width (image_w img)) as [_|N]; [|lia].
    done.
Qed.

End WideImage.

Lemma make_wide_screen_image_size_witness :
  let img := mkRaster 1000 1500 (fun y x => (y + x)%Z) in
  image_w (make_wide_screen_image 0%Z img) = 1778%Z.
Proof.
  intros img.
  apply (make_wide_screen_image_size 0%Z img); reflexivity.
Defined.

Lemma make_wide_screen_image_pixels_witness :
  let img := mkRaster 1000 1500 (fun y x => (y + x)%Z) in
  pixel (make_wide_screen_image 0%Z img) 10 (20 + 139) = 30%Z.
Proof.
  intros img.
  destruct (make_wide_screen_image_pixels 0%Z img) as [P _];
    [reflexivity|reflexivity|].
  destruct P as (_ & _ & P & _); [reflexivity|].
  apply (P 10%Z 20%Z); unfold img; cbn [image_h image_w]; lia.
Defined.

(** ** Merging the two recognition results *)

Section Merge.

Context {V : Type}.

Lemma merge_results_lookup (vl_data v5_data : gmap string V) (key : string) :
  merge_results vl_data v5_data !! key
  = if decide (key = "ocrResults"%string) then
      match v5_data !! key with Some ocr => Some ocr | None => vl_data !! key end
    else if decide (key = "dataInfo"%string) then
      match vl_data !! key with Some info => Some info | None => v5_data !! key end
    else vl_data !! key.
Proof.
  unfold merge_results.
  assert (D : forall m : gmap string V,
            match v5_data !! "ocrResults"%string with
            | Some ocr => <["ocrResults"%string := ocr]> m
            | None => m
            end !! "dataInfo"%string = m !! "dataInfo"%string).
  { intros m. destruct (v5_data !! "ocrResults"%string); [|done].
    by rewrite lookup_insert_ne. }
  rewrite D.
  destruct (decide (key = "ocrResults"%string)) as [->|No].
  - assert (O : (match vl_data !! "dataInfo"%string,
                       v5_data !! "dataInfo"%string with
                 | None, Some info => true
                 | _, _ => false
                 end = true
                 -> forall (m : gmap string V) info,
                      <["dataInfo"%string := info]> m !! "ocrResults"%string
                      = m !! "ocrResults"%string)).
    { intros _ m info. by rewrite lookup_insert_ne. }
    destruct (vl_data !! "dataInfo"%string), (v5_data !! "dataInfo"%string);
      rewrite ?O by done;
      destruct (v5_data !! "ocrResults"%string);
      by rewrite ?lookup_insert_eq.
  - destruct (decide (key = "dataInfo"%string)) as [->|Nd].
    + destruct (vl_data !! "dataInfo"%string) as [info|] eqn:I.
      * rewrite D. exact I.
      * destruct (v5_data !! "dataInfo"%string) as [info|].
        -- by rewrite lookup_insert_eq.
        -- rewrite D. exact I.
    + assert (K : forall m : gmap string V,
                match v5_data !! "ocrResults"%string with
                | Some ocr => <["ocrResults"%string := ocr]> m
                | None => m
                end !! key = m !! key).
      { intros m. destruct (v5_data !! "ocrResults"%string); [|done].
        by rewrite lookup_insert_ne. }
      destruct (vl_data !! "dataInfo"%string);
        [by rewrite K|].
      destruct (v5_data !! "dataInfo"%string); [|by rewrite K].
      by rewrite lookup_insert_ne, K.
Qed.

(** X21: what [merge_results] writes: every top-level key other than
    [ocrResults] and [dataInfo] keeps the value of the VL document, so the
    layout of the second document is never used; [ocrResults] is taken from
    the second document whenever it has the key, and from the VL document
    otherwise; [dataInfo] is taken from the VL document whenever it has the
    key, and from the second document otherwise. *)
Theorem merge_results_keys (vl_data v5_data : gmap string V) :
  let merged_result := merge_results vl_data v5_data in
  (forall key, key <> "ocrResults"%string -> key <> "dataInfo"%string ->
     merged_result !! key = vl_data !! key)
  /\ merged_result !! "ocrResults"%string
     = match v5_data !! "ocrResults"%string with
       | Some ocr => Some ocr
       | None => vl_data !! "ocrResults"%string
       end
  /\ merged_result !! "dataInfo"%string
     = match vl_data !! "dataInfo"%string with
       | Some info => Some info
       | None => v5_data !! "dataInfo"%string
       end.
Proof.
  intros merged_result. unfold merged_result. split; [|split].
  - intros key No Nd. rewrite merge_results_lookup.
    by rewrite !decide_False.
  - by rewrite merge_results_lookup.
  - by rewrite merge_results_lookup.
Qed.

(** X22: merging is settled after one pass: merging the second document
    into the merged result once more gives the merged result again, and a
    VL document merged with itself is unchanged. *)
Theorem merge_results_idempotent (vl_data v5_data : gmap string V) :
  merge_results (merge_results vl_data v5_data) v5_data
  = merge_results vl_data v5_data
  /\ merge_results vl_data vl_data = vl_data.
Proof.
  split; apply map_eq; intros key; rewrite !merge_results_lookup.
  - destruct (decide (key = "ocrResults"%string)) as [->|No].
    + by destruct (v5_data !! "ocrResults"%string).
    + destruct (decide (key = "dataInfo"%string)) as [->|Nd]; [|done].
      destruct (vl_data !! "dataInfo"%string); [done|].
      by destruct (v5_data !! "dataInfo"%string).
  - destruct (decide (key = "ocrResults"%string)) as [->|No].
    + by destruct (vl_data !! "ocrResults"%string).
    + destruct (decide (key = "dataInfo"%string)) as [->|Nd]; [|done].
      by destruct (vl_data !! "dataInfo"%string).
Qed.

End Merge.

Lemma merge_results_keys_witness :
  let vl_data : gmap string Z :=
    <["layoutParsingResults"%string := 1%Z]> (<["logId"%string := 7%Z]> ∅) in
  let v5_data : gmap string Z :=
    <["layoutParsingResults"%string := 3%Z]> (<["ocrResults"%string := 2%Z]> ∅) in
  merge_results vl_data v5_data !! "layoutParsingResults"%string
  = vl_data !! "layoutParsingResults"%string.
Proof.
  intros vl_data v5_data.
  apply (proj1 (merge_results_keys vl_data v5_data)); discriminate.
Defined.

(** ** The background pass on the whole page *)

Section PageBackground.

Context {Pixel : Type}.
Variable sampler : @Raster Pixel -> Z -> Z -> Z -> Z -> Z -> Q * Pixel.
Variable resize : @Raster Pixel -> Z * Z -> @Raster Pixel.


(** X23: the page background that [process_slide_background] saves has
    the size of the resized page image and differs from it at most inside
    the pixel rectangles of the erasable blocks: every pixel that lies in
    none of them is the pixel of the resized image.  The background is the
    last file the pass writes. *)
Theorem process_slide_background_frame (w : @World Pixel) (items : list Block)
    (img : @Raster Pixel) (pdf_size : Z * Z) (scale : Q) (page_idx : nat) :
  (0 < fst pdf_size)%Z ->
  (0 < image_w (resize img pdf_size))%Z ->
  let image_cv := resize img pdf_size in
  let img_scale := inject_Z (image_w image_cv) / inject_Z (fst pdf_size) in
  exists w' earlier processed,
    process_slide_background sampler resize w items (Some img) pdf_size scale
      page_idx = Ok w'
    /\ files w' = earlier ++ [(ProcessedPng (page_idx + 1), processed)]
    /\ image_h processed = image_h image_cv
    /\ image_w processed = image_w image_cv
    /\ forall y x,
        (forall item t b l r,
           In item items ->
           label_in (default "None"%string (block_label item)) erasable_labels
           = true ->
           labelled_rect erasable_labels img_scale pdf_size item
           = Some (t, b, l, r) ->
           ~ ((t <= y < b)%Z /\ (l <= x < r)%Z)) ->
        pixel processed y x = pixel image_cv y x.
Proof.
  intros Hw Hi image_cv img_scale.
  pose proof (scale_positive _ _ Hw Hi) as Hs. fold image_cv img_scale in Hs.
  pose proof (process_slide_background_closed sampler resize w items img
                pdf_size scale page_idx Hw Hi) as E.
  cbv zeta in E. fold image_cv img_scale in E.
  destruct (erase_all_frame sampler img_scale pdf_size items image_cv)
    as (Fh & Fw & Fp);
    [lra|].
  eexists _, _, _. split; [exact E|]. cbn [files].
  split; [by rewrite app_assoc|]. split; [exact Fh|]. split; [exact Fw|].
  intros y x Out. apply Fp. intros item t b l r Hin R.
  apply (Out item t b l r Hin); [|exact R].
  unfold labelled_rect in R. by destruct (label_in _ erasable_labels).
Qed.


End PageBackground.

Lemma process_slide_background_frame_witness :
  let img := mkRaster 1000 1000 (fun y x => (y + x)%Z) in
  let identity := fun (img : @Raster Z) (size : Z * Z) => img in
  exists w',
    process_slide_background (fun _ _ _ _ _ _ => (0, 0%Z)) identity
      (mkWorld empty_slide [] []) [title_block "Plan"] (Some img) (1000, 1000)%Z
      1 0 = Ok w'.
Proof.
  intros img identity.
  destruct (process_slide_background_frame (fun _ _ _ _ _ _ => (0, 0%Z))
              identity (mkWorld empty_slide [] []) [title_block "Plan"] img
              (1000, 1000)%Z 1 0)
    as (w' & _ & _ & E & _); [reflexivity|reflexivity|].
  exists w'. exact E.
Defined.


(** ** The stored page size *)

(** X25: [update_data_size] with a height stamps one size on every page:
    the size read back by [get_pdf_size_from_data] is the size written,
    truncated to integers; a size written earlier, with or without a
    height, is overwritten without trace; the blocks and the OCR boxes
    are not touched. *)
Theorem update_data_size_overrides (data : Data) (w1 w2 h2 : Q)
    (h1 : option Q) :
  let data' := update_data_size data w2 (Some h2) in
  update_data_size (update_data_size data w1 h1) w2 (Some h2) = data'
  /\ (layoutParsingResults data <> [] ->
      get_pdf_size_from_data data' = Ok (Py.int w2, Py.int h2))
  /\ Forall (fun page => width page = Py.int w2 /\ height page = Py.int h2)
       (layoutParsingResults data')
  /\ map parsing_res_list (layoutParsingResults data')
     = map parsing_res_list (layoutParsingResults data)
  /\ ocrResults data' = ocrResults data.
Proof.
  intros data'. unfold data', update_data_size.
  cbn [layoutParsingResults ocrResults dataInfo fmap option_fmap option_map
       set_if set_if_opt].
  split; [|split; [|split; [|split]]].
  - f_equal.
    + rewrite map_map. by apply map_ext.
    + destruct (dataInfo data) as [info|]; [|done].
      cbn [fmap option_fmap option_map info_width info_height pages].
      by rewrite map_map.
  - intros N. unfold get_pdf_size_from_data. cbn [layoutParsingResults].
    by destruct (layoutParsingResults data).
  - apply List.Forall_forall. intros page' Hp.
    by apply List.in_map_iff in Hp as (page & <- & _).
  - rewrite map_map. by apply map_ext.
  - done.
Qed.

Lemma update_data_size_overrides_witness :
  let data :=
    mkData [mkPageLayout 1778 1000 []; mkPageLayout 1600 900 []]
           [mkPageOcr []] None in
  get_pdf_size_from_data (update_data_size data 720 (Some 405))
  = Ok (720, 405)%Z.
Proof.
  intros data.
  apply (proj1 (proj2 (update_data_size_overrides data 0 720 405 None))).
  discriminate.
Defined.
